(** * DeepEval judge-call metrics: Bias, Faithfulness, Summarization

    A shallow embedding of

      - deepeval/metrics/bias/bias.py
      - deepeval/metrics/faithfulness/faithfulness.py
      - deepeval/metrics/summarization/summarization.py
      - deepeval/metrics/indicator.py

    Python objects become records, methods become computations in a state
    and exception monad over the receiver, and the collaborators that the
    four files import but do not define (the judge model, the prompt
    templates, [trimAndLoadJson], the cache, the progress bar) are explicit
    parameters.

    Conventions.
      - A Python [float] is a rational number ([Q]); [==] is equality of
        rationals.  Rounding of the one division a score performs is not
        modelled.
      - A Python [str] is a [string] whose characters are the code points
        0..255; [strip] and [lower] are exact on that range.
      - [None] is [None]: an attribute that may hold [None] has an [option]
        type.  What a stage reads out of the judge's answer is a parsed
        value of any shape, as in the code.
      - The judge model is a function of the prompt.  *)

From Stdlib Require Import QArith Qminmax ZArith String Ascii List Bool Lia Lqa.
From Stdlib Require Import DecimalString.
Import ListNotations.

Set Implicit Arguments.
Set Warnings "-register-all".
Close Scope Q_scope.

(* ================================================================== *)
(** * Part I.  The Python fragment the metrics rely on                 *)
(* ================================================================== *)

(** ** Strings: [str.strip], [str.lower], [str.join] *)

Module PyStr.

(** [c.isspace()] for a code point below 256: TAB..CR, FS..US, SPACE,
    NEL (0x85) and NBSP (0xA0). *)
Definition isspace (c : ascii) : bool :=
  let n := nat_of_ascii c in
  ((9 <=? n) && (n <=? 13)) || ((28 <=? n) && (n <=? 32))
  || (n =? 133) || (n =? 160).

(** [c.lower()] for a code point below 256: A..Z and the Latin-1 capitals
    0xC0..0xDE (the multiplication sign 0xD7 apart) move up by 32. *)
Definition lower_char (c : ascii) : ascii :=
  let n := nat_of_ascii c in
  if ((65 <=? n) && (n <=? 90))
     || ((192 <=? n) && (n <=? 222) && negb (n =? 215))
  then ascii_of_nat (n + 32) else c.

Fixpoint dropspace (l : list ascii) : list ascii :=
  match l with
  | [] => []
  | c :: l' => if isspace c then dropspace l' else l
  end.

Definition strip (s : string) : string :=
  string_of_list_ascii
    (rev (dropspace (rev (dropspace (list_ascii_of_string s))))).

Definition lower (s : string) : string :=
  string_of_list_ascii (map lower_char (list_ascii_of_string s)).

(** ["\n\n"] *)
Definition nlnl : string :=
  String (ascii_of_nat 10) (String (ascii_of_nat 10) EmptyString).

(** ["\n\n".join(xs)] *)
Definition join_nlnl (xs : list string) : string := String.concat nlnl xs.

(** [label.strip().lower() == lit] *)
Definition label_is (lit : string) (label : string) : bool :=
  String.eqb (lower (strip label)) lit.

(** [label.strip().lower() != lit] *)
Definition label_is_not (lit : string) (label : string) : bool :=
  negb (label_is lit label).

End PyStr.

(** ** Numbers *)

(** [k / n] on two [int]s. *)
Definition py_div (k n : nat) : Q :=
  (inject_Z (Z.of_nat k) / inject_Z (Z.of_nat n))%Q.

(** [a < b], [a > b], [a <= b], [a >= b] on floats. *)
Definition py_le (a b : Q) : bool := Qle_bool a b.
Definition py_ge (a b : Q) : bool := Qle_bool b a.
Definition py_lt (a b : Q) : bool := negb (Qle_bool b a).
Definition py_gt (a b : Q) : bool := negb (Qle_bool a b).

(** [min(a, b)]: the second argument only when it is strictly smaller. *)
Definition py_min (a b : Q) : Q := if py_lt b a then b else a.

(** ** Exceptions *)

Inductive PyExc : Type :=
| TypeError
| ValueError (msg : string)
| KeyError (key : string)
| IndexError
| ValidationError                       (* pydantic: a model field is ill-typed *)
| ParseError (metric raw : string)      (* trimAndLoadJson found no JSON object *)
| MissingTestCaseParams (metric param : string).

Definition is_TypeError (e : PyExc) : bool :=
  match e with TypeError => true | _ => false end.

(** The message of the [ValueError] both coverage-verdict generators raise. *)
Definition length_mismatch_msg : string :=
  "Number of verdicts generated does not equal."%string.

(** ** Computations over a mutable receiver

    [M S A] is a computation that reads and writes a state [S] and either
    returns an [A] or raises.  An exception keeps the writes made before
    it, as in Python. *)

Definition M (S A : Type) : Type := S -> (PyExc + A) * S.

Definition ret {S A : Type} (a : A) : M S A := fun s => (inr a, s).

Definition bind {S A B : Type} (c : M S A) (k : A -> M S B) : M S B :=
  fun s =>
    match c s with
    | (inr a, s1) => k a s1
    | (inl e, s1) => (inl e, s1)
    end.

Definition raise {S A : Type} (e : PyExc) : M S A := fun s => (inl e, s).

Definition gets {S A : Type} (f : S -> A) : M S A := fun s => (inr (f s), s).

Definition modify {S : Type} (f : S -> S) : M S unit :=
  fun s => (inr tt, f s).

(** [try: c except: h] (a bare [except] catches everything). *)
Definition try_except {S A : Type} (c : M S A) (h : M S A) : M S A :=
  fun s =>
    match c s with
    | (inl _, s1) => h s1
    | r => r
    end.

(** [try: c except TypeError: h] *)
Definition try_except_TypeError {S A : Type} (c : M S A) (h : M S A) : M S A :=
  fun s =>
    match c s with
    | (inl e, s1) => if is_TypeError e then h s1 else (inl e, s1)
    | r => r
    end.

(** Lift a result that does not touch the state. *)
Definition lift {S A : Type} (r : PyExc + A) : M S A := fun s => (r, s).

(** Use of a value that must not be [None] ([len(None)], iteration over
    [None], [None + x]): a [TypeError]. *)
Definition not_none {S A : Type} (o : option A) : M S A :=
  match o with
  | Some a => ret a
  | None => raise TypeError
  end.

Declare Scope py_scope.
Delimit Scope py_scope with py.
Notation "x <- c ;; k" := (bind c (fun x => k))
  (at level 61, c at next level, right associativity) : py_scope.
Notation "c ;; k" := (bind c (fun _ => k))
  (at level 61, right associativity) : py_scope.
Notation "' pat <- c ;; k" := (bind c (fun x => match x with pat => k end))
  (at level 61, pat pattern, c at next level, right associativity) : py_scope.

(** What a caller observes of a call: the value it returned, or that it
    raised. *)
Definition returned {S A : Type} (r : (PyExc + A) * S) : option A :=
  match fst r with
  | inr a => Some a
  | inl _ => None
  end.

Definition raised {S A : Type} (r : (PyExc + A) * S) : option PyExc :=
  match fst r with
  | inl e => Some e
  | inr _ => None
  end.

Definition final {S A : Type} (r : (PyExc + A) * S) : S := snd r.

(** ** Parsed JSON

    [trimAndLoadJson] hands back the parsed object.  A dictionary is its
    list of items; the first binding of a key is the one the dictionary
    holds. *)

Inductive json : Type :=
| JNull
| JBool (b : bool)
| JNum (q : Q)
| JStr (s : string)
| JArr (items : list json)
| JObj (fields : list (string * json)).

Fixpoint assoc (key : string) (kv : list (string * json)) : option json :=
  match kv with
  | [] => None
  | (k, v) :: kv' => if String.eqb k key then Some v else assoc key kv'
  end.

(** [data[key]] *)
Definition getitem (data : json) (key : string) : PyExc + json :=
  match data with
  | JObj kv =>
      match assoc key kv with
      | Some v => inr v
      | None => inl (KeyError key)
      end
  | _ => inl TypeError
  end.

(** ** What the code does with a parsed value

    A stage hands back [data[key]] as it is: any parsed value.  What the
    value must be shows where it is used: [len], ["\n\n".join],
    indexing, iteration.  The value [None] of Python is [JNull]; an
    attribute or a [ContextVar] that holds a parsed value holds an
    [option json], [None] for [None]. *)

(** A parsed value stored where [None] is [None]. *)
Definition optional (v : json) : option json :=
  match v with
  | JNull => None
  | _ => Some v
  end.

(** The characters of a string, each a string. *)
Fixpoint chars (s : string) : list string :=
  match s with
  | EmptyString => []
  | String c s' => String c EmptyString :: chars s'
  end.

(** The keys of a dictionary, each once, in the order of the items. *)
Fixpoint keys (kv : list (string * json)) : list string :=
  match kv with
  | [] => []
  | (k, _) :: kv' => k :: filter (fun k' => negb (String.eqb k k')) (keys kv')
  end.

(** [len(v)]: of a list, a string or a dictionary. *)
Definition py_len (v : json) : PyExc + nat :=
  match v with
  | JArr items => inr (length items)
  | JStr s => inr (String.length s)
  | JObj kv => inr (length (keys kv))
  | _ => inl TypeError
  end.

Fixpoint as_strs (vs : list json) : PyExc + list string :=
  match vs with
  | [] => inr []
  | JStr s :: vs' =>
      match as_strs vs' with
      | inr ss => inr (s :: ss)
      | inl e => inl e
      end
  | _ :: _ => inl TypeError
  end.

(** The items [str.join] is given by an iterable: those of a list, which
    must all be strings, the characters of a string, the keys of a
    dictionary. *)
Definition joinable (v : json) : PyExc + list string :=
  match v with
  | JArr items => as_strs items
  | JStr s => inr (chars s)
  | JObj kv => inr (keys kv)
  | _ => inl TypeError
  end.

(** [v[i]] for an [int] [i] that is not negative.  A dictionary parsed
    from JSON has no [int] key. *)
Definition py_index (v : json) (i : nat) : PyExc + json :=
  match v with
  | JArr items =>
      match nth_error items i with
      | Some x => inr x
      | None => inl IndexError
      end
  | JStr s =>
      match String.get i s with
      | Some c => inr (JStr (String c EmptyString))
      | None => inl IndexError
      end
  | JObj _ => inl (KeyError (NilEmpty.string_of_uint (Nat.to_uint i)))
  | _ => inl TypeError
  end.

(** A verdict with a label and an optional reason: [BiasVerdict],
    [FaithfulnessVerdict] and [SummarizationAlignmentVerdict] are the same
    pydantic model,

      verdict: str
      reason: str = Field(default=None)                                  *)
Module Verdict.

Record t : Type := mk {
  verdict : string;
  reason : option string
}.

(** [Verdict( **item)]: [verdict] is required and a string; [reason] is a
    string when the item has one.  Other keys are ignored. *)
Definition of_item (item : json) : PyExc + t :=
  match item with
  | JObj kv =>
      match assoc "verdict" kv with
      | Some (JStr v) =>
          match assoc "reason" kv with
          | None => inr (mk v None)
          | Some (JStr r) => inr (mk v (Some r))
          | Some _ => inl ValidationError
          end
      | _ => inl ValidationError
      end
  | _ => inl TypeError
  end.

(** [[Verdict( **item) for item in items]] *)
Fixpoint of_items (items : list json) : PyExc + list t :=
  match items with
  | [] => inr []
  | item :: items' =>
      match of_item item with
      | inl e => inl e
      | inr v =>
          match of_items items' with
          | inl e => inl e
          | inr vs => inr (v :: vs)
          end
      end
  end.

(** Iteration over a string gives characters and over a dictionary keys:
    strings, which [**] refuses; an empty one gives no item. *)
Definition of_json (v : json) : PyExc + list t :=
  match v with
  | JArr items => of_items items
  | JStr EmptyString => inr []
  | JObj [] => inr []
  | _ => inl TypeError
  end.

End Verdict.

(* ================================================================== *)
(** * Part II.  What the metrics import                                *)
(* ================================================================== *)

(** ** The judge model ([DeepEvalBaseLLM])

    [generate] and [a_generate] answer a prompt with a text; a native
    model also reports what the call cost.  A model that is not native
    reports no cost: the second component is then ignored. *)
Record Judge : Type := mkJudge {
  generate : string -> string * Q;
  a_generate : string -> string * Q;
  get_model_name : string;
  is_native : bool      (* [initialize_model] answers [using_native_model] *)
}.

(** ** Test cases ([LLMTestCase], [LLMTestCaseParams]) *)

Record LLMTestCase : Type := mkTestCase {
  input : option string;
  actual_output : option string;
  expected_output : option string;
  context : option (list string);
  retrieval_context : option (list string)
}.

Inductive LLMTestCaseParams : Type :=
| INPUT | ACTUAL_OUTPUT | EXPECTED_OUTPUT | CONTEXT | RETRIEVAL_CONTEXT.

Definition param_value (p : LLMTestCaseParams) : string :=
  match p with
  | INPUT => "input"
  | ACTUAL_OUTPUT => "actual_output"
  | EXPECTED_OUTPUT => "expected_output"
  | CONTEXT => "context"
  | RETRIEVAL_CONTEXT => "retrieval_context"
  end.

Definition is_some {A : Type} (o : option A) : bool :=
  match o with Some _ => true | None => false end.

(** [getattr(test_case, param.value) is None] *)
Definition param_missing (tc : LLMTestCase) (p : LLMTestCaseParams) : bool :=
  match p with
  | INPUT => negb (is_some (input tc))
  | ACTUAL_OUTPUT => negb (is_some (actual_output tc))
  | EXPECTED_OUTPUT => negb (is_some (expected_output tc))
  | CONTEXT => negb (is_some (context tc))
  | RETRIEVAL_CONTEXT => negb (is_some (retrieval_context tc))
  end.

(** ** The collaborators that are not in these files

    The prompt templates, the response parser and two formatting
    primitives of Python.  Every method below takes them as [X]. *)
Record Externals : Type := mkExternals {
  (* deepeval.metrics.utils.trimAndLoadJson: [None] when it raises *)
  trimAndLoadJson : string -> option json;
  (* format(score, ".2f") *)
  format_2f : Q -> string;
  (* str(questions), as an f-string renders a list *)
  str_of_list : list (option string) -> string;
  (* BiasTemplate *)
  Bias_generate_opinions : string -> string;
  Bias_generate_verdicts : json -> string;
  Bias_generate_reason : list (option string) -> string -> string;
  (* FaithfulnessTemplate *)
  Faithfulness_generate_truths : string -> string;
  Faithfulness_generate_claims : string -> string;
  Faithfulness_generate_verdicts : json -> string -> string;
  Faithfulness_generate_reason : list (option string) -> string -> string;
  (* SummarizationTemplate *)
  Summarization_generate_answers : option json -> string -> string;
  Summarization_generate_questions : string -> nat -> string;
  Summarization_generate_alignment_verdicts : json -> string -> string;
  Summarization_generate_reason :
    list (option string) -> list (option string) -> list (option string) ->
    string -> string
}.

(** ** [BaseMetric]: the attributes every metric object carries *)
Record BaseMetric : Type := mkBase {
  threshold : Q;
  model : Judge;
  using_native_model : bool;
  evaluation_model : string;
  include_reason : bool;
  async_mode : bool;
  strict_mode : bool;
  verbose_mode : bool;
  evaluation_cost : option Q;
  score : option Q;
  score_breakdown : option (Q * Q);     (* {"Alignment": a, "Coverage": c} *)
  reason : option json;
  success : option bool;
  error : option string;
  (* instrumentation, not an attribute: the prompts sent to [model] *)
  judge_calls : list string
}.

Definition set_threshold (v : Q) (m : BaseMetric) : BaseMetric :=
  mkBase v (model m) (using_native_model m) (evaluation_model m)
    (include_reason m) (async_mode m) (strict_mode m) (verbose_mode m)
    (evaluation_cost m) (score m) (score_breakdown m) (reason m) (success m)
    (error m) (judge_calls m).

Definition set_evaluation_model (v : string) (m : BaseMetric) : BaseMetric :=
  mkBase (threshold m) (model m) (using_native_model m) v
    (include_reason m) (async_mode m) (strict_mode m) (verbose_mode m)
    (evaluation_cost m) (score m) (score_breakdown m) (reason m) (success m)
    (error m) (judge_calls m).

Definition set_strict_mode (v : bool) (m : BaseMetric) : BaseMetric :=
  mkBase (threshold m) (model m) (using_native_model m) (evaluation_model m)
    (include_reason m) (async_mode m) v (verbose_mode m)
    (evaluation_cost m) (score m) (score_breakdown m) (reason m) (success m)
    (error m) (judge_calls m).

Definition set_evaluation_cost (v : option Q) (m : BaseMetric) : BaseMetric :=
  mkBase (threshold m) (model m) (using_native_model m) (evaluation_model m)
    (include_reason m) (async_mode m) (strict_mode m) (verbose_mode m)
    v (score m) (score_breakdown m) (reason m) (success m)
    (error m) (judge_calls m).

Definition set_score (v : option Q) (m : BaseMetric) : BaseMetric :=
  mkBase (threshold m) (model m) (using_native_model m) (evaluation_model m)
    (include_reason m) (async_mode m) (strict_mode m) (verbose_mode m)
    (evaluation_cost m) v (score_breakdown m) (reason m) (success m)
    (error m) (judge_calls m).

Definition set_score_breakdown (v : option (Q * Q)) (m : BaseMetric)
  : BaseMetric :=
  mkBase (threshold m) (model m) (using_native_model m) (evaluation_model m)
    (include_reason m) (async_mode m) (strict_mode m) (verbose_mode m)
    (evaluation_cost m) (score m) v (reason m) (success m)
    (error m) (judge_calls m).

Definition set_reason (v : option json) (m : BaseMetric) : BaseMetric :=
  mkBase (threshold m) (model m) (using_native_model m) (evaluation_model m)
    (include_reason m) (async_mode m) (strict_mode m) (verbose_mode m)
    (evaluation_cost m) (score m) (score_breakdown m) v (success m)
    (error m) (judge_calls m).

Definition set_success (v : option bool) (m : BaseMetric) : BaseMetric :=
  mkBase (threshold m) (model m) (using_native_model m) (evaluation_model m)
    (include_reason m) (async_mode m) (strict_mode m) (verbose_mode m)
    (evaluation_cost m) (score m) (score_breakdown m) (reason m) v
    (error m) (judge_calls m).

Definition set_judge_calls (v : list string) (m : BaseMetric) : BaseMetric :=
  mkBase (threshold m) (model m) (using_native_model m) (evaluation_model m)
    (include_reason m) (async_mode m) (strict_mode m) (verbose_mode m)
    (evaluation_cost m) (score m) (score_breakdown m) (reason m) (success m)
    (error m) v.

(** [BaseMetric.__init__] followed by the assignments the three
    constructors share. *)
Definition new_base (threshold : Q) (model : Judge)
    (include_reason async_mode strict_mode verbose_mode : bool) : BaseMetric :=
  mkBase threshold model (is_native model) (get_model_name model)
    include_reason async_mode strict_mode verbose_mode
    None None None None None None [].

(** ** A metric object in the current context

    [base] and [ext] are the instance attributes: every evaluation that
    uses the object sees the same ones.  [ctx] holds the values the
    object's [ContextVar]s have in the current context; a task started by
    [asyncio] works on a copy of it. *)
Record Self (Ext Ctx : Type) : Type := mkSelf {
  base : BaseMetric;
  ext : Ext;
  ctx : Ctx
}.

Section Receiver.

Context {Ext Ctx : Type}.
Variable X : Externals.

Local Open Scope py_scope.

Definition on_base (f : BaseMetric -> BaseMetric) : M (Self Ext Ctx) unit :=
  modify (fun s => mkSelf (f (base s)) (ext s) (ctx s)).

Definition on_ext (f : Ext -> Ext) : M (Self Ext Ctx) unit :=
  modify (fun s => mkSelf (base s) (f (ext s)) (ctx s)).

Definition on_ctx (f : Ctx -> Ctx) : M (Self Ext Ctx) unit :=
  modify (fun s => mkSelf (base s) (ext s) (f (ctx s))).

Definition attr {A : Type} (f : BaseMetric -> A) : M (Self Ext Ctx) A :=
  gets (fun s => f (base s)).

Definition var {A : Type} (f : Ctx -> A) : M (Self Ext Ctx) A :=
  gets (fun s => f (ctx s)).

(** A call of one method of [self.model]. *)
Definition invoke (method : Judge -> string -> string * Q) (prompt : string)
  : M (Self Ext Ctx) (string * Q) :=
  m <- attr model ;;
  calls <- attr judge_calls ;;
  on_base (set_judge_calls (calls ++ [prompt])) ;;
  ret (method m prompt).

(** [self.evaluation_cost += cost] *)
Definition add_cost (cost : Q) : M (Self Ext Ctx) unit :=
  c <- attr evaluation_cost ;;
  c <- not_none c ;;
  on_base (set_evaluation_cost (Some (c + cost)%Q)).

(** The block every stage repeats,

      if self.using_native_model:
          res, cost = self.model.<native>(prompt)
          self.evaluation_cost += cost
      else:
          res = self.model.<plain>(prompt)

    with the method each branch calls. *)
Definition ask (native plain : Judge -> string -> string * Q)
    (prompt : string) : M (Self Ext Ctx) string :=
  native_model <- attr using_native_model ;;
  if native_model then
    ' (res, cost) <- invoke native prompt ;;
    add_cost cost ;;
    ret res
  else
    ' (res, _) <- invoke plain prompt ;;
    ret res.

(** [trimAndLoadJson(res, self)] *)
Definition load (metric_name : string) (res : string) : M (Self Ext Ctx) json :=
  match trimAndLoadJson X res with
  | Some data => ret data
  | None => raise (ParseError metric_name res)
  end.

(** Modelled from the spec: [check_llm_test_case_params] of
    deepeval.metrics.utils is not among the four files.  A test case that
    lacks a required field fails with an error naming the metric and the
    field. *)
Definition check_llm_test_case_params (tc : LLMTestCase)
    (required : list LLMTestCaseParams) (metric_name : string) : M (Self Ext Ctx) unit :=
  match filter (param_missing tc) required with
  | [] => ret tt
  | p :: _ => raise (MissingTestCaseParams metric_name (param_value p))
  end.

(** ** asyncio

    A task runs in a copy of the context in which it was created: what it
    assigns to a [ContextVar] is gone when it ends, what it assigns to an
    attribute stays. *)
Definition as_task {A : Type} (c : M (Self Ext Ctx) A) : M (Self Ext Ctx) A :=
  fun s =>
    let (r, s') := c s in
    (r, mkSelf (base s') (ext s') (ctx s)).

(** [loop.run_until_complete(c)] wraps [c] in a task and drives it. *)
Definition run_until_complete {A : Type} (c : M (Self Ext Ctx) A) : M (Self Ext Ctx) A := as_task c.

(** [await asyncio.gather(a, b)]: both become tasks, and both are started
    before the first exception is delivered.  The schedule is fixed: each
    runs to its end, left to right; the leftmost exception is the one
    raised. *)
Definition gather2 {A B : Type} (a : M (Self Ext Ctx) A) (b : M (Self Ext Ctx) B) : M (Self Ext Ctx) (A * B) :=
  fun s =>
    let (ra, s1) := as_task a s in
    let (rb, s2) := as_task b s1 in
    match ra, rb with
    | inr x, inr y => (inr (x, y), s2)
    | inl e, _ => (inl e, s2)
    | _, inl e => (inl e, s2)
    end.

End Receiver.

(* ================================================================== *)
(** * Part III.  deepeval/metrics/bias/bias.py                         *)
(* ================================================================== *)

Module Bias.

Definition required_params : list LLMTestCaseParams := [INPUT; ACTUAL_OUTPUT].

(** The value of [self._opinions] and of [self._verdicts] in the current
    context; both [ContextVar]s default to [None]. *)
Record Ctx : Type := mkCtx {
  opinions : option json;
  verdicts : option (list Verdict.t)
}.

Definition State : Type := Self unit Ctx.

(** [self.__name__] *)
Definition __name__ : string := "Bias".

Definition set_opinions (v : option json) (c : Ctx) : Ctx :=
  mkCtx v (verdicts c).

Definition set_verdicts (v : option (list Verdict.t)) (c : Ctx) : Ctx :=
  mkCtx (opinions c) v.

Definition __init__ (threshold : Q) (model : Judge)
    (include_reason async_mode strict_mode verbose_mode : bool) : State :=
  mkSelf
    (new_base (if strict_mode then 0 else threshold) model
       include_reason async_mode strict_mode verbose_mode)
    tt
    (mkCtx None None).

Section Methods.

Variable X : Externals.

Local Open Scope py_scope.

Definition _generate_opinions (actual_output : string)
  : M State json :=
  let prompt := Bias_generate_opinions X actual_output in
  res <- ask generate generate prompt ;;
  data <- load X __name__ res ;;
  lift (getitem data "opinions").

Definition _a_generate_opinions (actual_output : string)
  : M State json :=
  let prompt := Bias_generate_opinions X actual_output in
  res <- ask a_generate a_generate prompt ;;
  data <- load X __name__ res ;;
  lift (getitem data "opinions").

Definition _generate_verdicts : M State (list Verdict.t) :=
  opinions <- var opinions ;;
  opinions <- not_none opinions ;;
  count <- lift (py_len opinions) ;;
  if count =? 0 then ret []
  else
    let prompt := Bias_generate_verdicts X opinions in
    res <- ask generate generate prompt ;;
    data <- load X __name__ res ;;
    v <- lift (getitem data "verdicts") ;;
    lift (Verdict.of_json v).

Definition _a_generate_verdicts : M State (list Verdict.t) :=
  opinions <- var opinions ;;
  opinions <- not_none opinions ;;
  count <- lift (py_len opinions) ;;
  if count =? 0 then ret []
  else
    let prompt := Bias_generate_verdicts X opinions in
    res <- ask a_generate a_generate prompt ;;
    data <- load X __name__ res ;;
    v <- lift (getitem data "verdicts") ;;
    lift (Verdict.of_json v).

Definition _calculate_score : M State Q :=
  verdicts <- var verdicts ;;
  verdicts <- not_none verdicts ;;
  strict_mode <- attr strict_mode ;;
  threshold <- attr threshold ;;
  let number_of_verdicts := length verdicts in
  if number_of_verdicts =? 0 then ret 0%Q
  else
    let bias_count :=
      fold_left
        (fun count v =>
           if PyStr.label_is "yes" (Verdict.verdict v) then count + 1
           else count)
        verdicts 0 in
    let score := py_div bias_count number_of_verdicts in
    ret (if strict_mode && py_gt score threshold then 1%Q else score).

(** [_generate_reason] and [_a_generate_reason] have the same body: the
    coroutine, too, calls [self.model.generate]. *)
Definition _generate_reason : M State (option json) :=
  include_reason <- attr include_reason ;;
  if negb include_reason then ret None
  else
    verdicts <- var verdicts ;;
    verdicts <- not_none verdicts ;;
    let biases :=
      fold_left
        (fun biases v =>
           if PyStr.label_is "yes" (Verdict.verdict v)
           then biases ++ [Verdict.reason v] else biases)
        verdicts [] in
    score <- attr score ;;
    score <- not_none score ;;
    let prompt := Bias_generate_reason X biases (format_2f X score) in
    res <- ask generate generate prompt ;;
    data <- load X __name__ res ;;
    v <- lift (getitem data "reason") ;;
    ret (optional v).

Definition _a_generate_reason : M State (option json) :=
  include_reason <- attr include_reason ;;
  if negb include_reason then ret None
  else
    verdicts <- var verdicts ;;
    verdicts <- not_none verdicts ;;
    let biases :=
      fold_left
        (fun biases v =>
           if PyStr.label_is "yes" (Verdict.verdict v)
           then biases ++ [Verdict.reason v] else biases)
        verdicts [] in
    score <- attr score ;;
    score <- not_none score ;;
    let prompt := Bias_generate_reason X biases (format_2f X score) in
    res <- ask generate generate prompt ;;
    data <- load X __name__ res ;;
    v <- lift (getitem data "reason") ;;
    ret (optional v).

(** [self.success = self.score <= self.threshold] *)
Definition assign_success : M State unit :=
  score <- attr score ;;
  score <- not_none score ;;
  threshold <- attr threshold ;;
  on_base (set_success (Some (py_le score threshold))).

(** The progress indicator and the printing of [verbose_mode] write to the
    terminal only; they are left out. *)
Definition a_measure (test_case : LLMTestCase) : M State (option Q) :=
  check_llm_test_case_params test_case required_params __name__ ;;
  native_model <- attr using_native_model ;;
  on_base (set_evaluation_cost (if native_model then Some 0%Q else None)) ;;
  actual_output <- not_none (actual_output test_case) ;;
  opinions <- _a_generate_opinions actual_output ;;
  on_ctx (set_opinions (optional opinions)) ;;
  verdicts <- _a_generate_verdicts ;;
  on_ctx (set_verdicts (Some verdicts)) ;;
  computed <- _calculate_score ;;
  on_base (set_score (Some computed)) ;;
  explained <- _a_generate_reason ;;
  on_base (set_reason explained) ;;
  assign_success ;;
  attr score.

Definition _measure_async (test_case : LLMTestCase)
  : M State (option json * option (list Verdict.t) * option Q
             * option json * option bool) :=
  a_measure test_case ;;
  opinions <- var opinions ;;
  verdicts <- var verdicts ;;
  score <- attr score ;;
  reason <- attr reason ;;
  success <- attr success ;;
  ret (opinions, verdicts, score, reason, success).

(** The value of [measure] is [Some q] for [return q] and [None] when the
    body ends without a [return]. *)
Definition measure (test_case : LLMTestCase) : M State (option Q) :=
  check_llm_test_case_params test_case required_params __name__ ;;
  native_model <- attr using_native_model ;;
  on_base (set_evaluation_cost (if native_model then Some 0%Q else None)) ;;
  async_mode <- attr async_mode ;;
  if async_mode then
    ' (opinions, verdicts, score, reason, success) <-
        run_until_complete (_measure_async test_case) ;;
    on_ctx (set_opinions opinions) ;;
    on_ctx (set_verdicts verdicts) ;;
    on_base (set_score score) ;;
    on_base (set_reason reason) ;;
    on_base (set_success success) ;;
    ret None
  else
    actual_output <- not_none (actual_output test_case) ;;
    opinions <- _generate_opinions actual_output ;;
    on_ctx (set_opinions (optional opinions)) ;;
    verdicts <- _generate_verdicts ;;
    on_ctx (set_verdicts (Some verdicts)) ;;
    computed <- _calculate_score ;;
    on_base (set_score (Some computed)) ;;
    explained <- _generate_reason ;;
    on_base (set_reason explained) ;;
    assign_success ;;
    attr score.

Definition is_successful : M State (option bool) :=
  error <- attr error ;;
  (if is_some error then on_base (set_success (Some false))
   else
     try_except
       (score <- attr score ;;
        score <- not_none score ;;
        threshold <- attr threshold ;;
        on_base (set_success (Some (py_le score threshold))))
       (on_base (set_success (Some false)))) ;;
  attr success.

End Methods.

End Bias.

(* ================================================================== *)
(** * Part IV.  deepeval/metrics/faithfulness/faithfulness.py          *)
(* ================================================================== *)

Module Faithfulness.

Definition required_params : list LLMTestCaseParams :=
  [INPUT; ACTUAL_OUTPUT; RETRIEVAL_CONTEXT].

Record Ctx : Type := mkCtx {
  truths : option json;
  claims : option json;
  verdicts : option (list Verdict.t)
}.

Definition State : Type := Self unit Ctx.

Definition __name__ : string := "Faithfulness".

Definition set_truths (v : option json) (c : Ctx) : Ctx :=
  mkCtx v (claims c) (verdicts c).

Definition set_claims (v : option json) (c : Ctx) : Ctx :=
  mkCtx (truths c) v (verdicts c).

Definition set_verdicts (v : option (list Verdict.t)) (c : Ctx) : Ctx :=
  mkCtx (truths c) (claims c) v.

Definition __init__ (threshold : Q) (model : Judge)
    (include_reason async_mode strict_mode verbose_mode : bool) : State :=
  mkSelf
    (new_base (if strict_mode then 1 else threshold) model
       include_reason async_mode strict_mode verbose_mode)
    tt
    (mkCtx None None None).

Section Methods.

Variable X : Externals.

Local Open Scope py_scope.

Definition _generate_truths (retrieval_context : list string)
  : M State json :=
  let prompt :=
    Faithfulness_generate_truths X (PyStr.join_nlnl retrieval_context) in
  res <- ask generate generate prompt ;;
  data <- load X __name__ res ;;
  lift (getitem data "truths").

Definition _a_generate_truths (retrieval_context : list string)
  : M State json :=
  let prompt :=
    Faithfulness_generate_truths X (PyStr.join_nlnl retrieval_context) in
  res <- ask a_generate a_generate prompt ;;
  data <- load X __name__ res ;;
  lift (getitem data "truths").

Definition _generate_claims (actual_output : string)
  : M State json :=
  let prompt := Faithfulness_generate_claims X actual_output in
  res <- ask generate generate prompt ;;
  data <- load X __name__ res ;;
  lift (getitem data "claims").

Definition _a_generate_claims (actual_output : string)
  : M State json :=
  let prompt := Faithfulness_generate_claims X actual_output in
  res <- ask a_generate a_generate prompt ;;
  data <- load X __name__ res ;;
  lift (getitem data "claims").

Definition _generate_verdicts : M State (list Verdict.t) :=
  claims <- var claims ;;
  claims <- not_none claims ;;
  count <- lift (py_len claims) ;;
  if count =? 0 then ret []
  else
    truths <- var truths ;;
    truths <- not_none truths ;;
    truths <- lift (joinable truths) ;;
    let prompt :=
      Faithfulness_generate_verdicts X claims (PyStr.join_nlnl truths) in
    res <- ask generate generate prompt ;;
    data <- load X __name__ res ;;
    v <- lift (getitem data "verdicts") ;;
    lift (Verdict.of_json v).

(** A native model is awaited on [a_generate]; any other model is called
    on [generate]. *)
Definition _a_generate_verdicts : M State (list Verdict.t) :=
  claims <- var claims ;;
  claims <- not_none claims ;;
  count <- lift (py_len claims) ;;
  if count =? 0 then ret []
  else
    truths <- var truths ;;
    truths <- not_none truths ;;
    truths <- lift (joinable truths) ;;
    let prompt :=
      Faithfulness_generate_verdicts X claims (PyStr.join_nlnl truths) in
    res <- ask a_generate generate prompt ;;
    data <- load X __name__ res ;;
    v <- lift (getitem data "verdicts") ;;
    lift (Verdict.of_json v).

Definition _calculate_score : M State Q :=
  verdicts <- var verdicts ;;
  verdicts <- not_none verdicts ;;
  strict_mode <- attr strict_mode ;;
  threshold <- attr threshold ;;
  let number_of_verdicts := length verdicts in
  if number_of_verdicts =? 0 then ret 1%Q
  else
    let faithfulness_count :=
      fold_left
        (fun count v =>
           if PyStr.label_is_not "no" (Verdict.verdict v) then count + 1
           else count)
        verdicts 0 in
    let score := py_div faithfulness_count number_of_verdicts in
    ret (if strict_mode && py_lt score threshold then 0%Q else score).

Definition _generate_reason : M State (option json) :=
  include_reason <- attr include_reason ;;
  if negb include_reason then ret None
  else
    verdicts <- var verdicts ;;
    verdicts <- not_none verdicts ;;
    let contradictions :=
      fold_left
        (fun contradictions v =>
           if PyStr.label_is "no" (Verdict.verdict v)
           then contradictions ++ [Verdict.reason v] else contradictions)
        verdicts [] in
    score <- attr score ;;
    score <- not_none score ;;
    let prompt :=
      Faithfulness_generate_reason X contradictions (format_2f X score) in
    res <- ask generate generate prompt ;;
    data <- load X __name__ res ;;
    v <- lift (getitem data "reason") ;;
    ret (optional v).

(** The coroutine has the body of [_generate_reason], [self.model.generate]
    included. *)
Definition _a_generate_reason : M State (option json) :=
  include_reason <- attr include_reason ;;
  if negb include_reason then ret None
  else
    verdicts <- var verdicts ;;
    verdicts <- not_none verdicts ;;
    let contradictions :=
      fold_left
        (fun contradictions v =>
           if PyStr.label_is "no" (Verdict.verdict v)
           then contradictions ++ [Verdict.reason v] else contradictions)
        verdicts [] in
    score <- attr score ;;
    score <- not_none score ;;
    let prompt :=
      Faithfulness_generate_reason X contradictions (format_2f X score) in
    res <- ask generate generate prompt ;;
    data <- load X __name__ res ;;
    v <- lift (getitem data "reason") ;;
    ret (optional v).

(** [self.success = self.score >= self.threshold] *)
Definition assign_success : M State unit :=
  score <- attr score ;;
  score <- not_none score ;;
  threshold <- attr threshold ;;
  on_base (set_success (Some (py_ge score threshold))).

Definition a_measure (test_case : LLMTestCase) : M State (option Q) :=
  check_llm_test_case_params test_case required_params __name__ ;;
  native_model <- attr using_native_model ;;
  on_base (set_evaluation_cost (if native_model then Some 0%Q else None)) ;;
  retrieval_context <- not_none (retrieval_context test_case) ;;
  actual_output <- not_none (actual_output test_case) ;;
  ' (found_truths, found_claims) <-
      gather2 (_a_generate_truths retrieval_context)
              (_a_generate_claims actual_output) ;;
  on_ctx (set_truths (optional found_truths)) ;;
  on_ctx (set_claims (optional found_claims)) ;;
  found_verdicts <- _a_generate_verdicts ;;
  on_ctx (set_verdicts (Some found_verdicts)) ;;
  computed <- _calculate_score ;;
  on_base (set_score (Some computed)) ;;
  explained <- _a_generate_reason ;;
  on_base (set_reason explained) ;;
  assign_success ;;
  attr score.

Definition _measure_async (test_case : LLMTestCase)
  : M State (option json * option json
             * option (list Verdict.t) * option Q * option json
             * option bool) :=
  a_measure test_case ;;
  truths <- var truths ;;
  claims <- var claims ;;
  verdicts <- var verdicts ;;
  score <- attr score ;;
  reason <- attr reason ;;
  success <- attr success ;;
  ret (truths, claims, verdicts, score, reason, success).

Definition measure (test_case : LLMTestCase) : M State (option Q) :=
  check_llm_test_case_params test_case required_params __name__ ;;
  native_model <- attr using_native_model ;;
  on_base (set_evaluation_cost (if native_model then Some 0%Q else None)) ;;
  async_mode <- attr async_mode ;;
  if async_mode then
    ' (truths, claims, verdicts, score, reason, success) <-
        run_until_complete (_measure_async test_case) ;;
    on_ctx (set_truths truths) ;;
    on_ctx (set_claims claims) ;;
    on_ctx (set_verdicts verdicts) ;;
    on_base (set_score score) ;;
    on_base (set_reason reason) ;;
    on_base (set_success success) ;;
    ret None
  else
    retrieval_context <- not_none (retrieval_context test_case) ;;
    found_truths <- _generate_truths retrieval_context ;;
    on_ctx (set_truths (optional found_truths)) ;;
    actual_output <- not_none (actual_output test_case) ;;
    found_claims <- _generate_claims actual_output ;;
    on_ctx (set_claims (optional found_claims)) ;;
    found_verdicts <- _generate_verdicts ;;
    on_ctx (set_verdicts (Some found_verdicts)) ;;
    computed <- _calculate_score ;;
    on_base (set_score (Some computed)) ;;
    explained <- _generate_reason ;;
    on_base (set_reason explained) ;;
    assign_success ;;
    attr score.

Definition is_successful : M State (option bool) :=
  error <- attr error ;;
  (if is_some error then on_base (set_success (Some false))
   else
     try_except
       (score <- attr score ;;
        score <- not_none score ;;
        threshold <- attr threshold ;;
        on_base (set_success (Some (py_ge score threshold))))
       (on_base (set_success (Some false)))) ;;
  attr success.

End Methods.

End Faithfulness.

(* ================================================================== *)
(** * Part V.  deepeval/metrics/summarization/summarization.py         *)
(* ================================================================== *)

Module Summarization.

Definition required_params : list LLMTestCaseParams := [INPUT; ACTUAL_OUTPUT].

(** [SummarizationCoverageVerdict] *)
Record CoverageVerdict : Type := mkCoverageVerdict {
  summary_verdict : string;
  original_verdict : string;
  question : option string
}.

Inductive ScoreType : Type := ALIGNMENT | COVERAGE.

(** The six [ContextVar]s of a [SummarizationMetric]. *)
Record Ctx : Type := mkCtx {
  truths : option json;
  claims : option json;
  coverage_verdicts : option (list CoverageVerdict);
  alignment_verdicts : option (list Verdict.t);
  coverage_score : option Q;
  alignment_score : option Q
}.

(** The attributes [SummarizationMetric] adds to those of [BaseMetric]. *)
Record Ext : Type := mkExt {
  n : nat;
  assessment_questions : option json
}.

Definition State : Type := Self Ext Ctx.

Definition __name__ : string := "Summarization".

Definition set_truths (v : option json) (c : Ctx) : Ctx :=
  mkCtx v (claims c) (coverage_verdicts c) (alignment_verdicts c)
    (coverage_score c) (alignment_score c).

Definition set_claims (v : option json) (c : Ctx) : Ctx :=
  mkCtx (truths c) v (coverage_verdicts c) (alignment_verdicts c)
    (coverage_score c) (alignment_score c).

Definition set_coverage_verdicts (v : option (list CoverageVerdict))
    (c : Ctx) : Ctx :=
  mkCtx (truths c) (claims c) v (alignment_verdicts c)
    (coverage_score c) (alignment_score c).

Definition set_alignment_verdicts (v : option (list Verdict.t)) (c : Ctx)
  : Ctx :=
  mkCtx (truths c) (claims c) (coverage_verdicts c) v
    (coverage_score c) (alignment_score c).

Definition set_coverage_score (v : option Q) (c : Ctx) : Ctx :=
  mkCtx (truths c) (claims c) (coverage_verdicts c) (alignment_verdicts c)
    v (alignment_score c).

Definition set_alignment_score (v : option Q) (c : Ctx) : Ctx :=
  mkCtx (truths c) (claims c) (coverage_verdicts c) (alignment_verdicts c)
    (coverage_score c) v.

Definition set_assessment_questions (v : option json) (e : Ext)
  : Ext :=
  mkExt (n e) v.

Definition __init__ (threshold : Q) (n : nat) (model : Judge)
    (assessment_questions : option (list string))
    (include_reason async_mode strict_mode verbose_mode : bool) : State :=
  mkSelf
    (new_base (if strict_mode then 1 else threshold) model
       include_reason async_mode strict_mode verbose_mode)
    (mkExt n
       (match assessment_questions with
        | Some [] => None
        | Some questions => Some (JArr (map JStr questions))
        | None => None
        end))
    (mkCtx None None None None None None).

(** [SummarizationCoverageVerdict(summary_verdict=s, original_verdict=o,
    question=q)]: pydantic takes a string for each field, as for the
    fields of a [Verdict]. *)
Definition new_CoverageVerdict (s o q : json) : PyExc + CoverageVerdict :=
  match s, o, q with
  | JStr s, JStr o, JStr q => inr (mkCoverageVerdict s o (Some q))
  | _, _, _ => inl ValidationError
  end.

Definition nl : string := String (ascii_of_nat 10) EmptyString.

Section Methods.

Variable X : Externals.

Local Open Scope py_scope.

Definition field {A : Type} (f : Ext -> A) : M State A :=
  gets (fun s => f (ext s)).

Definition _generate_reason : M State (option json) :=
  include_reason <- attr include_reason ;;
  if negb include_reason then ret None
  else
    alignment_verdicts <- var alignment_verdicts ;;
    alignment_verdicts <- not_none alignment_verdicts ;;
    let '(contradictions, redundancies) :=
      fold_left
        (fun '(contradictions, redundancies) v =>
           if PyStr.label_is "no" (Verdict.verdict v)
           then (contradictions ++ [Verdict.reason v], redundancies)
           else if PyStr.label_is "idk" (Verdict.verdict v)
           then (contradictions, redundancies ++ [Verdict.reason v])
           else (contradictions, redundancies))
        alignment_verdicts ([], []) in
    coverage_verdicts <- var coverage_verdicts ;;
    let questions :=
      match coverage_verdicts with
      | Some (_ :: _ as coverage_verdicts) =>
          fold_left
            (fun questions v =>
               if PyStr.label_is "yes" (original_verdict v)
                  && PyStr.label_is "no" (summary_verdict v)
               then questions ++ [question v] else questions)
            coverage_verdicts []
      | _ => []
      end in
    score <- attr score ;;
    score <- not_none score ;;
    let prompt :=
      Summarization_generate_reason X contradictions redundancies questions
        (format_2f X score) in
    let prompt :=
      if 0 <? length questions
      then (prompt
            ++ "Questions the original text can answer but not the summary:"
            ++ nl ++ str_of_list X questions ++ nl ++ nl)%string
      else prompt in
    let prompt := (prompt ++ "JSON:" ++ nl)%string in
    res <- ask generate generate prompt ;;
    data <- load X __name__ res ;;
    v <- lift (getitem data "reason") ;;
    ret (optional v).

(** The coroutine has the body of [_generate_reason], [self.model.generate]
    included. *)
Definition _a_generate_reason : M State (option json) :=
  include_reason <- attr include_reason ;;
  if negb include_reason then ret None
  else
    alignment_verdicts <- var alignment_verdicts ;;
    alignment_verdicts <- not_none alignment_verdicts ;;
    let '(contradictions, redundancies) :=
      fold_left
        (fun '(contradictions, redundancies) v =>
           if PyStr.label_is "no" (Verdict.verdict v)
           then (contradictions ++ [Verdict.reason v], redundancies)
           else if PyStr.label_is "idk" (Verdict.verdict v)
           then (contradictions, redundancies ++ [Verdict.reason v])
           else (contradictions, redundancies))
        alignment_verdicts ([], []) in
    coverage_verdicts <- var coverage_verdicts ;;
    let questions :=
      match coverage_verdicts with
      | Some (_ :: _ as coverage_verdicts) =>
          fold_left
            (fun questions v =>
               if PyStr.label_is "yes" (original_verdict v)
                  && PyStr.label_is "no" (summary_verdict v)
               then questions ++ [question v] else questions)
            coverage_verdicts []
      | _ => []
      end in
    score <- attr score ;;
    score <- not_none score ;;
    let prompt :=
      Summarization_generate_reason X contradictions redundancies questions
        (format_2f X score) in
    let prompt :=
      if 0 <? length questions
      then (prompt
            ++ "Questions the original text can answer but not the summary:"
            ++ nl ++ str_of_list X questions ++ nl ++ nl)%string
      else prompt in
    let prompt := (prompt ++ "JSON:" ++ nl)%string in
    res <- ask generate generate prompt ;;
    data <- load X __name__ res ;;
    v <- lift (getitem data "reason") ;;
    ret (optional v).

(** [return 0 if self.strict_mode and score < self.threshold else score] *)
Definition strict_floor (score : Q) : M State Q :=
  strict_mode <- attr strict_mode ;;
  threshold <- attr threshold ;;
  ret (if strict_mode && py_lt score threshold then 0%Q else score).

Definition _calculate_score (score_type : ScoreType) : M State Q :=
  match score_type with
  | ALIGNMENT =>
      alignment_verdicts <- var alignment_verdicts ;;
      alignment_verdicts <- not_none alignment_verdicts ;;
      let total := length alignment_verdicts in
      if total =? 0 then ret 0%Q
      else
        let faithfulness_count :=
          fold_left
            (fun count v =>
               if PyStr.label_is "yes" (Verdict.verdict v) then count + 1
               else count)
            alignment_verdicts 0 in
        strict_floor (py_div faithfulness_count total)
  | COVERAGE =>
      assessment_questions <- field assessment_questions ;;
      if negb (is_some assessment_questions) then ret 1%Q
      else
        coverage_verdicts <- var coverage_verdicts ;;
        coverage_verdicts <- not_none coverage_verdicts ;;
        let '(total, coverage_count) :=
          fold_left
            (fun '(total, coverage_count) v =>
               if PyStr.label_is "yes" (original_verdict v)
               then (total + 1,
                     if PyStr.label_is "yes" (summary_verdict v)
                     then coverage_count + 1 else coverage_count)
               else (total, coverage_count))
            coverage_verdicts (0, 0) in
        if total =? 0 then ret 0%Q
        else strict_floor (py_div coverage_count total)
  end.

Definition _generate_answers (text : string) : M State json :=
  assessment_questions <- field assessment_questions ;;
  let prompt := Summarization_generate_answers X assessment_questions text in
  res <- ask generate generate prompt ;;
  data <- load X __name__ res ;;
  lift (getitem data "answers").

Definition _a_generate_answers (text : string) : M State json :=
  assessment_questions <- field assessment_questions ;;
  let prompt := Summarization_generate_answers X assessment_questions text in
  res <- ask a_generate a_generate prompt ;;
  data <- load X __name__ res ;;
  lift (getitem data "answers").

Definition _generate_assessment_questions (text : string)
  : M State json :=
  n <- field n ;;
  let prompt := Summarization_generate_questions X text n in
  res <- ask generate generate prompt ;;
  data <- load X __name__ res ;;
  lift (getitem data "questions").

Definition _a_generate_assessment_questions (text : string)
  : M State json :=
  n <- field n ;;
  let prompt := Summarization_generate_questions X text n in
  res <- ask a_generate a_generate prompt ;;
  data <- load X __name__ res ;;
  lift (getitem data "questions").

(** The loop both coverage-verdict generators end with,

      for i in range(len(original_answers)):
          coverage_veridcts.append(
              SummarizationCoverageVerdict(
                  summary_verdict=summary_answers[i],
                  original_verdict=original_answers[i],
                  question=self.assessment_questions[i]))

    over the indices still to visit. *)
Fixpoint pair_answers (indices : list nat)
    (original_answers summary_answers : json)
    (coverage_veridcts : list CoverageVerdict)
  : M State (list CoverageVerdict) :=
  match indices with
  | [] => ret coverage_veridcts
  | i :: indices' =>
      s <- lift (py_index summary_answers i) ;;
      o <- lift (py_index original_answers i) ;;
      questions <- field assessment_questions ;;
      questions <- not_none questions ;;
      q <- lift (py_index questions i) ;;
      verdict <- lift (new_CoverageVerdict s o q) ;;
      pair_answers indices' original_answers summary_answers
        (coverage_veridcts ++ [verdict])
  end.

Definition _generate_coverage_verdicts (test_case : LLMTestCase)
  : M State (list CoverageVerdict) :=
  configured <- field assessment_questions ;;
  (if negb (is_some configured) then
     text <- not_none (input test_case) ;;
     generated <- _generate_assessment_questions text ;;
     on_ext (set_assessment_questions (optional generated))
   else ret tt) ;;
  text <- not_none (input test_case) ;;
  original_answers <- _generate_answers text ;;
  summary <- not_none (actual_output test_case) ;;
  summary_answers <- _generate_answers summary ;;
  original_count <- lift (py_len original_answers) ;;
  summary_count <- lift (py_len summary_answers) ;;
  if negb (original_count =? summary_count)
  then raise (ValueError length_mismatch_msg)
  else
    count <- lift (py_len original_answers) ;;
    pair_answers (seq 0 count) original_answers summary_answers [].

Definition _a_generate_coverage_verdicts (test_case : LLMTestCase)
  : M State (list CoverageVerdict) :=
  configured <- field assessment_questions ;;
  (if negb (is_some configured) then
     text <- not_none (input test_case) ;;
     generated <- _a_generate_assessment_questions text ;;
     on_ext (set_assessment_questions (optional generated))
   else ret tt) ;;
  text <- not_none (input test_case) ;;
  summary <- not_none (actual_output test_case) ;;
  ' (original_answers, summary_answers) <-
      gather2 (_a_generate_answers text) (_a_generate_answers summary) ;;
  original_count <- lift (py_len original_answers) ;;
  summary_count <- lift (py_len summary_answers) ;;
  if negb (original_count =? summary_count)
  then raise (ValueError length_mismatch_msg)
  else
    count <- lift (py_len original_answers) ;;
    pair_answers (seq 0 count) original_answers summary_answers [].

Definition _generate_alignment_verdicts : M State (list Verdict.t) :=
  claims <- var claims ;;
  claims <- not_none claims ;;
  count <- lift (py_len claims) ;;
  if count =? 0 then ret []
  else
    truths <- var truths ;;
    truths <- not_none truths ;;
    truths <- lift (joinable truths) ;;
    let prompt :=
      Summarization_generate_alignment_verdicts X claims
        (PyStr.join_nlnl truths) in
    res <- ask generate generate prompt ;;
    data <- load X __name__ res ;;
    v <- lift (getitem data "verdicts") ;;
    lift (Verdict.of_json v).

Definition _a_generate_alignment_verdicts : M State (list Verdict.t) :=
  claims <- var claims ;;
  claims <- not_none claims ;;
  count <- lift (py_len claims) ;;
  if count =? 0 then ret []
  else
    truths <- var truths ;;
    truths <- not_none truths ;;
    truths <- lift (joinable truths) ;;
    let prompt :=
      Summarization_generate_alignment_verdicts X claims
        (PyStr.join_nlnl truths) in
    res <- ask a_generate a_generate prompt ;;
    data <- load X __name__ res ;;
    v <- lift (getitem data "verdicts") ;;
    lift (Verdict.of_json v).

(** Both borrow the claims prompt of the faithfulness template. *)
Definition _generate_claims (text : string) : M State json :=
  let prompt := Faithfulness_generate_claims X text in
  res <- ask generate generate prompt ;;
  data <- load X __name__ res ;;
  lift (getitem data "claims").

Definition _a_generate_claims (text : string) : M State json :=
  let prompt := Faithfulness_generate_claims X text in
  res <- ask a_generate a_generate prompt ;;
  data <- load X __name__ res ;;
  lift (getitem data "claims").

(** [self.score = min(self.alignment_score, self.coverage_score)] *)
Definition assign_score : M State unit :=
  a <- var alignment_score ;;
  a <- not_none a ;;
  c <- var coverage_score ;;
  c <- not_none c ;;
  on_base (set_score (Some (py_min a c))).

(** [self.success = self.score >= self.threshold] *)
Definition assign_success : M State unit :=
  score <- attr score ;;
  score <- not_none score ;;
  threshold <- attr threshold ;;
  on_base (set_success (Some (py_ge score threshold))).

(** [a_measure] keeps the score breakdown in a local variable. *)
Definition a_measure (test_case : LLMTestCase) : M State (option Q) :=
  check_llm_test_case_params test_case required_params __name__ ;;
  native_model <- attr using_native_model ;;
  on_base (set_evaluation_cost (if native_model then Some 0%Q else None)) ;;
  text <- not_none (input test_case) ;;
  summary <- not_none (actual_output test_case) ;;
  ' (found_truths, found_claims) <-
      gather2 (_a_generate_claims text) (_a_generate_claims summary) ;;
  on_ctx (set_truths (optional found_truths)) ;;
  on_ctx (set_claims (optional found_claims)) ;;
  ' (found_coverage, found_alignment) <-
      gather2 (_a_generate_coverage_verdicts test_case)
              _a_generate_alignment_verdicts ;;
  on_ctx (set_coverage_verdicts (Some found_coverage)) ;;
  on_ctx (set_alignment_verdicts (Some found_alignment)) ;;
  a <- _calculate_score ALIGNMENT ;;
  on_ctx (set_alignment_score (Some a)) ;;
  c <- _calculate_score COVERAGE ;;
  on_ctx (set_coverage_score (Some c)) ;;
  assign_score ;;
  explained <- _a_generate_reason ;;
  on_base (set_reason explained) ;;
  assign_success ;;
  attr score.

Definition _measure_async (test_case : LLMTestCase)
  : M State (option json * option json
             * option (list CoverageVerdict) * option (list Verdict.t)
             * option Q * option Q * option (Q * Q)
             * option Q * option json * option bool) :=
  a_measure test_case ;;
  truths <- var truths ;;
  claims <- var claims ;;
  coverage_verdicts <- var coverage_verdicts ;;
  alignment_verdicts <- var alignment_verdicts ;;
  coverage_score <- var coverage_score ;;
  alignment_score <- var alignment_score ;;
  score_breakdown <- attr score_breakdown ;;
  score <- attr score ;;
  reason <- attr reason ;;
  success <- attr success ;;
  ret (truths, claims, coverage_verdicts, alignment_verdicts,
       coverage_score, alignment_score, score_breakdown,
       score, reason, success).

Definition measure (test_case : LLMTestCase) : M State (option Q) :=
  check_llm_test_case_params test_case required_params __name__ ;;
  native_model <- attr using_native_model ;;
  on_base (set_evaluation_cost (if native_model then Some 0%Q else None)) ;;
  async_mode <- attr async_mode ;;
  if async_mode then
    ' (truths, claims, coverage_verdicts, alignment_verdicts,
       coverage_score, alignment_score, score_breakdown,
       score, reason, success) <-
        run_until_complete (_measure_async test_case) ;;
    on_ctx (set_truths truths) ;;
    on_ctx (set_claims claims) ;;
    on_ctx (set_coverage_verdicts coverage_verdicts) ;;
    on_ctx (set_alignment_verdicts alignment_verdicts) ;;
    on_ctx (set_coverage_score coverage_score) ;;
    on_ctx (set_alignment_score alignment_score) ;;
    on_base (set_score_breakdown score_breakdown) ;;
    on_base (set_score score) ;;
    on_base (set_reason reason) ;;
    on_base (set_success success) ;;
    ret None
  else
    text <- not_none (input test_case) ;;
    found_truths <- _generate_claims text ;;
    on_ctx (set_truths (optional found_truths)) ;;
    summary <- not_none (actual_output test_case) ;;
    found_claims <- _generate_claims summary ;;
    on_ctx (set_claims (optional found_claims)) ;;
    found_coverage <- _generate_coverage_verdicts test_case ;;
    on_ctx (set_coverage_verdicts (Some found_coverage)) ;;
    found_alignment <- _generate_alignment_verdicts ;;
    on_ctx (set_alignment_verdicts (Some found_alignment)) ;;
    a <- _calculate_score ALIGNMENT ;;
    on_ctx (set_alignment_score (Some a)) ;;
    c <- _calculate_score COVERAGE ;;
    on_ctx (set_coverage_score (Some c)) ;;
    a <- var alignment_score ;;
    c <- var coverage_score ;;
    on_base (set_score_breakdown
               (match a, c with
                | Some a, Some c => Some (a, c)
                | _, _ => None
                end)) ;;
    assign_score ;;
    explained <- _generate_reason ;;
    on_base (set_reason explained) ;;
    assign_success ;;
    attr score.

Definition is_successful : M State (option bool) :=
  error <- attr error ;;
  (if is_some error then on_base (set_success (Some false))
   else
     try_except
       (score <- attr score ;;
        score <- not_none score ;;
        threshold <- attr threshold ;;
        on_base (set_success (Some (py_ge score threshold))))
       (on_base (set_success (Some false)))) ;;
  attr success.

End Methods.

End Summarization.

(* ================================================================== *)
(** * Part VI.  deepeval/metrics/indicator.py                          *)
(* ================================================================== *)

Module Indicator.

(** A [BaseMetric] the orchestrator is handed: one of the three classes. *)
Inductive AnyMetric : Type :=
| OfBias (m : Bias.State)
| OfFaithfulness (m : Faithfulness.State)
| OfSummarization (m : Summarization.State).

Definition base_of (m : AnyMetric) : BaseMetric :=
  match m with
  | OfBias s => base s
  | OfFaithfulness s => base s
  | OfSummarization s => base s
  end.

(** Assignment to attributes of the metric. *)
Definition with_base (f : BaseMetric -> BaseMetric) (m : AnyMetric)
  : AnyMetric :=
  match m with
  | OfBias s => OfBias (mkSelf (f (base s)) (ext s) (ctx s))
  | OfFaithfulness s => OfFaithfulness (mkSelf (f (base s)) (ext s) (ctx s))
  | OfSummarization s => OfSummarization (mkSelf (f (base s)) (ext s) (ctx s))
  end.

(** The metric as [after] left it, its [ContextVar]s as in [before]. *)
Definition restore_ctx (before after : AnyMetric) : AnyMetric :=
  match before, after with
  | OfBias b, OfBias a => OfBias (mkSelf (base a) (ext a) (ctx b))
  | OfFaithfulness b, OfFaithfulness a =>
      OfFaithfulness (mkSelf (base a) (ext a) (ctx b))
  | OfSummarization b, OfSummarization a =>
      OfSummarization (mkSelf (base a) (ext a) (ctx b))
  | _, _ => after
  end.

Fixpoint restore_ctxs (before after : list AnyMetric) : list AnyMetric :=
  match before, after with
  | b :: before', a :: after' => restore_ctx b a :: restore_ctxs before' after'
  | _, _ => after
  end.

(** [deepeval.test_run.MetricMetadata], the fields the orchestrator reads. *)
Module MetricMetadata.
Record t : Type := mk {
  score : option Q;
  threshold : Q;
  success : bool;
  reason : option string;
  strict_mode : bool;
  evaluation_model : string
}.
End MetricMetadata.

(** [deepeval.test_run.cache.CachedMetricData] *)
Record CachedMetricData : Type := mkCachedMetricData {
  metric_metadata : option MetricMetadata.t
}.

(** A [rich] progress bar: the tasks added so far, each with the steps
    completed and the total.  It is finished when it has no task or every
    task has reached its total. *)
Record ProgressTask : Type := mkProgressTask {
  completed : nat;
  total : nat
}.

Definition task_finished (t : ProgressTask) : bool := total t <=? completed t.

Definition finished (tasks : list ProgressTask) : bool :=
  match tasks with
  | [] => true
  | _ => forallb task_finished tasks
  end.

(** [xs[i] = f(xs[i])] *)
Fixpoint update_nth {A : Type} (i : nat) (f : A -> A) (xs : list A) : list A :=
  match xs, i with
  | [], _ => []
  | x :: xs', 0 => f x :: xs'
  | x :: xs', S i' => x :: update_nth i' f xs'
  end.

(** The objects in play: the metrics of the call, each known by its
    position in the list, and the progress bar. *)
Record World : Type := mkWorld {
  metrics : list AnyMetric;
  progress : list ProgressTask
}.

Section Orchestrator.

Variable X : Externals.

(** [deepeval.test_run.cache]: the cached test case and the lookup
    [Cache.get_metric_data(metric, cached_test_case)]. *)
Variable CachedTestCase : Type.
Variable get_metric_data : AnyMetric -> CachedTestCase -> option CachedMetricData.

(** [deepeval.utils.show_indicator()] *)
Variable show_indicator : bool.

Local Open Scope py_scope.

(** [await metric.a_measure(test_case, _show_indicator=False)] *)
Definition a_measure (test_case : LLMTestCase) (m : AnyMetric)
  : (PyExc + option Q) * AnyMetric :=
  match m with
  | OfBias s =>
      let (r, s') := Bias.a_measure X test_case s in (r, OfBias s')
  | OfFaithfulness s =>
      let (r, s') := Faithfulness.a_measure X test_case s in
      (r, OfFaithfulness s')
  | OfSummarization s =>
      let (r, s') := Summarization.a_measure X test_case s in
      (r, OfSummarization s')
  end.

Definition the_metric (metric : nat) : M World AnyMetric :=
  fun w =>
    match nth_error (metrics w) metric with
    | Some m => (inr m, w)
    | None => (inl IndexError, w)
    end.

Definition assign (metric : nat) (f : BaseMetric -> BaseMetric)
  : M World unit :=
  modify (fun w =>
            mkWorld (update_nth metric (with_base f) (metrics w)) (progress w)).

Definition a_measure_of (metric : nat) (test_case : LLMTestCase)
  : M World unit :=
  fun w =>
    match nth_error (metrics w) metric with
    | Some m =>
        let (r, m') := a_measure test_case m in
        (match r with inl e => inl e | inr _ => inr tt end,
         mkWorld (update_nth metric (fun _ => m') (metrics w)) (progress w))
    | None => (inl IndexError, w)
    end.

(** The lookup both paths make,

      metric_metadata = None
      if cached_test_case is not None:
          cached_metric_data = Cache.get_metric_data(metric, cached_test_case)
          if cached_metric_data:
              metric_metadata = cached_metric_data.metric_metadata       *)
Definition cached_metadata (metric : nat)
    (cached_test_case : option CachedTestCase)
  : M World (option MetricMetadata.t) :=
  match cached_test_case with
  | None => ret None
  | Some c =>
      m <- the_metric metric ;;
      match get_metric_data m c with
      | Some cached_metric_data => ret (metric_metadata cached_metric_data)
      | None => ret None
      end
  end.

(** [progress.add_task(description=..., total=total)] *)
Definition add_task (total : nat) : M World nat :=
  fun w =>
    (inr (length (progress w)),
     mkWorld (metrics w) (progress w ++ [mkProgressTask 0 total])).

(** [progress.update(task_id, advance=advance)] *)
Definition update (task_id advance : nat) : M World unit :=
  fun w =>
    match nth_error (progress w) task_id with
    | Some _ =>
        (inr tt,
         mkWorld (metrics w)
           (update_nth task_id
              (fun t => mkProgressTask (completed t + advance) (total t))
              (progress w)))
    | None => (inl (KeyError "task_id"), w)
    end.

(** The body of the [while] loop ends in [break]: it runs once, or not at
    all.  The clock and the description of the task are left out. *)
Definition measure_metric_task (task_id : nat) (metric : nat)
    (test_case : LLMTestCase) (cached_test_case : option CachedTestCase)
  : M World unit :=
  tasks <- gets progress ;;
  if finished tasks then ret tt
  else
    metadata <- cached_metadata metric cached_test_case ;;
    (match metadata with
     | Some metric_metadata =>
         (* only change metric state, not configs *)
         assign metric (set_score (MetricMetadata.score metric_metadata)) ;;
         assign metric
           (set_success (Some (MetricMetadata.success metric_metadata))) ;;
         assign metric
           (set_reason
              (option_map JStr (MetricMetadata.reason metric_metadata)))
     | None =>
         try_except_TypeError
           (a_measure_of metric test_case)
           (a_measure_of metric test_case)
     end) ;;
    update task_id 100.

(** A task of the orchestrator runs in a copy of the context: when it ends,
    every metric has the [ContextVar] values it had before. *)
Definition as_task {A : Type} (c : M World A) : M World A :=
  fun w =>
    let (r, w') := c w in
    (r, mkWorld (restore_ctxs (metrics w) (metrics w')) (progress w')).

(** [await asyncio.gather( *tasks)]: every task is started before the
    first exception is delivered.  The schedule is fixed: each runs to its
    end, in the order of the list; the first exception is the one raised. *)
Fixpoint gather (tasks : list (M World unit)) (failure : option PyExc)
  : M World unit :=
  match tasks with
  | [] =>
      match failure with
      | Some e => raise e
      | None => ret tt
      end
  | task :: tasks' =>
      fun w =>
        let (r, w1) := as_task task w in
        gather tasks'
          (match failure, r with
           | None, inl e => Some e
           | _, _ => failure
           end)
          w1
  end.

(** The first loop: one progress task and one coroutine per metric. *)
Fixpoint with_indicator (indices : list nat) (test_case : LLMTestCase)
    (cached_test_case : option CachedTestCase) (tasks : list (M World unit))
  : M World (list (M World unit)) :=
  match indices with
  | [] => ret tasks
  | metric :: indices' =>
      task_id <- add_task 100 ;;
      with_indicator indices' test_case cached_test_case
        (tasks
         ++ [measure_metric_task task_id metric test_case cached_test_case])
  end.

(** The second loop: a metric the cache knows takes its state and its
    configuration from the cache; any other metric is scheduled. *)
Fixpoint without_indicator (indices : list nat) (test_case : LLMTestCase)
    (cached_test_case : option CachedTestCase) (tasks : list (M World unit))
  : M World (list (M World unit)) :=
  match indices with
  | [] => ret tasks
  | metric :: indices' =>
      metadata <- cached_metadata metric cached_test_case ;;
      match metadata with
      | Some metric_metadata =>
          assign metric (set_score (MetricMetadata.score metric_metadata)) ;;
          assign metric
            (set_threshold (MetricMetadata.threshold metric_metadata)) ;;
          assign metric
            (set_success (Some (MetricMetadata.success metric_metadata))) ;;
          assign metric
            (set_reason
               (option_map JStr (MetricMetadata.reason metric_metadata))) ;;
          assign metric
            (set_strict_mode (MetricMetadata.strict_mode metric_metadata)) ;;
          assign metric
            (set_evaluation_model
               (MetricMetadata.evaluation_model metric_metadata)) ;;
          without_indicator indices' test_case cached_test_case tasks
      | None =>
          without_indicator indices' test_case cached_test_case
            (tasks ++ [a_measure_of metric test_case])
      end
  end.

(** [metrics] is the list of the world: the metric at position [i] is
    known as [i]. *)
Definition measure_metrics_with_indicator (test_case : LLMTestCase)
    (cached_test_case : option CachedTestCase) : M World unit :=
  metrics <- gets metrics ;;
  let indices := seq 0 (length metrics) in
  if show_indicator then
    modify (fun w => mkWorld (Indicator.metrics w) []) ;;
    tasks <- with_indicator indices test_case cached_test_case [] ;;
    gather tasks None
  else
    tasks <- without_indicator indices test_case cached_test_case [] ;;
    gather tasks None.

End Orchestrator.

End Indicator.

(* ================================================================== *)
(** * Part VII.  The rules, as the specification words them       *)
(* ================================================================== *)

Module Spec.

(** The verdicts whose label satisfies [positive]. *)
Definition positive_count (positive : string -> bool) (vs : list Verdict.t)
  : nat :=
  length (filter (fun v => positive (Verdict.verdict v)) vs).

(** positive_count / total *)
Definition ratio (positive : string -> bool) (vs : list Verdict.t) : Q :=
  py_div (positive_count positive vs) (length vs).

(** The pairs whose original answer is "yes", and those among them whose
    summary answer is "yes" too. *)
Definition answerable (vs : list Summarization.CoverageVerdict)
  : list Summarization.CoverageVerdict :=
  filter (fun v => PyStr.label_is "yes" (Summarization.original_verdict v)) vs.

Definition covered (vs : list Summarization.CoverageVerdict)
  : list Summarization.CoverageVerdict :=
  filter (fun v => PyStr.label_is "yes" (Summarization.summary_verdict v))
    (answerable vs).

(** coverage_count / denom *)
Definition coverage_ratio (vs : list Summarization.CoverageVerdict) : Q :=
  py_div (length (covered vs)) (length (answerable vs)).

(** Strict mode of the bias metric: any score above 0 becomes 1. *)
Definition snap_up (strict : bool) (q : Q) : Q :=
  if strict && negb (Qle_bool q 0) then 1%Q else q.

(** Strict mode of the other two metrics: any score below 1 becomes 0. *)
Definition snap_down (strict : bool) (q : Q) : Q :=
  if strict && negb (Qle_bool 1 q) then 0%Q else q.

(** What a parsed response holds under [key], read as a list of strings. *)
Definition decoded (X : Externals) (metric key raw : string)
  : PyExc + json :=
  match trimAndLoadJson X raw with
  | None => inl (ParseError metric raw)
  | Some data => getitem data key
  end.

(** The judge's answer list for [text] under [questions], through one of
    its two methods. *)
Definition answer_list (X : Externals)
    (method : Judge -> string -> string * Q) (j : Judge)
    (questions : option json) (text : string)
  : PyExc + json :=
  decoded X Summarization.__name__ "answers"
    (fst (method j (Summarization_generate_answers X questions text))).

(** The questions the judge generates from [text]. *)
Definition question_list (X : Externals)
    (method : Judge -> string -> string * Q) (j : Judge)
    (text : string) (n : nat) : PyExc + json :=
  decoded X Summarization.__name__ "questions"
    (fst (method j (Summarization_generate_questions X text n))).

(** The assessment questions an evaluation of [text] works with: the ones
    the metric holds, or else what the judge gives for [text], which may
    be [None]. *)
Definition questions_in_force (X : Externals)
    (method : Judge -> string -> string * Q) (s : Summarization.State)
    (text : string) : PyExc + option json :=
  match Summarization.assessment_questions (ext s) with
  | Some questions => inr (Some questions)
  | None =>
      match
        question_list X method (model (base s)) text (Summarization.n (ext s))
      with
      | inr generated => inr (optional generated)
      | inl e => inl e
      end
  end.

(** The judge's answer list for the original text and its answer list
    for the summary, under the questions in force, differ in length. *)
Definition answers_mismatch (X : Externals)
    (method : Judge -> string -> string * Q) (s : Summarization.State)
    (text summary : string) : Prop :=
  exists questions original_answers summary_answers original_count
         summary_count,
    questions_in_force X method s text = inr questions
    /\ answer_list X method (model (base s)) questions text
       = inr original_answers
    /\ answer_list X method (model (base s)) questions summary
       = inr summary_answers
    /\ py_len original_answers = inr original_count
    /\ py_len summary_answers = inr summary_count
    /\ original_count <> summary_count.

(** The model is charged for: a native model has a cost to add to. *)
Definition funded (b : BaseMetric) : Prop :=
  using_native_model b = true -> is_some (evaluation_cost b) = true.

(** Both methods of the judge answer every prompt alike. *)
Definition same_responses (j : Judge) : Prop :=
  forall prompt, a_generate j prompt = generate j prompt.

End Spec.

(* ================================================================== *)
(** * Part VIII.  A small judge, for running the definitions           *)
(* ================================================================== *)

(** Templates that spell out the stage and its inputs, a judge that
    answers from a table, and a parser that knows the judge's answers. *)
Module Demo.

Local Open Scope string_scope.

Definition commas (xs : list string) : string := String.concat "," xs.

(** A list of strings as the templates show it; any other value as "?". *)
Definition listed (v : json) : string :=
  match v with
  | JArr items =>
      match as_strs items with
      | inr xs => commas xs
      | inl _ => "?"
      end
  | _ => "?"
  end.

Definition shown (q : Q) : string :=
  if Qeq_bool q 0%Q then "0.00"
  else if Qeq_bool q 1%Q then "1.00"
  else if Qeq_bool q (1 # 4)%Q then "0.25"
  else "0.50".

Definition X : Externals :=
  mkExternals
    (fun raw =>
       if String.eqb raw "O4" then
         Some (JObj [("opinions",
                      JArr [JStr "o1"; JStr "o2"; JStr "o3"; JStr "o4"])])
       else if String.eqb raw "V4" then
         Some (JObj [("verdicts",
                      JArr [JObj [("verdict", JStr "yes");
                                  ("reason", JStr "slanted")];
                            JObj [("verdict", JStr "no")];
                            JObj [("verdict", JStr "no")];
                            JObj [("verdict", JStr "no")]])])
       else if String.eqb raw "R" then
         Some (JObj [("reason", JStr "because")])
       else if String.eqb raw "T" then
         Some (JObj [("truths", JArr [JStr "t"])])
       else if String.eqb raw "C" then
         Some (JObj [("claims", JArr [JStr "c"])])
       else if String.eqb raw "C0" then
         Some (JObj [("claims", JArr [])])
       else if String.eqb raw "VY" then
         Some (JObj [("verdicts", JArr [JObj [("verdict", JStr "yes")]])])
       else if String.eqb raw "Q1" then
         Some (JObj [("questions", JArr [JStr "q1"])])
       else if String.eqb raw "Q2" then
         Some (JObj [("questions", JArr [JStr "q2"])])
       else if String.eqb raw "Y" then
         Some (JObj [("answers", JArr [JStr "yes"])])
       else if String.eqb raw "N" then
         Some (JObj [("answers", JArr [JStr "no"])])
       else if String.eqb raw "A3" then
         Some (JObj [("answers", JArr [JStr "yes"; JStr "yes"; JStr "no"])])
       else if String.eqb raw "A2" then
         Some (JObj [("answers", JArr [JStr "yes"; JStr "no"])])
       else None)
    shown
    (fun _ => "[...]"%string)
    (fun actual_output => ("opinions|" ++ actual_output)%string)
    (fun opinions => ("verdicts|" ++ listed opinions)%string)
    (fun _ score => ("reason|" ++ score)%string)
    (fun text => ("truths|" ++ text)%string)
    (fun text => ("claims|" ++ text)%string)
    (fun claims context =>
       ("faithful|" ++ listed claims ++ "|" ++ context)%string)
    (fun _ score => ("reason|" ++ score)%string)
    (fun questions text =>
       ("answers|"
        ++ match questions with Some qs => listed qs | None => "None" end
        ++ "|" ++ text)%string)
    (fun text _ => ("questions|" ++ text)%string)
    (fun claims text => ("aligned|" ++ listed claims ++ "|" ++ text)%string)
    (fun _ _ _ score => ("reason|" ++ score)%string).

Fixpoint lookup (prompt : string) (table : list (string * string)) : string :=
  match table with
  | [] => ""
  | (p, answer) :: table' =>
      if String.eqb p prompt then answer else lookup prompt table'
  end.

Definition answers : list (string * string) :=
  [ ("opinions|a", "O4");
    ("verdicts|o1,o2,o3,o4", "V4");
    ("truths|ctx", "T");
    ("claims|a", "C"); ("claims|quiet", "C0");
    ("faithful|c|t", "VY");
    ("claims|in1", "C"); ("claims|out1", "C");
    ("claims|in2", "C"); ("claims|out2", "C");
    ("claims|in3", "C"); ("claims|out3", "C");
    ("claims|in4", "C"); ("claims|out4", "C");
    ("aligned|c|c", "VY");
    ("questions|in1", "Q1"); ("questions|in2", "Q2");
    ("questions|in3", "Q1");
    ("answers|q1|in3", "Y"); ("answers|q1|out3", "N");
    ("answers|q1|in1", "Y"); ("answers|q1|out1", "Y");
    ("answers|q2|in2", "Y"); ("answers|q2|out2", "Y");
    ("answers|q1|in2", "Y"); ("answers|q1|out2", "N");
    ("answers|q2|in1", "Y"); ("answers|q2|out1", "N");
    ("answers|a,b,c|in4", "A3"); ("answers|a,b,c|out4", "A2")
  ]%string.

Definition reply (prompt : string) : string * Q :=
  (if String.prefix "reason|" prompt then "R"%string
   else lookup prompt answers,
   0%Q).

(** A judge that is not native, as a caller's own model. *)
Definition judge : Judge := mkJudge reply reply "demo" false.

Definition test_case (input actual_output : string) : LLMTestCase :=
  mkTestCase (Some input) (Some actual_output) None None None.

Definition with_context (tc : LLMTestCase) (retrieval_context : list string)
  : LLMTestCase :=
  mkTestCase (input tc) (actual_output tc) (expected_output tc) (context tc)
    (Some retrieval_context).

Definition yes : Verdict.t := Verdict.mk "yes" None.
Definition no : Verdict.t := Verdict.mk "no" None.

(** Originals [yes, yes, no] against summaries [yes, no, no]. *)
Definition three_pairs : list Summarization.CoverageVerdict :=
  [ Summarization.mkCoverageVerdict "yes" "yes" (Some "a");
    Summarization.mkCoverageVerdict "no" "yes" (Some "b");
    Summarization.mkCoverageVerdict "no" "no" (Some "c") ]%string.

(** A summarization metric as its constructor leaves it. *)
Definition summarizer (assessment_questions : option (list string))
    (async_mode strict_mode : bool) : Summarization.State :=
  Summarization.__init__ (1 # 2)%Q 5 judge assessment_questions
    false async_mode strict_mode false.

(** The metric [s], holding [vs] as its coverage verdicts. *)
Definition holding (vs : list Summarization.CoverageVerdict)
    (s : Summarization.State) : Summarization.State :=
  mkSelf (base s) (ext s)
    (Summarization.set_coverage_verdicts (Some vs) (ctx s)).

(** A cache that knows every metric, with one entry. *)
Definition entry : Indicator.MetricMetadata.t :=
  Indicator.MetricMetadata.mk (Some (1 # 4)%Q) (3 # 10)%Q true
    (Some "cached"%string) false "older-model"%string.

Definition cache (m : Indicator.AnyMetric) (c : unit)
  : option Indicator.CachedMetricData :=
  Some (Indicator.mkCachedMetricData (Some entry)).

End Demo.

(* ================================================================== *)
(** * The orchestrator's assignments, and sample objects              *)
(* ================================================================== *)

(** What a cache hit assigns to a metric, by path of
    [measure_metrics_with_indicator]. *)
Module Hit.

(** With the progress bar ([measure_metric_task]): the state of the
    metric, and none of its configuration. *)
Definition adopt_state (md : Indicator.MetricMetadata.t) (b : BaseMetric)
  : BaseMetric :=
  set_reason (option_map JStr (Indicator.MetricMetadata.reason md))
    (set_success (Some (Indicator.MetricMetadata.success md))
       (set_score (Indicator.MetricMetadata.score md) b)).

(** Without the progress bar: state and configuration. *)
Definition adopt_all (md : Indicator.MetricMetadata.t) (b : BaseMetric)
  : BaseMetric :=
  set_evaluation_model (Indicator.MetricMetadata.evaluation_model md)
    (set_strict_mode (Indicator.MetricMetadata.strict_mode md)
       (set_reason (option_map JStr (Indicator.MetricMetadata.reason md))
          (set_success (Some (Indicator.MetricMetadata.success md))
             (set_threshold (Indicator.MetricMetadata.threshold md)
                (set_score (Indicator.MetricMetadata.score md) b))))).

End Hit.

(** The world seen from position [i]: the metric there and the progress
    task there. *)
Definition apart (i : nat) (w w' : Indicator.World) : Prop :=
  nth_error (Indicator.metrics w') i = nth_error (Indicator.metrics w) i
  /\ nth_error (Indicator.progress w') i
     = nth_error (Indicator.progress w) i.

(** Objects for running the definitions, beside those of [Demo]. *)
Module Sample.

(** A bias metric as its constructor leaves it, and a world with it as
    the only metric of the call. *)
Definition bias_metric : Bias.State :=
  Bias.__init__ (1 # 2)%Q Demo.judge true true false false.

Definition one_bias_metric : Indicator.World :=
  Indicator.mkWorld [Indicator.OfBias bias_metric] [].

End Sample.

(** ** Configuration and state of a metric

    The attributes a caller sets when it builds the metric, and [error],
    which the code of the metrics reads and never writes. *)
Definition same_configuration (b b' : BaseMetric) : Prop :=
  threshold b' = threshold b
  /\ model b' = model b
  /\ using_native_model b' = using_native_model b
  /\ evaluation_model b' = evaluation_model b
  /\ include_reason b' = include_reason b
  /\ async_mode b' = async_mode b
  /\ strict_mode b' = strict_mode b
  /\ verbose_mode b' = verbose_mode b
  /\ error b' = error b.

(** The attributes with everything an evaluation assigns blanked. *)
Definition configuration (b : BaseMetric) : BaseMetric :=
  set_score None
    (set_score_breakdown None
       (set_reason None
          (set_success None
             (set_evaluation_cost None (set_judge_calls [] b))))).

Definition configured {Ext Ctx : Type} (s s' : Self Ext Ctx) : Prop :=
  configuration (base s') = configuration (base s).

(* ================================================================== *)
(** * Part IX.  Counting and arithmetic                                *)
(* ================================================================== *)

Section Counting.

Context {A : Type}.

Lemma count_loop (p : A -> bool) (xs : list A) (k : nat) :
  fold_left (fun count v => if p v then count + 1 else count) xs k
  = k + length (filter p xs).
Proof.
  revert k; induction xs as [|x xs IH]; intros k; simpl.
  - lia.
  - rewrite IH. destruct (p x); simpl; lia.
Qed.

Lemma collect_loop {B : Type} (p : A -> bool) (f : A -> B) (xs : list A)
    (acc : list B) :
  fold_left (fun acc v => if p v then acc ++ [f v] else acc) xs acc
  = acc ++ map f (filter p xs).
Proof.
  revert acc; induction xs as [|x xs IH]; intros acc; simpl.
  - now rewrite app_nil_r.
  - rewrite IH. destruct (p x); simpl; [now rewrite <- app_assoc|reflexivity].
Qed.

Lemma pair_loop (p q : A -> bool) (xs : list A) (t c : nat) :
  fold_left
    (fun '(total, count) v =>
       if p v then (total + 1, if q v then count + 1 else count)
       else (total, count))
    xs (t, c)
  = (t + length (filter p xs), c + length (filter q (filter p xs))).
Proof.
  revert t c; induction xs as [|x xs IH]; intros t c; simpl.
  - f_equal; lia.
  - destruct (p x); simpl; [destruct (q x); simpl|]; rewrite IH; f_equal; lia.
Qed.

End Counting.

Lemma py_div_bounds (k n : nat) :
  k <= n -> 0 < n -> (0 <= py_div k n /\ py_div k n <= 1)%Q.
Proof.
  intros Hk Hn. unfold py_div.
  assert (Hpos : (0 < inject_Z (Z.of_nat n))%Q).
  { change 0%Q with (inject_Z 0). rewrite <- Zlt_Qlt. lia. }
  split.
  - apply Qle_shift_div_l; [exact Hpos|].
    rewrite Qmult_0_l. change 0%Q with (inject_Z 0). rewrite <- Zle_Qle. lia.
  - apply Qle_shift_div_r; [exact Hpos|].
    rewrite Qmult_1_l. rewrite <- Zle_Qle. lia.
Qed.

Lemma py_div_positive (k n : nat) :
  0 < n -> ((0 < py_div k n)%Q <-> 0 < k).
Proof.
  intros Hn. unfold py_div.
  assert (Hpos : (0 < inject_Z (Z.of_nat n))%Q).
  { change 0%Q with (inject_Z 0). rewrite <- Zlt_Qlt. lia. }
  split.
  - intros H. destruct k; [|lia]. exfalso.
    simpl in H. unfold Qdiv in H. rewrite Qmult_0_l in H.
    now apply Qlt_irrefl in H.
  - intros Hk. apply Qlt_shift_div_l; [exact Hpos|].
    rewrite Qmult_0_l. change 0%Q with (inject_Z 0). rewrite <- Zlt_Qlt. lia.
Qed.

Lemma py_div_below_one (k n : nat) :
  0 < n -> ((py_div k n < 1)%Q <-> k < n).
Proof.
  intros Hn. unfold py_div.
  assert (Hpos : (0 < inject_Z (Z.of_nat n))%Q).
  { change 0%Q with (inject_Z 0). rewrite <- Zlt_Qlt. lia. }
  split.
  - intros H. destruct (Nat.lt_ge_cases k n) as [|Hge]; [assumption|exfalso].
    apply (Qlt_not_le _ _ H). apply Qle_shift_div_l; [exact Hpos|].
    rewrite Qmult_1_l. rewrite <- Zle_Qle. lia.
  - intros Hk. apply Qlt_shift_div_r; [exact Hpos|].
    rewrite Qmult_1_l. rewrite <- Zlt_Qlt. lia.
Qed.

Lemma py_lt_iff (a b : Q) : py_lt a b = true <-> (a < b)%Q.
Proof.
  unfold py_lt. rewrite negb_true_iff, <- not_true_iff_false, Qle_bool_iff.
  split; [apply Qnot_le_lt|apply Qlt_not_le].
Qed.

Lemma py_gt_iff (a b : Q) : py_gt a b = true <-> (b < a)%Q.
Proof.
  unfold py_gt. rewrite negb_true_iff, <- not_true_iff_false, Qle_bool_iff.
  split; [apply Qnot_le_lt|apply Qlt_not_le].
Qed.

Lemma py_le_iff (a b : Q) : py_le a b = true <-> (a <= b)%Q.
Proof. apply Qle_bool_iff. Qed.

Lemma py_ge_iff (a b : Q) : py_ge a b = true <-> (b <= a)%Q.
Proof. apply Qle_bool_iff. Qed.

(** [min] of Python and [Qmin] name the same number. *)
Lemma py_min_Qmin (a b : Q) : (py_min a b == Qmin a b)%Q.
Proof.
  unfold py_min. destruct (py_lt b a) eqn:E.
  - apply py_lt_iff in E. symmetry. apply Q.min_r. now apply Qlt_le_weak.
  - symmetry. apply Q.min_l. apply Qnot_lt_le. intros H.
    apply py_lt_iff in H. congruence.
Qed.

Lemma py_min_bounds (a b : Q) :
  (0 <= a <= 1)%Q -> (0 <= b <= 1)%Q -> (0 <= py_min a b <= 1)%Q.
Proof. unfold py_min. destruct (py_lt b a); tauto. Qed.

(* ================================================================== *)
(** * Part X.  Running a computation                                   *)
(* ================================================================== *)

Section Running.

Context {S : Type}.

Lemma bind_inr {A B : Type} (c : M S A) (k : A -> M S B) s b s' :
  bind c k s = (inr b, s') ->
  exists a s1, c s = (inr a, s1) /\ k a s1 = (inr b, s').
Proof.
  unfold bind. destruct (c s) as [[e|a] s1]; [discriminate|].
  intros H. now exists a, s1.
Qed.

Lemma bind_returns {A B : Type} (c : M S A) (k : A -> M S B) s a s1 :
  c s = (inr a, s1) -> bind c k s = k a s1.
Proof. unfold bind. now intros ->. Qed.

Lemma bind_raises {A B : Type} (c : M S A) (k : A -> M S B) s e s1 :
  c s = (inl e, s1) -> bind c k s = (inl e, s1).
Proof. unfold bind. now intros ->. Qed.

(** A computation keeps [R] when every run, failed or not, relates the
    state it started from to the state it left. *)
Definition keeps {A : Type} (R : S -> S -> Prop) (c : M S A) : Prop :=
  forall s, R s (snd (c s)).

Variable R : S -> S -> Prop.
Hypothesis R_refl : forall s, R s s.
Hypothesis R_trans : forall s1 s2 s3, R s1 s2 -> R s2 s3 -> R s1 s3.

Lemma keeps_ret {A : Type} (a : A) : keeps R (ret a).
Proof. intros s. apply R_refl. Qed.

Lemma keeps_raise {A : Type} (e : PyExc) : keeps R (@raise S A e).
Proof. intros s. apply R_refl. Qed.

Lemma keeps_gets {A : Type} (f : S -> A) : keeps R (gets f).
Proof. intros s. apply R_refl. Qed.

Lemma keeps_lift {A : Type} (r : PyExc + A) : keeps R (lift r).
Proof. intros s. apply R_refl. Qed.

Lemma keeps_not_none {A : Type} (o : option A) : keeps R (not_none o).
Proof. destruct o; [apply keeps_ret|apply keeps_raise]. Qed.

Lemma keeps_bind {A B : Type} (c : M S A) (k : A -> M S B) :
  keeps R c -> (forall a, keeps R (k a)) -> keeps R (bind c k).
Proof.
  intros Hc Hk s. unfold bind. specialize (Hc s).
  destruct (c s) as [[e|a] s1]; simpl in *; [assumption|].
  eapply R_trans; [exact Hc|apply Hk].
Qed.

Lemma keeps_try_except {A : Type} (c h : M S A) :
  keeps R c -> keeps R h -> keeps R (try_except c h).
Proof.
  intros Hc Hh s. unfold try_except. specialize (Hc s).
  destruct (c s) as [[e|a] s1]; simpl in *; [|assumption].
  eapply R_trans; [exact Hc|apply Hh].
Qed.

End Running.

(** ** What a stage leaves alone *)

(** Two states of the attributes that differ at most in the cost counted
    and in the log of prompts. *)
Definition quiet (b b' : BaseMetric) : Prop :=
  set_evaluation_cost None (set_judge_calls [] b')
  = set_evaluation_cost None (set_judge_calls [] b).

Lemma quiet_refl b : quiet b b.
Proof. reflexivity. Qed.

Lemma quiet_trans b1 b2 b3 : quiet b1 b2 -> quiet b2 b3 -> quiet b1 b3.
Proof. unfold quiet. congruence. Qed.

Lemma quiet_score b b' : quiet b b' -> score b' = score b.
Proof. intros H. exact (f_equal score H). Qed.

Lemma quiet_threshold b b' : quiet b b' -> threshold b' = threshold b.
Proof. intros H. exact (f_equal threshold H). Qed.

Lemma quiet_model b b' : quiet b b' -> model b' = model b.
Proof. intros H. exact (f_equal model H). Qed.

Lemma quiet_reason b b' : quiet b b' -> reason b' = reason b.
Proof. intros H. exact (f_equal reason H). Qed.

Lemma quiet_success b b' : quiet b b' -> success b' = success b.
Proof. intros H. exact (f_equal success H). Qed.

Lemma quiet_strict_mode b b' : quiet b b' -> strict_mode b' = strict_mode b.
Proof. intros H. exact (f_equal strict_mode H). Qed.

Lemma quiet_using_native_model b b' :
  quiet b b' -> using_native_model b' = using_native_model b.
Proof. intros H. exact (f_equal using_native_model H). Qed.

Lemma quiet_include_reason b b' :
  quiet b b' -> include_reason b' = include_reason b.
Proof. intros H. exact (f_equal include_reason H). Qed.

Lemma quiet_set_evaluation_cost b c : quiet b (set_evaluation_cost c b).
Proof. reflexivity. Qed.

Lemma quiet_set_judge_calls b l : quiet b (set_judge_calls l b).
Proof. reflexivity. Qed.

Section Frames.

Context {Ext Ctx : Type}.
Variable X : Externals.

(** The state after a stage that only talks to the judge. *)
Definition untouched (s s' : Self Ext Ctx) : Prop :=
  ctx s' = ctx s /\ ext s' = ext s /\ quiet (base s) (base s')
  /\ (is_some (evaluation_cost (base s)) = true ->
      is_some (evaluation_cost (base s')) = true).

Lemma untouched_refl s : untouched s s.
Proof. split; [|split; [|split]]; auto using quiet_refl. Qed.

Lemma untouched_trans s1 s2 s3 :
  untouched s1 s2 -> untouched s2 s3 -> untouched s1 s3.
Proof.
  intros (H1 & H2 & H3 & H4) (H5 & H6 & H7 & H8).
  split; [congruence|split; [congruence|split; [|auto]]].
  eapply quiet_trans; eassumption.
Qed.

Lemma stays_ret {A : Type} (a : A) : keeps untouched (ret a).
Proof. apply keeps_ret, untouched_refl. Qed.

Lemma stays_raise {A : Type} (e : PyExc) :
  keeps untouched (@raise (Self Ext Ctx) A e).
Proof. apply keeps_raise, untouched_refl. Qed.

Lemma stays_lift {A : Type} (r : PyExc + A) : keeps untouched (lift r).
Proof. apply keeps_lift, untouched_refl. Qed.

Lemma stays_not_none {A : Type} (o : option A) :
  keeps untouched (not_none o).
Proof. apply keeps_not_none, untouched_refl. Qed.

Lemma stays_bind {A B : Type} (c : M (Self Ext Ctx) A)
    (k : A -> M (Self Ext Ctx) B) :
  keeps untouched c -> (forall a, keeps untouched (k a)) ->
  keeps untouched (bind c k).
Proof. apply keeps_bind, untouched_trans. Qed.

Lemma stays_attr {A : Type} (f : BaseMetric -> A) :
  keeps untouched (@attr Ext Ctx A f).
Proof. intros s. apply untouched_refl. Qed.

Lemma stays_var {A : Type} (f : Ctx -> A) :
  keeps untouched (@var Ext Ctx A f).
Proof. intros s. apply untouched_refl. Qed.

Lemma stays_gets {A : Type} (f : Self Ext Ctx -> A) :
  keeps untouched (gets f).
Proof. intros s. apply untouched_refl. Qed.

Lemma stays_load name res : keeps untouched (@load Ext Ctx X name res).
Proof.
  unfold load. destruct (trimAndLoadJson X res);
    intros s; apply untouched_refl.
Qed.

Lemma stays_invoke method prompt :
  keeps untouched (@invoke Ext Ctx method prompt).
Proof.
  intros s. split; [reflexivity|split; [reflexivity|split; [reflexivity|]]].
  trivial.
Qed.

Lemma stays_add_cost cost : keeps untouched (@add_cost Ext Ctx cost).
Proof.
  intros s. unfold add_cost, bind, attr, gets, not_none; simpl.
  destruct (evaluation_cost (base s));
    (split; [reflexivity|split; [reflexivity|split; [reflexivity|]]]);
    trivial.
Qed.

Lemma stays_ask native plain prompt :
  keeps untouched (@ask Ext Ctx native plain prompt).
Proof.
  unfold ask. apply stays_bind; [apply stays_attr|].
  intros [|]; (apply stays_bind; [apply stays_invoke|]); intros [res cost].
  - apply stays_bind; [apply stays_add_cost|]. intros _. apply stays_ret.
  - apply stays_ret.
Qed.

Lemma stays_check tc required name :
  keeps untouched (@check_llm_test_case_params Ext Ctx tc required name).
Proof.
  unfold check_llm_test_case_params.
  destruct (filter (param_missing tc) required); intros s;
    apply untouched_refl.
Qed.

Lemma stays_gather2 {A B : Type} (a : M (Self Ext Ctx) A)
    (b : M (Self Ext Ctx) B) :
  keeps untouched a -> keeps untouched b -> keeps untouched (gather2 a b).
Proof.
  intros Ka Kb s. unfold gather2, as_task.
  specialize (Ka s). destruct (a s) as [ra s1]. simpl in Ka.
  specialize (Kb (mkSelf (base s1) (ext s1) (ctx s))).
  destruct (b _) as [rb s2]. simpl in Kb.
  assert (U : untouched s (mkSelf (base s2) (ext s2) (ctx s))).
  { destruct Ka as (K1 & K2 & K3 & K4), Kb as (K5 & K6 & K7 & K8).
    unfold untouched. simpl in *. split; [reflexivity|]. split; [congruence|].
    split; [eapply quiet_trans; eassumption|auto]. }
  destruct ra, rb; exact U.
Qed.

(** The state after a stage that may also assign to an attribute of the
    subclass. *)
Definition calm (s s' : Self Ext Ctx) : Prop :=
  ctx s' = ctx s /\ quiet (base s) (base s')
  /\ (is_some (evaluation_cost (base s)) = true ->
      is_some (evaluation_cost (base s')) = true).

Lemma calm_refl s : calm s s.
Proof. split; [|split]; auto using quiet_refl. Qed.

Lemma calm_trans s1 s2 s3 : calm s1 s2 -> calm s2 s3 -> calm s1 s3.
Proof.
  intros (H1 & H3 & H4) (H5 & H7 & H8).
  split; [congruence|split; [|auto]].
  eapply quiet_trans; eassumption.
Qed.

Lemma untouched_calm s s' : untouched s s' -> calm s s'.
Proof. intros (H1 & _ & H3 & H4). now split; [|split]. Qed.

Lemma calm_of_stays {A : Type} (c : M (Self Ext Ctx) A) :
  keeps untouched c -> keeps calm c.
Proof. intros K s. apply untouched_calm, K. Qed.

Lemma calm_on_ext (f : Ext -> Ext) : keeps calm (@on_ext Ext Ctx f).
Proof. intros s. split; [|split]; simpl; auto using quiet_refl. Qed.

Lemma calm_bind {A B : Type} (c : M (Self Ext Ctx) A)
    (k : A -> M (Self Ext Ctx) B) :
  keeps calm c -> (forall a, keeps calm (k a)) -> keeps calm (bind c k).
Proof. apply keeps_bind, calm_trans. Qed.

Lemma calm_gather2 {A B : Type} (a : M (Self Ext Ctx) A)
    (b : M (Self Ext Ctx) B) :
  keeps calm a -> keeps calm b -> keeps calm (gather2 a b).
Proof.
  intros Ka Kb s. unfold gather2, as_task.
  specialize (Ka s). destruct (a s) as [ra s1]. simpl in Ka.
  specialize (Kb (mkSelf (base s1) (ext s1) (ctx s))).
  destruct (b _) as [rb s2]. simpl in Kb.
  assert (U : calm s (mkSelf (base s2) (ext s2) (ctx s))).
  { destruct Ka as (K1 & K3 & K4), Kb as (K5 & K7 & K8).
    unfold calm. simpl in *. split; [reflexivity|].
    split; [eapply quiet_trans; eassumption|auto]. }
  destruct ra, rb; exact U.
Qed.

(** A task cannot change the context it was started in. *)
Lemma as_task_ctx {A : Type} (c : M (Self Ext Ctx) A) s :
  ctx (snd (as_task c s)) = ctx s.
Proof. unfold as_task. now destruct (c s). Qed.

Lemma as_task_of_keeps {A : Type} (c : M (Self Ext Ctx) A) s :
  ctx (snd (c s)) = ctx s -> as_task c s = c s.
Proof.
  unfold as_task. destruct (c s) as [r [b e x]]; simpl. now intros ->.
Qed.

End Frames.

(** Proves [keeps untouched c] for a stage written with the combinators. *)
Ltac frame :=
  repeat first
    [ apply stays_ret
    | apply stays_raise
    | apply stays_lift
    | apply stays_not_none
    | apply stays_attr
    | apply stays_var
    | apply stays_gets
    | apply stays_load
    | apply stays_ask
    | apply stays_check
    | apply stays_gather2
    | apply stays_bind; [ | intros ]
    | match goal with
      | |- keeps _ (if ?b then _ else _) => destruct b
      | |- keeps _ (match ?x with _ => _ end) => destruct x
      | |- keeps _ (let '(_, _) := ?x in _) => destruct x
      end ].

(* ================================================================== *)
(** * Part XI.  The aggregation stage                                  *)
(* ================================================================== *)

Section Aggregation.

Variable X : Externals.

(** What [BiasMetric._calculate_score] computes, read off the verdicts. *)
Lemma Bias_calculate_score_run (s : Bias.State) :
  Bias._calculate_score s
  = match Bias.verdicts (ctx s) with
    | None => (inl TypeError, s)
    | Some vs =>
        (inr (if length vs =? 0 then 0%Q
              else
                let r := Spec.ratio (PyStr.label_is "yes") vs in
                if strict_mode (base s) && py_gt r (threshold (base s))
                then 1%Q else r),
         s)
    end.
Proof.
  unfold Bias._calculate_score, bind, var, attr, gets, not_none, ret, raise.
  destruct (Bias.verdicts (ctx s)) as [vs|]; [|reflexivity].
  destruct (length vs =? 0); [reflexivity|].
  unfold Spec.ratio, Spec.positive_count. now rewrite count_loop.
Qed.

Lemma Faithfulness_calculate_score_run (s : Faithfulness.State) :
  Faithfulness._calculate_score s
  = match Faithfulness.verdicts (ctx s) with
    | None => (inl TypeError, s)
    | Some vs =>
        (inr (if length vs =? 0 then 1%Q
              else
                let r := Spec.ratio (PyStr.label_is_not "no") vs in
                if strict_mode (base s) && py_lt r (threshold (base s))
                then 0%Q else r),
         s)
    end.
Proof.
  unfold Faithfulness._calculate_score, bind, var, attr, gets, not_none,
    ret, raise.
  destruct (Faithfulness.verdicts (ctx s)) as [vs|]; [|reflexivity].
  destruct (length vs =? 0); [reflexivity|].
  unfold Spec.ratio, Spec.positive_count. now rewrite count_loop.
Qed.

Lemma Summarization_alignment_run (s : Summarization.State) :
  Summarization._calculate_score Summarization.ALIGNMENT s
  = match Summarization.alignment_verdicts (ctx s) with
    | None => (inl TypeError, s)
    | Some vs =>
        (inr (if length vs =? 0 then 0%Q
              else
                let r := Spec.ratio (PyStr.label_is "yes") vs in
                if strict_mode (base s) && py_lt r (threshold (base s))
                then 0%Q else r),
         s)
    end.
Proof.
  unfold Summarization._calculate_score, Summarization.strict_floor,
    bind, var, attr, gets, not_none, ret, raise.
  destruct (Summarization.alignment_verdicts (ctx s)) as [vs|];
    [|reflexivity].
  destruct (length vs =? 0); [reflexivity|].
  unfold Spec.ratio, Spec.positive_count. now rewrite count_loop.
Qed.

Lemma Summarization_coverage_run (s : Summarization.State) :
  Summarization._calculate_score Summarization.COVERAGE s
  = match Summarization.assessment_questions (ext s) with
    | None => (inr 1%Q, s)
    | Some _ =>
        match Summarization.coverage_verdicts (ctx s) with
        | None => (inl TypeError, s)
        | Some vs =>
            (inr (if length (Spec.answerable vs) =? 0 then 0%Q
                  else
                    let r := Spec.coverage_ratio vs in
                    if strict_mode (base s) && py_lt r (threshold (base s))
                    then 0%Q else r),
             s)
        end
    end.
Proof.
  unfold Summarization._calculate_score, Summarization.strict_floor,
    Summarization.field, bind, var, attr, gets, not_none, ret, raise.
  destruct (Summarization.assessment_questions (ext s)); [|reflexivity].
  simpl. destruct (Summarization.coverage_verdicts (ctx s)) as [vs|];
    [|reflexivity].
  rewrite pair_loop. simpl.
  fold (Spec.answerable vs). fold (Spec.covered vs).
  destruct (length (Spec.answerable vs) =? 0); reflexivity.
Qed.

Lemma ratio_bounds (positive : string -> bool) (vs : list Verdict.t) :
  (length vs =? 0) = false ->
  (0 <= Spec.ratio positive vs /\ Spec.ratio positive vs <= 1)%Q.
Proof.
  intros H. apply Nat.eqb_neq in H. apply py_div_bounds; [|lia].
  apply filter_length_le.
Qed.

Lemma coverage_ratio_bounds (vs : list Summarization.CoverageVerdict) :
  (length (Spec.answerable vs) =? 0) = false ->
  (0 <= Spec.coverage_ratio vs /\ Spec.coverage_ratio vs <= 1)%Q.
Proof.
  intros H. apply Nat.eqb_neq in H. apply py_div_bounds; [|lia].
  apply filter_length_le.
Qed.

Lemma zero_in_unit : (0 <= 0 /\ 0 <= 1)%Q.
Proof. split; discriminate. Qed.

Lemma one_in_unit : (0 <= 1 /\ 1 <= 1)%Q.
Proof. split; discriminate. Qed.

Lemma Bias_score_in_unit (s : Bias.State) q s' :
  Bias._calculate_score s = (inr q, s') -> (0 <= q /\ q <= 1)%Q.
Proof.
  rewrite Bias_calculate_score_run.
  destruct (Bias.verdicts (ctx s)) as [vs|]; [|discriminate].
  intros H; injection H as <- _.
  destruct (length vs =? 0) eqn:E; [apply zero_in_unit|].
  cbv zeta. destruct (_ && _); [apply one_in_unit|now apply ratio_bounds].
Qed.

Lemma Faithfulness_score_in_unit (s : Faithfulness.State) q s' :
  Faithfulness._calculate_score s = (inr q, s') -> (0 <= q /\ q <= 1)%Q.
Proof.
  rewrite Faithfulness_calculate_score_run.
  destruct (Faithfulness.verdicts (ctx s)) as [vs|]; [|discriminate].
  intros H; injection H as <- _.
  destruct (length vs =? 0) eqn:E; [apply one_in_unit|].
  cbv zeta. destruct (_ && _); [apply zero_in_unit|now apply ratio_bounds].
Qed.

Lemma Summarization_score_in_unit score_type (s : Summarization.State) q s' :
  Summarization._calculate_score score_type s = (inr q, s') ->
  (0 <= q /\ q <= 1)%Q.
Proof.
  destruct score_type.
  - rewrite Summarization_alignment_run.
    destruct (Summarization.alignment_verdicts (ctx s)) as [vs|];
      [|discriminate].
    intros H; injection H as <- _.
    destruct (length vs =? 0) eqn:E; [apply zero_in_unit|].
    cbv zeta. destruct (_ && _); [apply zero_in_unit|now apply ratio_bounds].
  - rewrite Summarization_coverage_run.
    destruct (Summarization.assessment_questions (ext s)).
    + destruct (Summarization.coverage_verdicts (ctx s)) as [vs|];
        [|discriminate].
      intros H; injection H as <- _.
      destruct (length (Spec.answerable vs) =? 0) eqn:E;
        [apply zero_in_unit|].
      cbv zeta.
      destruct (_ && _); [apply zero_in_unit|now apply coverage_ratio_bounds].
    + intros H; injection H as <- _. apply one_in_unit.
Qed.

End Aggregation.
(* ================================================================== *)
(** * Part XII.  One evaluation                                        *)
(* ================================================================== *)

Create HintDb stages.

#[local] Hint Unfold
  Bias._generate_opinions Bias._a_generate_opinions
  Bias._generate_verdicts Bias._a_generate_verdicts
  Bias._generate_reason Bias._a_generate_reason
  Faithfulness._generate_truths Faithfulness._a_generate_truths
  Faithfulness._generate_claims Faithfulness._a_generate_claims
  Faithfulness._generate_verdicts Faithfulness._a_generate_verdicts
  Faithfulness._generate_reason Faithfulness._a_generate_reason
  Summarization._generate_claims Summarization._a_generate_claims
  Summarization._generate_answers Summarization._a_generate_answers
  Summarization._generate_assessment_questions
  Summarization._a_generate_assessment_questions
  Summarization._generate_alignment_verdicts
  Summarization._a_generate_alignment_verdicts
  Summarization._generate_reason Summarization._a_generate_reason
  Summarization.field
  : stages.

(** One step of a run that returned: the first computation returned too. *)
Ltac step H E :=
  match type of H with
  | bind ?c ?k ?s = (inr _, _) =>
      let a := fresh "a" in
      let s1 := fresh "s" in
      apply bind_inr in H; destruct H as (a & s1 & E & H); cbv beta in H
  end.

(** A step made of a primitive: read it off. *)
Ltac prim E :=
  cbv [attr var gets on_base on_ctx on_ext modify ret not_none raise
       Summarization.field] in E;
  match type of E with
  | (_, _) = (_, _) => inversion E; subst; clear E
  end.

(** A step made of a stage: the stage leaves the state [untouched]. *)
Ltac framed E F :=
  match type of E with
  | ?c ?s = (_, ?s1) =>
      assert (F : untouched s s1)
        by (let K := fresh in
            assert (K : keeps untouched c) by (autounfold with stages; frame);
            specialize (K s); rewrite E in K; exact K)
  end.

Section Tasks.

Context {Ext Ctx : Type}.

Lemma as_task_inr {A : Type} (c : M (Self Ext Ctx) A) s a s' :
  as_task c s = (inr a, s') ->
  exists s1, c s = (inr a, s1) /\ s' = mkSelf (base s1) (ext s1) (ctx s).
Proof.
  unfold as_task. destruct (c s) as [r s1]. intros H. inversion H; subst.
  now exists s1.
Qed.

Lemma gather2_inr {A B : Type} (a : M (Self Ext Ctx) A)
    (b : M (Self Ext Ctx) B) s r s' :
  gather2 a b s = (inr r, s') ->
  exists s1 s2,
    a s = (inr (fst r), s1)
    /\ b (mkSelf (base s1) (ext s1) (ctx s)) = (inr (snd r), s2)
    /\ s' = mkSelf (base s2) (ext s2) (ctx s).
Proof.
  unfold gather2, as_task. destruct (a s) as [ra s1] eqn:Ea.
  destruct (b _) as [rb s2] eqn:Eb. simpl.
  destruct ra as [e|x]; [discriminate|].
  destruct rb as [e|y]; [discriminate|].
  intros H. inversion H; subst. exists s1, s2. simpl. auto.
Qed.

End Tasks.

(** Walks down a run that returned, step by step. *)
Ltac walk H :=
  repeat
    (let E := fresh "E" in
     step H E;
     repeat match type of H with
            | context [let (_, _) := ?x in _] => is_var x; destruct x
            end;
     first
       [ match type of E with
         | not_none (Some _) _ = _ => prim E
         | not_none ?o _ = _ =>
             destruct o; cbv [not_none raise] in E; [prim E|discriminate E]
         end
       | match type of E with
         | gather2 _ _ _ = _ =>
             let sa := fresh "s" in
             let sb := fresh "s" in
             let Ea := fresh "E" in
             let Eb := fresh "E" in
             apply gather2_inr in E;
             destruct E as (sa & sb & Ea & Eb & ->);
             cbv [fst snd] in Ea, Eb;
             try (let F := fresh "F" in framed Ea F);
             try (let F := fresh "F" in framed Eb F)
         end
       | prim E
       | let F := fresh "F" in framed E F
       | idtac ]).

Lemma untouched_facts {Ext Ctx : Type} (s s' : Self Ext Ctx) :
  untouched s s' ->
  ctx s' = ctx s /\ ext s' = ext s
  /\ score (base s') = score (base s)
  /\ threshold (base s') = threshold (base s)
  /\ strict_mode (base s') = strict_mode (base s)
  /\ model (base s') = model (base s)
  /\ using_native_model (base s') = using_native_model (base s)
  /\ include_reason (base s') = include_reason (base s)
  /\ reason (base s') = reason (base s)
  /\ success (base s') = success (base s)
  /\ score_breakdown (base s') = score_breakdown (base s)
  /\ error (base s') = error (base s)
  /\ async_mode (base s') = async_mode (base s)
  /\ evaluation_model (base s') = evaluation_model (base s).
Proof.
  intros (H1 & H2 & H3 & _). repeat split; try assumption;
    [exact (f_equal score H3) | exact (f_equal threshold H3)
    | exact (f_equal strict_mode H3) | exact (f_equal model H3)
    | exact (f_equal using_native_model H3)
    | exact (f_equal include_reason H3) | exact (f_equal reason H3)
    | exact (f_equal success H3) | exact (f_equal score_breakdown H3)
    | exact (f_equal error H3) | exact (f_equal async_mode H3)
    | exact (f_equal evaluation_model H3)].
Qed.

Lemma calm_facts {Ext Ctx : Type} (s s' : Self Ext Ctx) :
  calm s s' ->
  ctx s' = ctx s
  /\ score (base s') = score (base s)
  /\ threshold (base s') = threshold (base s)
  /\ strict_mode (base s') = strict_mode (base s)
  /\ model (base s') = model (base s)
  /\ using_native_model (base s') = using_native_model (base s)
  /\ include_reason (base s') = include_reason (base s)
  /\ reason (base s') = reason (base s)
  /\ success (base s') = success (base s)
  /\ score_breakdown (base s') = score_breakdown (base s)
  /\ error (base s') = error (base s)
  /\ async_mode (base s') = async_mode (base s)
  /\ evaluation_model (base s') = evaluation_model (base s).
Proof.
  intros (H1 & H3 & _). repeat split; try assumption;
    [exact (f_equal score H3) | exact (f_equal threshold H3)
    | exact (f_equal strict_mode H3) | exact (f_equal model H3)
    | exact (f_equal using_native_model H3)
    | exact (f_equal include_reason H3) | exact (f_equal reason H3)
    | exact (f_equal success H3) | exact (f_equal score_breakdown H3)
    | exact (f_equal error H3) | exact (f_equal async_mode H3)
    | exact (f_equal evaluation_model H3)].
Qed.

(** Replaces every [untouched] fact by the equations it stands for. *)
Ltac facts :=
  repeat match goal with
         | F : untouched _ _ |- _ =>
             apply untouched_facts in F;
             destruct F as
               (? & ? & ? & ? & ? & ? & ? & ? & ? & ? & ? & ? & ? & ?)
         | F : calm _ _ |- _ =>
             apply calm_facts in F;
             destruct F as
               (? & ? & ? & ? & ? & ? & ? & ? & ? & ? & ? & ? & ?)
         end;
  simpl in *.

Section BiasEvaluation.

Variable X : Externals.

(** What an evaluation that returned has left on a [BiasMetric]: a score,
    the verdict on it, and a score that is the aggregate of the verdicts
    the metric holds. *)
Definition Bias_done (s s' : Bias.State) (q : Q) : Prop :=
  score (base s') = Some q
  /\ success (base s') = Some (py_le q (threshold (base s')))
  /\ threshold (base s') = threshold (base s)
  /\ strict_mode (base s') = strict_mode (base s)
  /\ Bias._calculate_score s' = (inr q, s').

Lemma Bias_assign_success (s s' : Bias.State) u :
  Bias.assign_success s = (inr u, s') ->
  exists q, score (base s) = Some q
    /\ s' = mkSelf (set_success (Some (py_le q (threshold (base s))))
                      (base s)) (ext s) (ctx s).
Proof.
  unfold Bias.assign_success, bind, attr, gets, not_none, on_base, modify.
  destruct (score (base s)) as [q|]; [|discriminate].
  intros H. inversion H. now exists q.
Qed.

Lemma Bias_calculate_score_state (s s' : Bias.State) q :
  Bias._calculate_score s = (inr q, s') -> s' = s.
Proof.
  rewrite Bias_calculate_score_run.
  destruct (Bias.verdicts (ctx s)); intros H; now inversion H.
Qed.

Lemma Bias_calculate_score_transfer (s1 s2 : Bias.State) q :
  Bias._calculate_score s1 = (inr q, s1) ->
  Bias.verdicts (ctx s2) = Bias.verdicts (ctx s1) ->
  strict_mode (base s2) = strict_mode (base s1) ->
  threshold (base s2) = threshold (base s1) ->
  Bias._calculate_score s2 = (inr q, s2).
Proof.
  rewrite !Bias_calculate_score_run. intros H -> -> ->.
  destruct (Bias.verdicts (ctx s1)); inversion H. reflexivity.
Qed.

Lemma Bias_a_measure_done tc (s s' : Bias.State) r :
  Bias.a_measure X tc s = (inr r, s') ->
  exists q, r = Some q /\ Bias_done s s' q.
Proof.
  unfold Bias.a_measure. intros H. walk H.
  match goal with
  | E : Bias.assign_success _ = _ |- _ =>
      apply Bias_assign_success in E; destruct E as (q & Hq & ->)
  end.
  prim H.
  match goal with
  | E : Bias._calculate_score _ = _ |- _ =>
      pose proof (Bias_calculate_score_state _ E); subst;
      rename E into Hrun
  end.
  facts.
  match type of Hrun with
  | _ = (inr ?v, _) => assert (q = v) by congruence; subst q; exists v
  end.
  unfold Bias_done; simpl.
  split; [congruence|]. split; [congruence|]. split; [reflexivity|].
  split; [congruence|]. split; [congruence|].
  eapply Bias_calculate_score_transfer; [exact Hrun| | |]; simpl;
    repeat match goal with
           | Hc : ctx ?x = _ |- context [ctx ?x] => rewrite Hc
           end;
    simpl; congruence.
Qed.

Lemma Bias_measure_done tc (s s' : Bias.State) r :
  Bias.measure X tc s = (inr r, s') ->
  exists q,
    r = (if async_mode (base s) then None else Some q) /\ Bias_done s s' q.
Proof.
  unfold Bias.measure. intros H. walk H. facts.
  match goal with
  | Ha : async_mode _ = async_mode (base s) |- _ => rewrite Ha in H
  end.
  destruct (async_mode (base s)).
  - (* the event loop drives [a_measure] *)
    let E := fresh "E" in step H E.
    unfold run_until_complete in *.
    match goal with
    | E : as_task _ _ = _ |- _ =>
        apply as_task_inr in E; destruct E as (st & E & ->)
    end.
    unfold Bias._measure_async in *.
    match goal with
    | E : bind (Bias.a_measure _ _) _ _ = _ |- _ =>
        let E1 := fresh "E" in
        step E E1; apply Bias_a_measure_done in E1;
        destruct E1 as (q & _ & D); walk E; prim E
    end.
    walk H. prim H.
    destruct D as (D1 & D2 & D3 & D4 & D5). facts.
    exists q. split; [reflexivity|]. unfold Bias_done; simpl.
    split; [congruence|]. split; [congruence|].
    split; [congruence|]. split; [congruence|].
    eapply Bias_calculate_score_transfer; [exact D5| | |]; reflexivity.
  - walk H.
    match goal with
    | E : Bias.assign_success _ = _ |- _ =>
        apply Bias_assign_success in E; destruct E as (q & Hq & ->)
    end.
    prim H.
    match goal with
    | E : Bias._calculate_score _ = _ |- _ =>
        pose proof (Bias_calculate_score_state _ E); subst;
        rename E into Hrun
    end.
    facts.
    match type of Hrun with
    | _ = (inr ?v, _) => assert (q = v) by congruence; subst q; exists v
    end.
    unfold Bias_done; simpl.
    split; [congruence|]. split; [congruence|]. split; [reflexivity|].
    split; [congruence|]. split; [congruence|].
    eapply Bias_calculate_score_transfer; [exact Hrun| | |]; simpl;
      repeat match goal with
             | Hc : ctx ?x = _ |- context [ctx ?x] => rewrite Hc
             end;
      simpl; congruence.
Qed.

End BiasEvaluation.

Section FaithfulnessEvaluation.

Variable X : Externals.

Definition Faithfulness_done (s s' : Faithfulness.State) (q : Q) : Prop :=
  score (base s') = Some q
  /\ success (base s') = Some (py_ge q (threshold (base s')))
  /\ threshold (base s') = threshold (base s)
  /\ strict_mode (base s') = strict_mode (base s)
  /\ Faithfulness._calculate_score s' = (inr q, s').

Lemma Faithfulness_assign_success (s s' : Faithfulness.State) u :
  Faithfulness.assign_success s = (inr u, s') ->
  exists q, score (base s) = Some q
    /\ s' = mkSelf (set_success (Some (py_ge q (threshold (base s))))
                      (base s)) (ext s) (ctx s).
Proof.
  unfold Faithfulness.assign_success, bind, attr, gets, not_none, on_base,
    modify.
  destruct (score (base s)) as [q|]; [|discriminate].
  intros H. inversion H. now exists q.
Qed.

Lemma Faithfulness_calculate_score_state (s s' : Faithfulness.State) q :
  Faithfulness._calculate_score s = (inr q, s') -> s' = s.
Proof.
  rewrite Faithfulness_calculate_score_run.
  destruct (Faithfulness.verdicts (ctx s)); intros H; now inversion H.
Qed.

Lemma Faithfulness_calculate_score_transfer (s1 s2 : Faithfulness.State) q :
  Faithfulness._calculate_score s1 = (inr q, s1) ->
  Faithfulness.verdicts (ctx s2) = Faithfulness.verdicts (ctx s1) ->
  strict_mode (base s2) = strict_mode (base s1) ->
  threshold (base s2) = threshold (base s1) ->
  Faithfulness._calculate_score s2 = (inr q, s2).
Proof.
  rewrite !Faithfulness_calculate_score_run. intros H -> -> ->.
  destruct (Faithfulness.verdicts (ctx s1)); inversion H. reflexivity.
Qed.

(** The end of a walk down an evaluation of a faithfulness metric. *)
Ltac faithfulness_finish H :=
  match goal with
  | E : Faithfulness.assign_success _ = _ |- _ =>
      let q := fresh "q" in
      let Hq := fresh "Hq" in
      apply Faithfulness_assign_success in E; destruct E as (q & Hq & ->);
      prim H;
      match goal with
      | Hrun : Faithfulness._calculate_score _ = (inr ?v, _) |- _ =>
          pose proof (Faithfulness_calculate_score_state _ Hrun); subst;
          facts;
          assert (q = v) by congruence; subst q; exists v;
          unfold Faithfulness_done; simpl;
          split; [congruence|]; split; [congruence|];
          split; [reflexivity|]; split; [congruence|]; split; [congruence|];
          eapply Faithfulness_calculate_score_transfer;
            [exact Hrun| | |]; simpl;
            repeat match goal with
                   | Hc : ctx ?x = _ |- context [ctx ?x] => rewrite Hc
                   end;
            simpl; congruence
      end
  end.

Lemma Faithfulness_a_measure_done tc (s s' : Faithfulness.State) r :
  Faithfulness.a_measure X tc s = (inr r, s') ->
  exists q, r = Some q /\ Faithfulness_done s s' q.
Proof.
  unfold Faithfulness.a_measure. intros H. walk H. faithfulness_finish H.
Qed.

Lemma Faithfulness_measure_done tc (s s' : Faithfulness.State) r :
  Faithfulness.measure X tc s = (inr r, s') ->
  exists q,
    r = (if async_mode (base s) then None else Some q)
    /\ Faithfulness_done s s' q.
Proof.
  unfold Faithfulness.measure. intros H. walk H. facts.
  match goal with
  | Ha : async_mode _ = async_mode (base s) |- _ => rewrite Ha in H
  end.
  destruct (async_mode (base s)).
  - let E := fresh "E" in step H E.
    unfold run_until_complete in *.
    match goal with
    | E : as_task _ _ = _ |- _ =>
        apply as_task_inr in E; destruct E as (st & E & ->)
    end.
    unfold Faithfulness._measure_async in *.
    match goal with
    | E : bind (Faithfulness.a_measure _ _) _ _ = _ |- _ =>
        let E1 := fresh "E" in
        step E E1; apply Faithfulness_a_measure_done in E1;
        destruct E1 as (q & _ & D); walk E; prim E
    end.
    walk H. prim H.
    destruct D as (D1 & D2 & D3 & D4 & D5). facts.
    exists q. split; [reflexivity|]. unfold Faithfulness_done; simpl.
    split; [congruence|]. split; [congruence|].
    split; [congruence|]. split; [congruence|].
    eapply Faithfulness_calculate_score_transfer; [exact D5| | |];
      reflexivity.
  - walk H. faithfulness_finish H.
Qed.

End FaithfulnessEvaluation.

Arguments Summarization._calculate_score : simpl never.

Section SummarizationEvaluation.

Variable X : Externals.

Lemma pair_answers_stays indices original summary acc :
  keeps untouched (Summarization.pair_answers indices original summary acc).
Proof.
  revert acc. induction indices as [|i indices IH]; intros acc; simpl.
  - frame.
  - repeat (apply stays_bind; [|intros]);
      auto using stays_lift, stays_not_none.
    unfold Summarization.field. frame.
Qed.

Lemma generate_coverage_verdicts_calm tc :
  keeps calm (Summarization._generate_coverage_verdicts X tc).
Proof.
  unfold Summarization._generate_coverage_verdicts.
  repeat first
    [ apply calm_on_ext
    | apply calm_of_stays;
        solve [ apply pair_answers_stays | autounfold with stages; frame ]
    | apply calm_bind; [|intros]
    | match goal with
      | |- keeps _ (if ?b then _ else _) => destruct b
      end ].
Qed.

Lemma a_generate_coverage_verdicts_calm tc :
  keeps calm (Summarization._a_generate_coverage_verdicts X tc).
Proof.
  unfold Summarization._a_generate_coverage_verdicts.
  repeat first
    [ apply calm_on_ext
    | apply calm_of_stays;
        solve [ apply pair_answers_stays | autounfold with stages; frame ]
    | apply calm_bind; [|intros]
    | match goal with
      | |- keeps _ (if ?b then _ else _) => destruct b
      | |- keeps _ (let '(_, _) := ?x in _) => destruct x
      end ].
Qed.

(** What an evaluation that returned has left on a [SummarizationMetric]:
    the two sub-scores, the smaller of them as the score, and the verdict
    on it. *)
Definition Summarization_done (s s' : Summarization.State) (q : Q) : Prop :=
  score (base s') = Some q
  /\ success (base s') = Some (py_ge q (threshold (base s')))
  /\ threshold (base s') = threshold (base s)
  /\ strict_mode (base s') = strict_mode (base s)
  /\ exists a c,
       Summarization.alignment_score (ctx s') = Some a
       /\ Summarization.coverage_score (ctx s') = Some c
       /\ q = py_min a c
       /\ Summarization._calculate_score Summarization.ALIGNMENT s'
          = (inr a, s')
       /\ Summarization._calculate_score Summarization.COVERAGE s'
          = (inr c, s').

Lemma Summarization_assign_success (s s' : Summarization.State) u :
  Summarization.assign_success s = (inr u, s') ->
  exists q, score (base s) = Some q
    /\ s' = mkSelf (set_success (Some (py_ge q (threshold (base s))))
                      (base s)) (ext s) (ctx s).
Proof.
  unfold Summarization.assign_success, bind, attr, gets, not_none, on_base,
    modify.
  destruct (score (base s)) as [q|]; [|discriminate].
  intros H. inversion H. now exists q.
Qed.

Lemma Summarization_assign_score (s s' : Summarization.State) u :
  Summarization.assign_score s = (inr u, s') ->
  exists a c,
    Summarization.alignment_score (ctx s) = Some a
    /\ Summarization.coverage_score (ctx s) = Some c
    /\ s' = mkSelf (set_score (Some (py_min a c)) (base s)) (ext s) (ctx s).
Proof.
  unfold Summarization.assign_score, bind, var, gets, not_none, on_base,
    modify.
  destruct (Summarization.alignment_score (ctx s)) as [a|]; [|discriminate].
  simpl.
  destruct (Summarization.coverage_score (ctx s)) as [c|]; [|discriminate].
  intros H. inversion H. now exists a, c.
Qed.

Lemma Summarization_calculate_score_state t (s s' : Summarization.State) q :
  Summarization._calculate_score t s = (inr q, s') -> s' = s.
Proof.
  destruct t.
  - rewrite Summarization_alignment_run.
    destruct (Summarization.alignment_verdicts (ctx s)); intros H;
      now inversion H.
  - rewrite Summarization_coverage_run.
    destruct (Summarization.assessment_questions (ext s));
      [destruct (Summarization.coverage_verdicts (ctx s))|]; intros H;
      now inversion H.
Qed.

Lemma Summarization_calculate_score_transfer t
    (s1 s2 : Summarization.State) q :
  Summarization._calculate_score t s1 = (inr q, s1) ->
  Summarization.alignment_verdicts (ctx s2)
  = Summarization.alignment_verdicts (ctx s1) ->
  Summarization.coverage_verdicts (ctx s2)
  = Summarization.coverage_verdicts (ctx s1) ->
  Summarization.assessment_questions (ext s2)
  = Summarization.assessment_questions (ext s1) ->
  strict_mode (base s2) = strict_mode (base s1) ->
  threshold (base s2) = threshold (base s1) ->
  Summarization._calculate_score t s2 = (inr q, s2).
Proof.
  destruct t.
  - rewrite !Summarization_alignment_run. intros H -> _ _ -> ->.
    destruct (Summarization.alignment_verdicts (ctx s1)); inversion H.
    reflexivity.
  - rewrite !Summarization_coverage_run. intros H _ -> -> -> ->.
    destruct (Summarization.assessment_questions (ext s1));
      [destruct (Summarization.coverage_verdicts (ctx s1))|]; inversion H;
      reflexivity.
Qed.

(** The end of a walk down an evaluation of a summarization metric. *)
Ltac summarization_finish H :=
  repeat match goal with
         | E : Summarization._a_generate_coverage_verdicts _ ?t ?a = (_, ?b)
           |- _ =>
             let F := fresh "F" in
             assert (F : calm a b)
               by (pose proof (a_generate_coverage_verdicts_calm t a) as K;
                   rewrite E in K; exact K);
             clear E
         | E : Summarization._generate_coverage_verdicts _ ?t ?a = (_, ?b)
           |- _ =>
             let F := fresh "F" in
             assert (F : calm a b)
               by (pose proof (generate_coverage_verdicts_calm t a) as K;
                   rewrite E in K; exact K);
             clear E
         end;
  match goal with
  | E : Summarization.assign_success _ = _ |- _ =>
      let q := fresh "q" in
      let Hq := fresh "Hq" in
      apply Summarization_assign_success in E; destruct E as (q & Hq & ->);
      prim H
  end;
  match goal with
  | E : Summarization.assign_score _ = _ |- _ =>
      let a := fresh "a" in
      let c := fresh "c" in
      let Ha := fresh "Ha" in
      let Hc := fresh "Hc" in
      apply Summarization_assign_score in E;
      destruct E as (a & c & Ha & Hc & ->)
  end;
  match goal with
  | Ea : Summarization._calculate_score Summarization.ALIGNMENT _ = _,
    Ec : Summarization._calculate_score Summarization.COVERAGE _ = _ |- _ =>
      pose proof (Summarization_calculate_score_state _ _ Ea);
      pose proof (Summarization_calculate_score_state _ _ Ec);
      subst; facts;
      match goal with
      | Ea : Summarization._calculate_score Summarization.ALIGNMENT _
             = (inr ?va, _),
        Ec : Summarization._calculate_score Summarization.COVERAGE _
             = (inr ?vc, _) |- _ =>
          exists (py_min va vc);
          unfold Summarization_done; simpl;
          split; [congruence|]; split; [congruence|];
          split; [congruence|]; split; [congruence|];
          split; [congruence|];
          exists va, vc;
          repeat match goal with
                 | Hc : ctx ?x = _ |- context [ctx ?x] => rewrite Hc
                 end;
          simpl;
          split; [reflexivity|]; split; [reflexivity|];
          split; [reflexivity|];
          split;
          [ eapply Summarization_calculate_score_transfer;
              [exact Ea| | | | |]
          | eapply Summarization_calculate_score_transfer;
              [exact Ec| | | | |] ];
          simpl;
          repeat match goal with
                 | Hc : ctx ?x = _ |- context [ctx ?x] => rewrite Hc
                 end;
          simpl; congruence
      end
  end.

Lemma Summarization_a_measure_done tc (s s' : Summarization.State) r :
  Summarization.a_measure X tc s = (inr r, s') ->
  exists q, r = Some q /\ Summarization_done s s' q.
Proof.
  unfold Summarization.a_measure. intros H. walk H.
  summarization_finish H.
Qed.

Lemma Summarization_measure_done tc (s s' : Summarization.State) r :
  Summarization.measure X tc s = (inr r, s') ->
  exists q,
    r = (if async_mode (base s) then None else Some q)
    /\ Summarization_done s s' q.
Proof.
  unfold Summarization.measure. intros H. walk H. facts.
  match goal with
  | Ha : async_mode _ = async_mode (base s) |- _ => rewrite Ha in H
  end.
  destruct (async_mode (base s)).
  - let E := fresh "E" in step H E.
    unfold run_until_complete in *.
    match goal with
    | E : as_task _ _ = _ |- _ =>
        apply as_task_inr in E; destruct E as (st & E & ->)
    end.
    unfold Summarization._measure_async in *.
    match goal with
    | E : bind (Summarization.a_measure _ _) _ _ = _ |- _ =>
        let E1 := fresh "E" in
        step E E1; apply Summarization_a_measure_done in E1;
        destruct E1 as (q & _ & D); walk E; prim E
    end.
    walk H. prim H.
    destruct D as (D1 & D2 & D3 & D4 & va & vc & D5 & D6 & D7 & D8 & D9).
    facts.
    exists q. split; [reflexivity|]. unfold Summarization_done; simpl.
    split; [congruence|]. split; [congruence|].
    split; [congruence|]. split; [congruence|].
    exists va, vc. split; [assumption|]. split; [assumption|].
    split; [assumption|].
    split;
      [ eapply Summarization_calculate_score_transfer; [exact D8| | | | |]
      | eapply Summarization_calculate_score_transfer; [exact D9| | | | |] ];
      reflexivity.
  - walk H. summarization_finish H.
Qed.

End SummarizationEvaluation.

(* ================================================================== *)
(** * Part XIII.  The aggregation rules of the three metrics           *)
(* ================================================================== *)

Section Rules.

Local Open Scope Q_scope.

(** C5.  Bias: the score is the number of verdicts whose label, trimmed and
    lowercased, is "yes", over the number of verdicts; no verdicts give 0;
    the evaluation succeeds iff the score is at most the threshold; strict
    mode sets the threshold to 0 and turns every score above 0 into 1.
    The verdicts yes, no, no, no score 1/4, and under strict mode 1, which
    fails. *)
Theorem bias_aggregation :
  (forall (t : Q) (j : Judge) (include_reason async strict verbose : bool)
          (ops : option json) (vs : list Verdict.t),
      let m := Bias.__init__ t j include_reason async strict verbose in
      let s := mkSelf (base m) (ext m) (Bias.mkCtx ops (Some vs)) in
      let r := Spec.ratio (PyStr.label_is "yes") vs in
      threshold (base m) = (if strict then 0 else t)
      /\ exists q,
           Bias._calculate_score s = (inr q, s)
           /\ (vs = [] -> q = 0)
           /\ (vs <> [] -> strict = false -> q = r)
           /\ (vs <> [] -> strict = true -> 0 < r -> q = 1)
           /\ (vs <> [] -> strict = true -> ~ 0 < r -> q = r))
  /\ (forall (X : Externals) (tc : LLMTestCase) (s s' : Bias.State) r,
        Bias.measure X tc s = (inr r, s')
        \/ Bias.a_measure X tc s = (inr r, s') ->
        exists q b,
          score (base s') = Some q
          /\ Bias._calculate_score s' = (inr q, s')
          /\ success (base s') = Some b
          /\ (b = true <-> q <= threshold (base s')))
  /\ (let tc := Demo.test_case "q" "a" in
      let plain :=
        Bias.measure Demo.X tc
          (Bias.__init__ (1 # 2) Demo.judge true false false false) in
      let strict :=
        Bias.measure Demo.X tc
          (Bias.__init__ (1 # 2) Demo.judge true false true false) in
      Bias.verdicts (ctx (final plain))
      = Some [Verdict.mk "yes" (Some "slanted"%string);
              Demo.no; Demo.no; Demo.no]
      /\ Bias.verdicts (ctx (final strict)) = Bias.verdicts (ctx (final plain))
      /\ returned plain = Some (Some (1 # 4))
      /\ success (base (final plain)) = Some true
      /\ threshold (base (final strict)) = 0
      /\ returned strict = Some (Some 1)
      /\ success (base (final strict)) = Some false).
Proof.
  split; [|split].
  - intros t j include_reason async strict verbose ops vs m s r.
    split; [reflexivity|].
    rewrite Bias_calculate_score_run. subst s. cbn [ctx Bias.verdicts].
    eexists. split; [reflexivity|].
    destruct vs as [|v vs].
    + repeat split; intros; try reflexivity; congruence.
    + cbn [length Nat.eqb]. fold r.
      split; [discriminate|]. split; [|split].
      * intros _ ->. reflexivity.
      * intros _ -> Hr. cbn [strict_mode base m Bias.__init__ new_base andb].
        apply py_gt_iff in Hr. cbn in Hr |- *. now rewrite Hr.
      * intros _ -> Hr. cbn [strict_mode base m Bias.__init__ new_base andb].
        destruct (py_gt r _) eqn:E; [|reflexivity].
        apply py_gt_iff in E. contradiction.
  - intros X tc s s' r [H|H].
    + apply Bias_measure_done in H. destruct H as (q & _ & D1 & D2 & _ & _ & D5).
      exists q, (py_le q (threshold (base s'))).
      repeat split; auto; apply py_le_iff.
    + apply Bias_a_measure_done in H.
      destruct H as (q & _ & D1 & D2 & _ & _ & D5).
      exists q, (py_le q (threshold (base s'))).
      repeat split; auto; apply py_le_iff.
  - vm_compute. repeat split; reflexivity.
Qed.

Lemma bias_aggregation_witness :
  exists q b,
    score (base (final (Bias.measure Demo.X (Demo.test_case "q" "a")
                          (Bias.__init__ (1 # 2) Demo.judge
                             true false false false))))
    = Some q
    /\ Bias._calculate_score
         (final (Bias.measure Demo.X (Demo.test_case "q" "a")
                   (Bias.__init__ (1 # 2) Demo.judge true false false false)))
       = (inr q,
          final (Bias.measure Demo.X (Demo.test_case "q" "a")
                   (Bias.__init__ (1 # 2) Demo.judge true false false false)))
    /\ success
         (base (final (Bias.measure Demo.X (Demo.test_case "q" "a")
                         (Bias.__init__ (1 # 2) Demo.judge
                            true false false false))))
       = Some b
    /\ (b = true <->
        q <= threshold
               (base (final (Bias.measure Demo.X (Demo.test_case "q" "a")
                               (Bias.__init__ (1 # 2) Demo.judge
                                  true false false false))))).
Proof.
  destruct bias_aggregation as (_ & H & _).
  apply (H Demo.X (Demo.test_case "q" "a")
           (Bias.__init__ (1 # 2) Demo.judge true false false false)
           _ (Some (1 # 4))).
  left. vm_compute. reflexivity.
Defined.

(** C6.  Faithfulness: a verdict counts unless its label, trimmed and
    lowercased, is "no"; the score is the count over the number of
    verdicts; no verdicts give 1, which succeeds at the default threshold
    1/2; the evaluation succeeds iff the score is at least the threshold;
    strict mode sets the threshold to 1 and turns every score below 1
    into 0. *)
Theorem faithfulness_aggregation :
  (forall (t : Q) (j : Judge) (include_reason async strict verbose : bool)
          (truths claims : option json) (vs : list Verdict.t),
      let m :=
        Faithfulness.__init__ t j include_reason async strict verbose in
      let s :=
        mkSelf (base m) (ext m) (Faithfulness.mkCtx truths claims (Some vs)) in
      let r := Spec.ratio (PyStr.label_is_not "no") vs in
      threshold (base m) = (if strict then 1 else t)
      /\ exists q,
           Faithfulness._calculate_score s = (inr q, s)
           /\ (vs = [] -> q = 1)
           /\ (vs <> [] -> strict = false -> q = r)
           /\ (vs <> [] -> strict = true -> r < 1 -> q = 0)
           /\ (vs <> [] -> strict = true -> ~ r < 1 -> q = r))
  /\ (forall (X : Externals) (tc : LLMTestCase)
             (s s' : Faithfulness.State) r,
        Faithfulness.measure X tc s = (inr r, s')
        \/ Faithfulness.a_measure X tc s = (inr r, s') ->
        exists q b,
          score (base s') = Some q
          /\ Faithfulness._calculate_score s' = (inr q, s')
          /\ success (base s') = Some b
          /\ (b = true <-> threshold (base s') <= q))
  /\ (forall (j : Judge) (include_reason async strict verbose : bool),
        py_ge 1
          (threshold
             (base (Faithfulness.__init__ (1 # 2) j include_reason async
                      strict verbose)))
        = true)
  /\ (let tc :=
        Demo.with_context (Demo.test_case "q" "quiet") ["ctx"%string] in
      let run :=
        Faithfulness.measure Demo.X tc
          (Faithfulness.__init__ (1 # 2) Demo.judge true false false false) in
      Faithfulness.verdicts (ctx (final run)) = Some []
      /\ returned run = Some (Some 1)
      /\ success (base (final run)) = Some true).
Proof.
  split; [|split; [|split]].
  - intros t j include_reason async strict verbose truths claims vs m s r.
    split; [reflexivity|].
    rewrite Faithfulness_calculate_score_run. subst s.
    cbn [ctx Faithfulness.verdicts].
    eexists. split; [reflexivity|].
    destruct vs as [|v vs].
    + repeat split; intros; try reflexivity; congruence.
    + cbn [length Nat.eqb]. fold r.
      split; [discriminate|]. split; [|split].
      * intros _ ->. reflexivity.
      * intros _ -> Hr.
        cbn [strict_mode base m Faithfulness.__init__ new_base andb].
        apply py_lt_iff in Hr. cbn in Hr |- *. now rewrite Hr.
      * intros _ -> Hr.
        cbn [strict_mode base m Faithfulness.__init__ new_base andb].
        destruct (py_lt r _) eqn:E; [|reflexivity].
        apply py_lt_iff in E. contradiction.
  - intros X tc s s' r [H|H].
    + apply Faithfulness_measure_done in H.
      destruct H as (q & _ & D1 & D2 & _ & _ & D5).
      exists q, (py_ge q (threshold (base s'))).
      repeat split; auto; apply py_ge_iff.
    + apply Faithfulness_a_measure_done in H.
      destruct H as (q & _ & D1 & D2 & _ & _ & D5).
      exists q, (py_ge q (threshold (base s'))).
      repeat split; auto; apply py_ge_iff.
  - intros j include_reason async [|] verbose; reflexivity.
  - vm_compute. repeat split; reflexivity.
Qed.

Lemma faithfulness_aggregation_witness :
  exists q b,
    score
      (base (final (Faithfulness.a_measure Demo.X
                      (Demo.with_context (Demo.test_case "q" "a")
                         ["ctx"%string])
                      (Faithfulness.__init__ (1 # 2) Demo.judge
                         true true false false))))
    = Some q
    /\ Faithfulness._calculate_score
         (final (Faithfulness.a_measure Demo.X
                   (Demo.with_context (Demo.test_case "q" "a")
                      ["ctx"%string])
                   (Faithfulness.__init__ (1 # 2) Demo.judge
                      true true false false)))
       = (inr q,
          final (Faithfulness.a_measure Demo.X
                   (Demo.with_context (Demo.test_case "q" "a")
                      ["ctx"%string])
                   (Faithfulness.__init__ (1 # 2) Demo.judge
                      true true false false)))
    /\ success
         (base (final (Faithfulness.a_measure Demo.X
                         (Demo.with_context (Demo.test_case "q" "a")
                            ["ctx"%string])
                         (Faithfulness.__init__ (1 # 2) Demo.judge
                            true true false false))))
       = Some b
    /\ (b = true <->
        threshold
          (base (final (Faithfulness.a_measure Demo.X
                          (Demo.with_context (Demo.test_case "q" "a")
                             ["ctx"%string])
                          (Faithfulness.__init__ (1 # 2) Demo.judge
                             true true false false))))
        <= q).
Proof.
  destruct faithfulness_aggregation as (_ & H & _).
  apply (H Demo.X
           (Demo.with_context (Demo.test_case "q" "a") ["ctx"%string])
           (Faithfulness.__init__ (1 # 2) Demo.judge true true false false)
           _ (Some 1)).
  right. vm_compute. reflexivity.
Defined.

(** C9.  [is_successful] of each metric returns a boolean in every state
    of the metric, whether or not a score or an error is recorded, and
    never raises; it stores what it returns in [success]; a recorded
    error makes it false, and so does a missing score. *)
Theorem is_successful_total :
  (forall s : Bias.State,
      exists b,
        Bias.is_successful s
        = (inr (Some b),
           mkSelf (set_success (Some b) (base s)) (ext s) (ctx s))
        /\ (error (base s) <> None -> b = false)
        /\ (score (base s) = None -> b = false)
        /\ (forall q, error (base s) = None -> score (base s) = Some q ->
                      b = py_le q (threshold (base s))))
  /\ (forall s : Faithfulness.State,
        exists b,
          Faithfulness.is_successful s
          = (inr (Some b),
             mkSelf (set_success (Some b) (base s)) (ext s) (ctx s))
          /\ (error (base s) <> None -> b = false)
          /\ (score (base s) = None -> b = false)
          /\ (forall q, error (base s) = None -> score (base s) = Some q ->
                        b = py_ge q (threshold (base s))))
  /\ (forall s : Summarization.State,
        exists b,
          Summarization.is_successful s
          = (inr (Some b),
             mkSelf (set_success (Some b) (base s)) (ext s) (ctx s))
          /\ (error (base s) <> None -> b = false)
          /\ (score (base s) = None -> b = false)
          /\ (forall q, error (base s) = None -> score (base s) = Some q ->
                        b = py_ge q (threshold (base s)))).
Proof.
  split; [|split]; intros s;
    unfold Bias.is_successful, Faithfulness.is_successful,
      Summarization.is_successful, bind, attr, gets, try_except, not_none,
      on_base, modify, ret, raise;
    destruct (error (base s)) as [e|]; cbn [is_some];
    try (exists false; repeat split; intros; congruence);
    destruct (score (base s)) as [q|]; cbn;
    try (exists false; repeat split; intros; congruence);
    eexists; (split; [reflexivity|]); repeat split; intros; congruence.
Qed.

(** C10.  Whatever the verdicts and whatever the configuration, the score
    the aggregation stage computes lies between 0 and 1: for the bias and
    the faithfulness metric, for both sub-scores of the summarization
    metric and for the smaller of them, with the defaults on no verdicts
    and the values strict mode snaps to; so does the score an evaluation
    leaves on the metric. *)
Theorem score_in_unit_interval :
  (forall (b : BaseMetric) (ops : option json)
          (vs : list Verdict.t),
      let s := mkSelf b tt (Bias.mkCtx ops (Some vs)) in
      exists q, Bias._calculate_score s = (inr q, s) /\ 0 <= q /\ q <= 1)
  /\ (forall (b : BaseMetric) (truths claims : option json)
             (vs : list Verdict.t),
        let s := mkSelf b tt (Faithfulness.mkCtx truths claims (Some vs)) in
        exists q,
          Faithfulness._calculate_score s = (inr q, s) /\ 0 <= q /\ q <= 1)
  /\ (forall (b : BaseMetric) (e : Summarization.Ext)
             (c : Summarization.Ctx) (vs : list Verdict.t),
        let s :=
          mkSelf b e (Summarization.set_alignment_verdicts (Some vs) c) in
        exists q,
          Summarization._calculate_score Summarization.ALIGNMENT s
          = (inr q, s)
          /\ 0 <= q /\ q <= 1)
  /\ (forall (b : BaseMetric) (e : Summarization.Ext)
             (c : Summarization.Ctx)
             (vs : list Summarization.CoverageVerdict),
        let s :=
          mkSelf b e (Summarization.set_coverage_verdicts (Some vs) c) in
        exists q,
          Summarization._calculate_score Summarization.COVERAGE s
          = (inr q, s)
          /\ 0 <= q /\ q <= 1)
  /\ (forall a c : Q,
        0 <= a <= 1 -> 0 <= c <= 1 -> 0 <= py_min a c <= 1)
  /\ (forall (X : Externals) (tc : LLMTestCase) (s s' : Bias.State) r,
        Bias.measure X tc s = (inr r, s')
        \/ Bias.a_measure X tc s = (inr r, s') ->
        exists q, score (base s') = Some q /\ 0 <= q /\ q <= 1)
  /\ (forall (X : Externals) (tc : LLMTestCase)
             (s s' : Faithfulness.State) r,
        Faithfulness.measure X tc s = (inr r, s')
        \/ Faithfulness.a_measure X tc s = (inr r, s') ->
        exists q, score (base s') = Some q /\ 0 <= q /\ q <= 1)
  /\ (forall (X : Externals) (tc : LLMTestCase)
             (s s' : Summarization.State) r,
        Summarization.measure X tc s = (inr r, s')
        \/ Summarization.a_measure X tc s = (inr r, s') ->
        exists q, score (base s') = Some q /\ 0 <= q /\ q <= 1).
Proof.
  repeat match goal with |- _ /\ _ => split end.
  - intros b ops vs s.
    destruct (Bias._calculate_score s) as [[e|q] s1] eqn:E.
    + rewrite Bias_calculate_score_run in E. discriminate.
    + pose proof (Bias_calculate_score_state _ E); subst s1.
      exists q. split; [reflexivity|]. eapply Bias_score_in_unit, E.
  - intros b truths claims vs s.
    destruct (Faithfulness._calculate_score s) as [[e|q] s1] eqn:E.
    + rewrite Faithfulness_calculate_score_run in E. discriminate.
    + pose proof (Faithfulness_calculate_score_state _ E); subst s1.
      exists q. split; [reflexivity|]. eapply Faithfulness_score_in_unit, E.
  - intros b e c vs s.
    destruct (Summarization._calculate_score Summarization.ALIGNMENT s)
      as [[x|q] s1] eqn:E.
    + rewrite Summarization_alignment_run in E. discriminate.
    + pose proof (Summarization_calculate_score_state _ _ E); subst s1.
      exists q. split; [reflexivity|].
      eapply Summarization_score_in_unit, E.
  - intros b e c vs s.
    destruct (Summarization._calculate_score Summarization.COVERAGE s)
      as [[x|q] s1] eqn:E.
    + rewrite Summarization_coverage_run in E. subst s. cbn in E.
      destruct (Summarization.assessment_questions e); discriminate.
    + pose proof (Summarization_calculate_score_state _ _ E); subst s1.
      exists q. split; [reflexivity|].
      eapply Summarization_score_in_unit, E.
  - apply py_min_bounds.
  - intros X tc s s' r [H|H];
      [apply Bias_measure_done in H|apply Bias_a_measure_done in H];
      destruct H as (q & _ & D1 & _ & _ & _ & D5);
      exists q; (split; [exact D1|]); eapply Bias_score_in_unit, D5.
  - intros X tc s s' r [H|H];
      [apply Faithfulness_measure_done in H
      |apply Faithfulness_a_measure_done in H];
      destruct H as (q & _ & D1 & _ & _ & _ & D5);
      exists q; (split; [exact D1|]); eapply Faithfulness_score_in_unit, D5.
  - intros X tc s s' r [H|H];
      [apply Summarization_measure_done in H
      |apply Summarization_a_measure_done in H];
      destruct H as (q & _ & D1 & _ & _ & _ & a & c & _ & _ & -> & Da & Dc);
      exists (py_min a c); (split; [exact D1|]); apply py_min_bounds;
      eapply Summarization_score_in_unit; eassumption.
Qed.

Lemma score_in_unit_interval_witness :
  exists q,
    score
      (base (final (Summarization.measure Demo.X (Demo.test_case "in2" "out2")
                      (Summarization.__init__ (1 # 2) 5 Demo.judge None
                         false false false false))))
    = Some q
    /\ 0 <= q /\ q <= 1.
Proof.
  destruct score_in_unit_interval as (_ & _ & _ & _ & _ & _ & _ & H).
  apply (H Demo.X (Demo.test_case "in2" "out2")
           (Summarization.__init__ (1 # 2) 5 Demo.judge None
              false false false false)
           _ (Some 1)).
  left. vm_compute. reflexivity.
Defined.

End Rules.

Section SummarizationRules.

Local Open Scope Q_scope.

(** C7, as the claim states it, fails under strict mode: with originals
    yes, yes, no and summaries yes, no, no the ratio is 1/2, and the
    coverage score of a strict metric is 0. *)
Lemma strict_coverage_is_not_the_ratio :
  length (Spec.answerable Demo.three_pairs) = 2%nat
  /\ length (Spec.covered Demo.three_pairs) = 1%nat
  /\ Spec.coverage_ratio Demo.three_pairs == 1 # 2
  /\ returned
       (Summarization._calculate_score Summarization.COVERAGE
          (Demo.holding Demo.three_pairs
             (Demo.summarizer (Some ["a"; "b"; "c"]%string) false true)))
     = Some 0
  /\ ~ 0 == 1 # 2.
Proof.
  split; [reflexivity|]. split; [reflexivity|]. split; [reflexivity|].
  split; [vm_compute; reflexivity|]. discriminate.
Qed.

(** C7, amended.  While the metric holds assessment questions, the
    coverage score is the number of pairs whose original and summary
    labels are both "yes" over the number of pairs whose original label
    is "yes", and 0 when no original label is "yes"; under strict mode,
    where the constructor sets the threshold to 1, a ratio below the
    threshold is returned as 0.  The score of an evaluation is the smaller
    of the alignment and the coverage score, and the evaluation succeeds
    iff that score is at least the threshold. *)
Theorem summarization_aggregation :
  (forall (b : BaseMetric) (n : nat) (questions : json)
          (c : Summarization.Ctx) (vs : list Summarization.CoverageVerdict),
      let s :=
        mkSelf b (Summarization.mkExt n (Some questions))
          (Summarization.set_coverage_verdicts (Some vs) c) in
      let r := Spec.coverage_ratio vs in
      exists q,
        Summarization._calculate_score Summarization.COVERAGE s = (inr q, s)
        /\ (Spec.answerable vs = [] -> q = 0)
        /\ (Spec.answerable vs <> [] -> strict_mode b = false -> q = r)
        /\ (Spec.answerable vs <> [] -> strict_mode b = true ->
            r < threshold b -> q = 0)
        /\ (Spec.answerable vs <> [] -> strict_mode b = true ->
            ~ r < threshold b -> q = r))
  /\ (forall (t : Q) (n : nat) (j : Judge) (questions : option (list string))
             (include_reason async strict verbose : bool),
        threshold
          (base (Summarization.__init__ t n j questions include_reason async
                   strict verbose))
        = (if strict then 1 else t))
  /\ returned
       (Summarization._calculate_score Summarization.COVERAGE
          (Demo.holding Demo.three_pairs
             (Demo.summarizer (Some ["a"; "b"; "c"]%string) false false)))
     = Some (1 # 2)
  /\ (forall (X : Externals) (tc : LLMTestCase)
             (s s' : Summarization.State) r,
        Summarization.measure X tc s = (inr r, s')
        \/ Summarization.a_measure X tc s = (inr r, s') ->
        exists a c q b,
          Summarization.alignment_score (ctx s') = Some a
          /\ Summarization.coverage_score (ctx s') = Some c
          /\ score (base s') = Some q
          /\ q = py_min a c
          /\ q == Qmin a c
          /\ success (base s') = Some b
          /\ (b = true <-> threshold (base s') <= q)).
Proof.
  split; [|split; [|split]].
  - intros b n questions c vs s r.
    rewrite Summarization_coverage_run. subst s.
    cbn [ext ctx base Summarization.assessment_questions
         Summarization.coverage_verdicts Summarization.set_coverage_verdicts].
    eexists. split; [reflexivity|]. fold r.
    destruct (Spec.answerable vs) as [|v l] eqn:E.
    + repeat split; intros; try reflexivity; congruence.
    + cbn [length Nat.eqb].
      split; [discriminate|]. split; [|split].
      * intros _ ->. reflexivity.
      * intros _ -> Hr. apply py_lt_iff in Hr. now rewrite Hr.
      * intros _ -> Hr. destruct (py_lt r (threshold b)) eqn:Er;
          [|reflexivity].
        apply py_lt_iff in Er. contradiction.
  - intros t n j questions include_reason async [|] verbose; reflexivity.
  - vm_compute. reflexivity.
  - intros X tc s s' r [H|H];
      [apply Summarization_measure_done in H
      |apply Summarization_a_measure_done in H];
      destruct H as (q & _ & D1 & D2 & _ & _ & a & c & Da & Dc & -> & _);
      exists a, c, (py_min a c), (py_ge (py_min a c) (threshold (base s')));
      repeat split; auto using py_min_Qmin; apply py_ge_iff.
Qed.

Lemma summarization_aggregation_witness :
  exists a c q b,
    Summarization.alignment_score
      (ctx (final (Summarization.a_measure Demo.X
                     (Demo.test_case "in3" "out3")
                     (Demo.summarizer None true false))))
    = Some a
    /\ Summarization.coverage_score
         (ctx (final (Summarization.a_measure Demo.X
                        (Demo.test_case "in3" "out3")
                        (Demo.summarizer None true false))))
       = Some c
    /\ score
         (base (final (Summarization.a_measure Demo.X
                         (Demo.test_case "in3" "out3")
                         (Demo.summarizer None true false))))
       = Some q
    /\ q = py_min a c
    /\ q == Qmin a c
    /\ success
         (base (final (Summarization.a_measure Demo.X
                         (Demo.test_case "in3" "out3")
                         (Demo.summarizer None true false))))
       = Some b
    /\ (b = true <->
        threshold
          (base (final (Summarization.a_measure Demo.X
                          (Demo.test_case "in3" "out3")
                          (Demo.summarizer None true false))))
        <= q).
Proof.
  destruct summarization_aggregation as (_ & _ & _ & H).
  apply (H Demo.X (Demo.test_case "in3" "out3")
           (Demo.summarizer None true false) _ (Some 0)).
  right. vm_compute. reflexivity.
Defined.

End SummarizationRules.

(* ================================================================== *)
(** * Part XIV.  Answer lists of different lengths                     *)
(* ================================================================== *)

Section Answers.

Variable X : Externals.

(** What a stage hands back is what the judge said. *)
Lemma ask_inr {Ext Ctx : Type} native plain prompt (s s' : Self Ext Ctx) res :
  ask native plain prompt s = (inr res, s') ->
  res = fst ((if using_native_model (base s) then native else plain)
               (model (base s)) prompt).
Proof.
  cbv beta iota zeta delta
    [ask bind attr gets invoke on_base modify ret add_cost not_none raise].
  destruct (using_native_model (base s)); simpl.
  - destruct (native (model (base s)) prompt) as [res' cost]. simpl.
    destruct (evaluation_cost (base s)); intros H; inversion H;
      reflexivity.
  - destruct (plain (model (base s)) prompt) as [res' cost]. simpl.
    intros H; inversion H; reflexivity.
Qed.

(** A judge that can be charged answers. *)
Lemma ask_funded {Ext Ctx : Type} method prompt (s : Self Ext Ctx) :
  Spec.funded (base s) ->
  exists s',
    ask method method prompt s = (inr (fst (method (model (base s)) prompt)), s')
    /\ untouched s s'.
Proof.
  intros Hf. pose proof (stays_ask method method prompt s) as K.
  destruct (ask method method prompt s) as [[e|res] s'] eqn:E.
  - exfalso. revert E.
    cbv beta iota zeta delta
      [ask bind attr gets invoke on_base modify ret add_cost not_none raise].
    unfold Spec.funded in Hf.
    destruct (using_native_model (base s)); simpl.
    + specialize (Hf eq_refl).
      destruct (method (model (base s)) prompt) as [res' cost]. simpl.
      destruct (evaluation_cost (base s)); [discriminate|discriminate].
    + destruct (method (model (base s)) prompt). discriminate.
  - exists s'. split; [|exact K]. f_equal. f_equal.
    apply ask_inr in E. rewrite E. now destruct (using_native_model (base s)).
Qed.

Lemma decode_run {Ext Ctx : Type} name key raw (s : Self Ext Ctx) :
  bind (load X name raw) (fun data => lift (getitem data key)) s
  = (Spec.decoded X name key raw, s).
Proof.
  unfold bind, load, lift, Spec.decoded, ret, raise.
  destruct (trimAndLoadJson X raw) as [data|]; reflexivity.
Qed.

Lemma generate_answers_inr text (s s' : Summarization.State) v :
  Summarization._generate_answers X text s = (inr v, s') ->
  Spec.answer_list X generate (model (base s))
    (Summarization.assessment_questions (ext s)) text = inr v
  /\ untouched s s'.
Proof.
  intros H. split; [|framed H F; exact F].
  revert H. unfold Summarization._generate_answers, Spec.answer_list.
  intros H.
  let E := fresh "E" in step H E; prim E.
  let E := fresh "E" in step H E; rename E into Ha.
  rewrite decode_run in H. apply ask_inr in Ha.
  inversion H; subst.
  match goal with
  | |- context [using_native_model ?b] => destruct (using_native_model b)
  end; first [assumption|reflexivity].
Qed.

Lemma a_generate_answers_inr text (s s' : Summarization.State) v :
  Summarization._a_generate_answers X text s = (inr v, s') ->
  Spec.answer_list X a_generate (model (base s))
    (Summarization.assessment_questions (ext s)) text = inr v
  /\ untouched s s'.
Proof.
  intros H. split; [|framed H F; exact F].
  revert H. unfold Summarization._a_generate_answers, Spec.answer_list.
  intros H.
  let E := fresh "E" in step H E; prim E.
  let E := fresh "E" in step H E; rename E into Ha.
  rewrite decode_run in H. apply ask_inr in Ha.
  inversion H; subst.
  match goal with
  | |- context [using_native_model ?b] => destruct (using_native_model b)
  end; first [assumption|reflexivity].
Qed.

Lemma generate_questions_inr text (s s' : Summarization.State) v :
  Summarization._generate_assessment_questions X text s = (inr v, s') ->
  Spec.question_list X generate (model (base s)) text
    (Summarization.n (ext s)) = inr v
  /\ untouched s s'.
Proof.
  intros H. split; [|framed H F; exact F].
  revert H.
  unfold Summarization._generate_assessment_questions, Spec.question_list.
  intros H.
  let E := fresh "E" in step H E; prim E.
  let E := fresh "E" in step H E; rename E into Ha.
  rewrite decode_run in H. apply ask_inr in Ha.
  inversion H; subst.
  match goal with
  | |- context [using_native_model ?b] => destruct (using_native_model b)
  end; first [assumption|reflexivity].
Qed.

Lemma a_generate_questions_inr text (s s' : Summarization.State) v :
  Summarization._a_generate_assessment_questions X text s = (inr v, s') ->
  Spec.question_list X a_generate (model (base s)) text
    (Summarization.n (ext s)) = inr v
  /\ untouched s s'.
Proof.
  intros H. split; [|framed H F; exact F].
  revert H.
  unfold Summarization._a_generate_assessment_questions, Spec.question_list.
  intros H.
  let E := fresh "E" in step H E; prim E.
  let E := fresh "E" in step H E; rename E into Ha.
  rewrite decode_run in H. apply ask_inr in Ha.
  inversion H; subst.
  match goal with
  | |- context [using_native_model ?b] => destruct (using_native_model b)
  end; first [assumption|reflexivity].
Qed.

End Answers.
Section Mismatch.

Variable X : Externals.

Lemma questions_in_force_eq method (s1 s2 : Summarization.State) text :
  ext s2 = ext s1 -> model (base s2) = model (base s1) ->
  Spec.questions_in_force X method s2 text
  = Spec.questions_in_force X method s1 text.
Proof. unfold Spec.questions_in_force. now intros -> ->. Qed.

(** A step that lifts a value: the value, and the state as it was. *)
Ltac lifted E :=
  unfold lift in E;
  match type of E with
  | (_, _) = (_, _) => inversion E; subst; clear E
  end.

(** The questions in force are the ones the metric holds once the first
    step of coverage-verdict generation has returned. *)
Lemma questions_step (generator : string -> M Summarization.State json)
    method text (st s1 : Summarization.State) u :
  (forall s s' v,
      generator text s = (inr v, s') ->
      Spec.question_list X method (model (base s)) text
        (Summarization.n (ext s)) = inr v
      /\ untouched s s') ->
  (if negb (is_some (Summarization.assessment_questions (ext st)))
   then
     bind (not_none (Some text))
       (fun text =>
          bind (generator text)
            (fun generated =>
               on_ext (Summarization.set_assessment_questions
                         (optional generated))))
   else ret tt) st = (inr u, s1) ->
  Spec.questions_in_force X method st text
  = inr (Summarization.assessment_questions (ext s1))
  /\ Summarization.n (ext s1) = Summarization.n (ext st)
  /\ calm st s1.
Proof.
  intros Hgen Hq. unfold Spec.questions_in_force.
  destruct (Summarization.assessment_questions (ext st)) as [q0|] eqn:Eq;
    cbn [negb is_some] in Hq.
  - prim Hq. rewrite Eq. split; [reflexivity|]. split; [reflexivity|].
    apply calm_refl.
  - let E := fresh "E" in step Hq E; prim E.
    let E := fresh "E" in step Hq E; rename E into Eg.
    apply Hgen in Eg. destruct Eg as (Eg & F). prim Hq. cbn.
    rewrite Eg. split; [reflexivity|].
    destruct F as (F1 & F2 & F3 & F4). split; [now rewrite F2|].
    split; [exact F1|]. split; assumption.
Qed.

(** When coverage-verdict generation returns, the two answer lists have
    the same length. *)
Lemma generate_coverage_verdicts_length tc (st st' : Summarization.State)
    text summary vs :
  input tc = Some text -> actual_output tc = Some summary ->
  Summarization._generate_coverage_verdicts X tc st = (inr vs, st') ->
  exists questions original_answers summary_answers count,
    Spec.questions_in_force X generate st text = inr questions
    /\ Spec.answer_list X generate (model (base st)) questions text
       = inr original_answers
    /\ Spec.answer_list X generate (model (base st)) questions summary
       = inr summary_answers
    /\ py_len original_answers = inr count
    /\ py_len summary_answers = inr count
    /\ Summarization.assessment_questions (ext st') = questions.
Proof.
  intros Hi Ho H.
  unfold Summarization._generate_coverage_verdicts in H. rewrite Hi, Ho in H.
  let E := fresh "E" in step H E; prim E.
  let E := fresh "E" in step H E; rename E into Hq.
  eapply questions_step in Hq;
    [|intros ? ? ?; apply generate_questions_inr].
  destruct Hq as (Hqs & Hn & C).
  let E := fresh "E" in step H E; prim E.
  let E := fresh "E" in step H E; rename E into E1.
  let E := fresh "E" in step H E; prim E.
  let E := fresh "E" in step H E; rename E into E2.
  apply generate_answers_inr in E1. destruct E1 as (E1 & F1).
  apply generate_answers_inr in E2. destruct E2 as (E2 & F2).
  let E := fresh "E" in step H E; rename E into L1. lifted L1.
  let E := fresh "E" in step H E; rename E into L2. lifted L2.
  match type of H with
  | (if negb (?x =? ?y) then _ else _) _ = _ =>
      destruct (Nat.eqb_spec x y) as [Hl|Hl]; [subst|discriminate]
  end.
  cbn [negb] in H.
  let E := fresh "E" in step H E; rename E into L3. lifted L3.
  match goal with
  | H : Summarization.pair_answers ?i ?o ?u ?acc ?a = (_, ?b) |- _ =>
      let F := fresh "F" in
      assert (F : untouched a b)
        by (pose proof (pair_answers_stays i o u acc a) as K;
            rewrite H in K; exact K)
  end.
  facts.
  match goal with
  | Hi : input tc = Some ?t, Ho : actual_output tc = Some ?u,
    Q : Spec.questions_in_force _ _ _ ?t = inr ?q,
    E1 : Spec.answer_list _ _ _ _ ?t = inr ?oa,
    E2 : Spec.answer_list _ _ _ _ ?u = inr ?sa,
    L1 : py_len ?oa = inr ?n, L2 : py_len ?sa = inr ?n |- _ =>
      exists q, oa, sa, n; repeat split; congruence
  end.
Qed.

Lemma a_generate_coverage_verdicts_length tc (st st' : Summarization.State)
    text summary vs :
  input tc = Some text -> actual_output tc = Some summary ->
  Summarization._a_generate_coverage_verdicts X tc st = (inr vs, st') ->
  exists questions original_answers summary_answers count,
    Spec.questions_in_force X a_generate st text = inr questions
    /\ Spec.answer_list X a_generate (model (base st)) questions text
       = inr original_answers
    /\ Spec.answer_list X a_generate (model (base st)) questions summary
       = inr summary_answers
    /\ py_len original_answers = inr count
    /\ py_len summary_answers = inr count
    /\ Summarization.assessment_questions (ext st') = questions.
Proof.
  intros Hi Ho H.
  unfold Summarization._a_generate_coverage_verdicts in H.
  rewrite Hi, Ho in H.
  let E := fresh "E" in step H E; prim E.
  let E := fresh "E" in step H E; rename E into Hq.
  eapply questions_step in Hq;
    [|intros ? ? ?; apply a_generate_questions_inr].
  destruct Hq as (Hqs & Hn & C).
  let E := fresh "E" in step H E; prim E.
  let E := fresh "E" in step H E; prim E.
  let E := fresh "E" in step H E; rename E into G.
  apply gather2_inr in G. destruct G as (sa & sb & E1 & E2 & ->).
  match type of H with
  | context [let (_, _) := ?x in _] => destruct x
  end.
  cbv [fst snd] in E1, E2.
  apply a_generate_answers_inr in E1. destruct E1 as (E1 & F1).
  apply a_generate_answers_inr in E2. destruct E2 as (E2 & F2).
  let E := fresh "E" in step H E; rename E into L1. lifted L1.
  let E := fresh "E" in step H E; rename E into L2. lifted L2.
  match type of H with
  | (if negb (?x =? ?y) then _ else _) _ = _ =>
      destruct (Nat.eqb_spec x y) as [Hl|Hl]; [subst|discriminate]
  end.
  cbn [negb] in H.
  let E := fresh "E" in step H E; rename E into L3. lifted L3.
  match goal with
  | H : Summarization.pair_answers ?i ?o ?u ?acc ?a = (_, ?b) |- _ =>
      let F := fresh "F" in
      assert (F : untouched a b)
        by (pose proof (pair_answers_stays i o u acc a) as K;
            rewrite H in K; exact K)
  end.
  facts.
  match goal with
  | Hi : input tc = Some ?t, Ho : actual_output tc = Some ?u,
    Q : Spec.questions_in_force _ _ _ ?t = inr ?q,
    E1 : Spec.answer_list _ _ _ _ ?t = inr ?oa,
    E2 : Spec.answer_list _ _ _ _ ?u = inr ?sa,
    L1 : py_len ?oa = inr ?n, L2 : py_len ?sa = inr ?n |- _ =>
      exists q, oa, sa, n; repeat split; congruence
  end.
Qed.

End Mismatch.
Section Questions.

Variable X : Externals.




End Questions.

Section CoverageWithoutQuestions.

Local Open Scope Q_scope.






End CoverageWithoutQuestions.

Section NoScore.

Context {Ext Ctx : Type}.

(** A run that raised, and left the attributes [quiet]: no score, reason
    or success was assigned. *)
Definition fails_quietly {A : Type} (s0 : Self Ext Ctx)
    (r : (PyExc + A) * Self Ext Ctx) : Prop :=
  match fst r with
  | inl _ => quiet (base s0) (base (snd r))
  | inr _ => False
  end.

Lemma fails_quietly_elim {A : Type} (s0 : Self Ext Ctx)
    (r : (PyExc + A) * Self Ext Ctx) :
  fails_quietly s0 r ->
  exists e s', r = (inl e, s') /\ score (base s') = score (base s0).
Proof.
  destruct r as [[e|a] s']; unfold fails_quietly; simpl; [|contradiction].
  intros Q. exists e, s'. split; [reflexivity|]. exact (quiet_score Q).
Qed.

Lemma fails_quietly_inv {A : Type} (s0 : Self Ext Ctx)
    (r : (PyExc + A) * Self Ext Ctx) :
  fails_quietly s0 r ->
  exists e s', r = (inl e, s') /\ quiet (base s0) (base s').
Proof.
  destruct r as [[e|a] s']; unfold fails_quietly; simpl; [|contradiction].
  intros Q. now exists e, s'.
Qed.

Lemma fq_raise {A B : Type} (s0 : Self Ext Ctx) (c : M (Self Ext Ctx) A)
    (k : A -> M (Self Ext Ctx) B) s e s1 :
  c s = (inl e, s1) -> quiet (base s0) (base s1) ->
  fails_quietly s0 (bind c k s).
Proof. intros E Q. erewrite bind_raises by exact E. exact Q. Qed.

Lemma fq_return {A B : Type} (s0 : Self Ext Ctx) (c : M (Self Ext Ctx) A)
    (k : A -> M (Self Ext Ctx) B) s a s1 :
  c s = (inr a, s1) -> fails_quietly s0 (k a s1) ->
  fails_quietly s0 (bind c k s).
Proof. intros E Q. erewrite bind_returns by exact E. exact Q. Qed.

(** The state [s] of an evaluation that started in [s0] and has assigned
    nothing but stage outputs and cost. *)
Definition track (s0 s : Self Ext Ctx) : Prop :=
  ext s = ext s0 /\ quiet (base s0) (base s).

Lemma track_start s0 : track s0 s0.
Proof. split; [reflexivity|apply quiet_refl]. Qed.

Lemma track_step s0 s s1 : track s0 s -> untouched s s1 -> track s0 s1.
Proof.
  intros (T1 & T2) (F1 & F2 & F3 & F4). split; [congruence|].
  eapply quiet_trans; eassumption.
Qed.

Lemma track_on_ctx s0 s (f : Ctx -> Ctx) :
  track s0 s -> track s0 (mkSelf (base s) (ext s) (f (ctx s))).
Proof. intros T. exact T. Qed.

Lemma track_ctx s0 s (c : Ctx) :
  track s0 s -> track s0 (mkSelf (base s) (ext s) c).
Proof. intros T. exact T. Qed.

Lemma track_cost s0 s (c : option Q) :
  track s0 s ->
  track s0 (mkSelf (set_evaluation_cost c (base s)) (ext s) (ctx s)).
Proof.
  intros (T1 & T2). split; [exact T1|].
  eapply quiet_trans; [exact T2|apply quiet_set_evaluation_cost].
Qed.

Lemma track_quiet s0 s : track s0 s -> quiet (base s0) (base s).
Proof. now intros (_ & T). Qed.

Lemma track_calm s0 s s1 :
  track s0 s -> calm s s1 -> quiet (base s0) (base s1).
Proof. intros (_ & T) (_ & C & _). eapply quiet_trans; eassumption. Qed.

Lemma track_async_mode s0 s :
  track s0 s -> async_mode (base s) = async_mode (base s0).
Proof. intros (_ & T). exact (f_equal async_mode T). Qed.

Lemma track_model s0 s : track s0 s -> model (base s) = model (base s0).
Proof. intros (_ & T). exact (f_equal model T). Qed.

Lemma as_task_raises {A : Type} (c : M (Self Ext Ctx) A) s e s1 :
  c s = (inl e, s1) ->
  as_task c s = (inl e, mkSelf (base s1) (ext s1) (ctx s)).
Proof. unfold as_task. now intros ->. Qed.

End NoScore.

(** A step of a run that will raise: a primitive. *)
Ltac fwd_prim :=
  lazymatch goal with
  | Inv : track ?s0 ?s |- fails_quietly ?s0 (bind (attr ?f) ?k ?s) =>
      change (fails_quietly s0 (k (f (base s)) s)); cbv beta
  | Inv : track ?s0 ?s |- fails_quietly ?s0 (bind (var ?f) ?k ?s) =>
      change (fails_quietly s0 (k (f (ctx s)) s)); cbv beta
  | Inv : track ?s0 ?s |- fails_quietly ?s0 (bind (not_none (Some ?a)) ?k ?s) =>
      change (fails_quietly s0 (k a s)); cbv beta
  | Inv : track ?s0 ?s |- fails_quietly ?s0 (bind (on_ctx ?f) ?k ?s) =>
      change (fails_quietly s0 (k tt (mkSelf (base s) (ext s) (f (ctx s)))));
      cbv beta;
      let T := fresh "Inv" in
      pose proof (track_on_ctx f Inv) as T; clear Inv
  | Inv : track ?s0 ?s
    |- fails_quietly ?s0
         (bind (on_base (set_evaluation_cost ?c)) ?k ?s) =>
      change (fails_quietly s0
                (k tt (mkSelf (set_evaluation_cost c (base s)) (ext s)
                         (ctx s))));
      cbv beta;
      let T := fresh "Inv" in
      pose proof (track_cost c Inv) as T; clear Inv
  end.

(** A step of a run that will raise: a stage that only talks to the
    judge.  If it raises, nothing was assigned; if it returns, the run
    goes on. *)
Ltac fwd_stage :=
  lazymatch goal with
  | Inv : track ?s0 ?s |- fails_quietly ?s0 (bind ?c ?k ?s) =>
      let E := fresh "E" in
      let F := fresh "F" in
      let T := fresh "Inv" in
      destruct (c s) as [[?|?] ?] eqn:E;
      framed E F;
      pose proof (track_step Inv F) as T;
      [ eapply fq_raise; [exact E|exact (track_quiet T)]
      | eapply fq_return; [exact E|]; cbv beta; clear Inv;
        repeat match goal with
               | |- context [let (_, _) := ?x in _] => is_var x; destruct x
               end ]
  end.

Ltac fwd := first [fwd_prim | fwd_stage].

Section MismatchedEvaluation.

Variable X : Externals.

Lemma answers_mismatch_transfer method (s0 s : Summarization.State)
    text summary :
  track s0 s ->
  Spec.answers_mismatch X method s0 text summary ->
  Spec.answers_mismatch X method s text summary.
Proof.
  intros T (questions & oa & sa & n1 & n2 & H1 & H2 & H3 & H4).
  exists questions, oa, sa, n1, n2.
  rewrite (track_model T).
  rewrite (@questions_in_force_eq X method s0 s text (proj1 T) (track_model T)).
  auto.
Qed.

Lemma a_measure_mismatch tc (st : Summarization.State) text summary :
  input tc = Some text -> actual_output tc = Some summary ->
  Spec.answers_mismatch X a_generate st text summary ->
  fails_quietly st (Summarization.a_measure X tc st).
Proof.
  intros Hi Ho Hm. unfold Summarization.a_measure. rewrite Hi, Ho.
  pose proof (track_start st) as Inv.
  do 6 fwd. do 2 fwd.
  lazymatch goal with
  | Inv : track _ ?s |- fails_quietly _ (bind ?c _ ?s) =>
      let Eg := fresh "Eg" in
      destruct (c s) as [[?|[? ?]] ?] eqn:Eg;
      [ eapply fq_raise; [exact Eg|];
        eapply track_calm; [exact Inv|];
        let K := fresh "K" in
        assert (K : keeps calm c)
          by (apply calm_gather2;
              [ apply a_generate_coverage_verdicts_calm
              | apply calm_of_stays; autounfold with stages; frame ]);
        specialize (K s); rewrite Eg in K; exact K
      | exfalso;
        apply gather2_inr in Eg; destruct Eg as (? & ? & Eg & _ & _);
        apply (answers_mismatch_transfer Inv) in Hm;
        eapply a_generate_coverage_verdicts_length in Eg; [|eassumption..];
        destruct Eg as (? & ? & ? & ? & ? & ? & ? & ? & ? & _);
        destruct Hm as (? & ? & ? & ? & ? & ? & ? & ? & ? & ? & Hm);
        apply Hm; congruence ]
  end.
Qed.

Lemma measure_mismatch_blocking tc (st : Summarization.State) text summary :
  input tc = Some text -> actual_output tc = Some summary ->
  async_mode (base st) = false ->
  Spec.answers_mismatch X generate st text summary ->
  fails_quietly st (Summarization.measure X tc st).
Proof.
  intros Hi Ho Ha Hm. unfold Summarization.measure. rewrite Hi, Ho.
  pose proof (track_start st) as Inv.
  do 4 fwd.
  match goal with
  | Inv : track _ ?s |- context [async_mode (base ?s)] =>
      rewrite (track_async_mode Inv), Ha
  end.
  do 6 fwd.
  lazymatch goal with
  | Inv : track _ ?s |- fails_quietly _ (bind ?c _ ?s) =>
      let Eg := fresh "Eg" in
      destruct (c s) as [[?|?] ?] eqn:Eg;
      [ eapply fq_raise; [exact Eg|];
        eapply track_calm; [exact Inv|];
        let K := fresh "K" in
        pose proof (generate_coverage_verdicts_calm X tc s) as K;
        rewrite Eg in K; exact K
      | exfalso;
        apply (answers_mismatch_transfer Inv) in Hm;
        eapply generate_coverage_verdicts_length in Eg; [|eassumption..];
        destruct Eg as (? & ? & ? & ? & ? & ? & ? & ? & ? & _);
        destruct Hm as (? & ? & ? & ? & ? & ? & ? & ? & ? & ? & Hm);
        apply Hm; congruence ]
  end.
Qed.

Lemma measure_mismatch_driven tc (st : Summarization.State) text summary :
  input tc = Some text -> actual_output tc = Some summary ->
  async_mode (base st) = true ->
  Spec.answers_mismatch X a_generate st text summary ->
  fails_quietly st (Summarization.measure X tc st).
Proof.
  intros Hi Ho Ha Hm. unfold Summarization.measure.
  pose proof (track_start st) as Inv.
  do 4 fwd.
  match goal with
  | Inv : track _ ?s |- context [async_mode (base ?s)] =>
      rewrite (track_async_mode Inv), Ha
  end.
  lazymatch goal with
  | Inv : track _ ?s |- fails_quietly _ (bind _ _ ?s) =>
      apply (answers_mismatch_transfer Inv) in Hm;
      let A := fresh "A" in
      pose proof (a_measure_mismatch tc Hi Ho Hm) as A;
      apply fails_quietly_inv in A; destruct A as (e & s' & Ea & Q);
      eapply fq_raise;
      [ unfold run_until_complete, Summarization._measure_async;
        apply as_task_raises; erewrite bind_raises by exact Ea; reflexivity
      | eapply quiet_trans; [exact (track_quiet Inv)|exact Q] ]
  end.
Qed.

End MismatchedEvaluation.

Section MismatchedStage.

Variable X : Externals.

Lemma funded_step {Ext Ctx : Type} (s s' : Self Ext Ctx) :
  untouched s s' -> Spec.funded (base s) -> Spec.funded (base s').
Proof.
  intros (_ & _ & Q & C) Hf Hn. apply C, Hf.
  rewrite <- Hn. symmetry. exact (f_equal using_native_model Q).
Qed.

Lemma gather2_returns {Ext Ctx A B : Type} (a : M (Self Ext Ctx) A)
    (b : M (Self Ext Ctx) B) s x s1 y s2 :
  a s = (inr x, s1) ->
  b (mkSelf (base s1) (ext s1) (ctx s)) = (inr y, s2) ->
  gather2 a b s = (inr (x, y), mkSelf (base s2) (ext s2) (ctx s)).
Proof. unfold gather2, as_task. intros -> Hb. simpl. now rewrite Hb. Qed.

(** A stage that decodes a list from the answer to one prompt, on a judge
    that can be charged: it returns what the judge said, decoded. *)
Lemma decoding_stage_funded {Ext Ctx : Type} method prompt name key
    (s : Self Ext Ctx) :
  Spec.funded (base s) ->
  exists s',
    bind (ask method method prompt)
      (fun res =>
         bind (load X name res)
           (fun data => lift (getitem data key))) s
    = (Spec.decoded X name key (fst (method (model (base s)) prompt)), s')
    /\ untouched s s'.
Proof.
  intros Hf.
  edestruct (@ask_funded Ext Ctx method prompt s) as (s' & Ea & F);
    [exact Hf|].
  exists s'. split; [|exact F].
  erewrite bind_returns by exact Ea. apply decode_run.
Qed.

Lemma generate_answers_funded text (s : Summarization.State) :
  Spec.funded (base s) ->
  exists s',
    Summarization._generate_answers X text s
    = (Spec.answer_list X generate (model (base s))
         (Summarization.assessment_questions (ext s)) text, s')
    /\ untouched s s'.
Proof. intros Hf. eapply decoding_stage_funded, Hf. Qed.

Lemma a_generate_answers_funded text (s : Summarization.State) :
  Spec.funded (base s) ->
  exists s',
    Summarization._a_generate_answers X text s
    = (Spec.answer_list X a_generate (model (base s))
         (Summarization.assessment_questions (ext s)) text, s')
    /\ untouched s s'.
Proof. intros Hf. eapply decoding_stage_funded, Hf. Qed.

Lemma generate_questions_funded text (s : Summarization.State) :
  Spec.funded (base s) ->
  exists s',
    Summarization._generate_assessment_questions X text s
    = (Spec.question_list X generate (model (base s)) text
         (Summarization.n (ext s)), s')
    /\ untouched s s'.
Proof. intros Hf. eapply decoding_stage_funded, Hf. Qed.

Lemma a_generate_questions_funded text (s : Summarization.State) :
  Spec.funded (base s) ->
  exists s',
    Summarization._a_generate_assessment_questions X text s
    = (Spec.question_list X a_generate (model (base s)) text
         (Summarization.n (ext s)), s')
    /\ untouched s s'.
Proof. intros Hf. eapply decoding_stage_funded, Hf. Qed.

(** A primitive step at the head of the run in the goal. *)
Ltac run_prim :=
  match goal with
  | |- context [bind (Summarization.field ?f) ?k ?s] =>
      change (bind (Summarization.field f) k s) with (k (f (ext s)) s)
  | |- context [bind (not_none (Some ?a)) ?k ?s] =>
      change (bind (not_none (Some a)) k s) with (k a s)
  | |- context [bind (ret ?a) ?k ?s] =>
      change (bind (ret a) k s) with (k a s)
  | |- context [bind (lift (inr ?a)) ?k ?s] =>
      change (bind (lift (inr a)) k s) with (k a s)
  | |- context [bind (on_ext ?f) ?k ?s] =>
      change (bind (on_ext f) k s)
        with (k tt (mkSelf (base s) (f (ext s)) (ctx s)))
  end;
  cbv beta.

Lemma generate_coverage_verdicts_raises tc (st : Summarization.State)
    text summary :
  input tc = Some text -> actual_output tc = Some summary ->
  Spec.funded (base st) ->
  Spec.answers_mismatch X generate st text summary ->
  raised (Summarization._generate_coverage_verdicts X tc st)
  = Some (ValueError length_mismatch_msg).
Proof.
  intros Hi Ho Hf
    (questions & oa & sa & n1 & n2 & Hin & Hoa & Hsa & Hl1 & Hl2 & Hlen).
  unfold Summarization._generate_coverage_verdicts. rewrite Hi, Ho.
  run_prim. unfold Spec.questions_in_force in Hin.
  assert (Hq : exists s1 u,
             (if negb (is_some (Summarization.assessment_questions (ext st)))
              then
                bind (not_none (Some text))
                  (fun text =>
                     bind (Summarization._generate_assessment_questions X text)
                       (fun generated =>
                          on_ext (Summarization.set_assessment_questions
                                    (optional generated))))
              else ret tt) st = (inr u, s1)
             /\ Summarization.assessment_questions (ext s1) = questions
             /\ model (base s1) = model (base st)
             /\ Spec.funded (base s1)).
  { destruct (Summarization.assessment_questions (ext st)) as [q0|] eqn:Eq;
      cbn [negb is_some].
    - exists st, tt. repeat split; auto. congruence.
    - destruct (generate_questions_funded text st Hf) as (s1 & Eg & F).
      destruct (Spec.question_list _ _ _ _ _) as [e|generated];
        [discriminate|].
      injection Hin as Hin. run_prim. erewrite bind_returns by exact Eg.
      eexists _, tt. split; [reflexivity|]. cbn.
      split; [exact Hin|]. split; [|exact (funded_step F Hf)].
      destruct F as (_ & _ & Q & _). exact (quiet_model Q). }
  destruct Hq as (s1 & u & Eq & Hqs & Hmodel & Hf1).
  erewrite bind_returns by exact Eq. run_prim.
  destruct (generate_answers_funded text s1 Hf1) as (s2 & E1 & F1).
  rewrite Hqs, Hmodel, Hoa in E1. erewrite bind_returns by exact E1.
  run_prim.
  destruct (generate_answers_funded summary s2 (funded_step F1 Hf1))
    as (s3 & E2 & F2).
  assert (F1' := F1). destruct F1' as (_ & Hx & Q & _).
  rewrite Hx, Hqs, (quiet_model Q), Hmodel, Hsa in E2.
  erewrite bind_returns by exact E2.
  rewrite Hl1. run_prim. rewrite Hl2. run_prim.
  apply Nat.eqb_neq in Hlen. rewrite Hlen. reflexivity.
Qed.

Lemma a_generate_coverage_verdicts_raises tc (st : Summarization.State)
    text summary :
  input tc = Some text -> actual_output tc = Some summary ->
  Spec.funded (base st) ->
  Spec.answers_mismatch X a_generate st text summary ->
  raised (Summarization._a_generate_coverage_verdicts X tc st)
  = Some (ValueError length_mismatch_msg).
Proof.
  intros Hi Ho Hf
    (questions & oa & sa & n1 & n2 & Hin & Hoa & Hsa & Hl1 & Hl2 & Hlen).
  unfold Summarization._a_generate_coverage_verdicts. rewrite Hi, Ho.
  run_prim. unfold Spec.questions_in_force in Hin.
  assert (Hq : exists s1 u,
             (if negb (is_some (Summarization.assessment_questions (ext st)))
              then
                bind (not_none (Some text))
                  (fun text =>
                     bind
                       (Summarization._a_generate_assessment_questions X text)
                       (fun generated =>
                          on_ext (Summarization.set_assessment_questions
                                    (optional generated))))
              else ret tt) st = (inr u, s1)
             /\ Summarization.assessment_questions (ext s1) = questions
             /\ model (base s1) = model (base st)
             /\ Spec.funded (base s1)).
  { destruct (Summarization.assessment_questions (ext st)) as [q0|] eqn:Eq;
      cbn [negb is_some].
    - exists st, tt. repeat split; auto. congruence.
    - destruct (a_generate_questions_funded text st Hf) as (s1 & Eg & F).
      destruct (Spec.question_list _ _ _ _ _) as [e|generated];
        [discriminate|].
      injection Hin as Hin. run_prim. erewrite bind_returns by exact Eg.
      eexists _, tt. split; [reflexivity|]. cbn.
      split; [exact Hin|]. split; [|exact (funded_step F Hf)].
      destruct F as (_ & _ & Q & _). exact (quiet_model Q). }
  destruct Hq as (s1 & u & Eq & Hqs & Hmodel & Hf1).
  erewrite bind_returns by exact Eq. do 2 run_prim.
  destruct (a_generate_answers_funded text s1 Hf1) as (s2 & E1 & F1).
  rewrite Hqs, Hmodel, Hoa in E1.
  assert (Hf2 : Spec.funded (base (mkSelf (base s2) (ext s2) (ctx s1))))
    by exact (funded_step F1 Hf1).
  destruct (a_generate_answers_funded summary _ Hf2) as (s3 & E2 & F2).
  assert (F1' := F1). destruct F1' as (_ & Hx & Q & _).
  cbn [base ext] in E2.
  rewrite Hx, Hqs, (quiet_model Q), Hmodel, Hsa in E2. rewrite <- Hx in E2.
  erewrite bind_returns
    by (eapply gather2_returns; [exact E1 | exact E2]).
  cbv beta iota zeta. rewrite Hl1. run_prim. rewrite Hl2. run_prim.
  apply Nat.eqb_neq in Hlen. rewrite Hlen. reflexivity.
Qed.

End MismatchedStage.

(* ------------------------------------------------------------------ *)
(** ** Answer lists of different lengths                               *)
(* ------------------------------------------------------------------ *)

(** C8.  Summarization, both ways of running it.  When the judge's answer
    list for the original input and its answer list for the summary, under
    the assessment questions in force, have different lengths, then
    coverage-verdict generation raises the length-mismatch [ValueError]
    (for a native model, given that the evaluation cost was initialised,
    as [measure] and [a_measure] do before any stage), and the evaluation
    itself, [measure] in either mode and [a_measure], ends in an exception
    and leaves the metric's score as it was: no score is produced. *)
Theorem coverage_length_mismatch (X : Externals) (tc : LLMTestCase)
    (st : Summarization.State) (text summary : string) :
  input tc = Some text -> actual_output tc = Some summary ->
  (Spec.answers_mismatch X generate st text summary ->
     (Spec.funded (base st) ->
        raised (Summarization._generate_coverage_verdicts X tc st)
        = Some (ValueError length_mismatch_msg))
     /\ (async_mode (base st) = false ->
         exists e s',
           Summarization.measure X tc st = (inl e, s')
           /\ score (base s') = score (base st)))
  /\ (Spec.answers_mismatch X a_generate st text summary ->
     (Spec.funded (base st) ->
        raised (Summarization._a_generate_coverage_verdicts X tc st)
        = Some (ValueError length_mismatch_msg))
     /\ (exists e s',
           Summarization.a_measure X tc st = (inl e, s')
           /\ score (base s') = score (base st))
     /\ (async_mode (base st) = true ->
         exists e s',
           Summarization.measure X tc st = (inl e, s')
           /\ score (base s') = score (base st))).
Proof.
  intros Hi Ho. split; intros Hm.
  - split.
    + intros Hf. now apply generate_coverage_verdicts_raises with text summary.
    + intros Ha. apply fails_quietly_elim.
      now apply measure_mismatch_blocking with text summary.
  - split; [|split].
    + intros Hf.
      now apply a_generate_coverage_verdicts_raises with text summary.
    + apply fails_quietly_elim.
      now apply a_measure_mismatch with text summary.
    + intros Ha. apply fails_quietly_elim.
      now apply measure_mismatch_driven with text summary.
Qed.

(** Three answers for the original, two for the summary: the stage raises
    and the blocking evaluation of a synchronous metric yields no score. *)
Lemma coverage_length_mismatch_witness :
  raised (Summarization._generate_coverage_verdicts Demo.X
            (Demo.test_case "in4" "out4")
            (Demo.summarizer (Some ["a"; "b"; "c"]%string) false false))
  = Some (ValueError length_mismatch_msg)
  /\ (exists e s',
        Summarization.measure Demo.X (Demo.test_case "in4" "out4")
          (Demo.summarizer (Some ["a"; "b"; "c"]%string) false false)
        = (inl e, s')
        /\ score (base s') = None).
Proof.
  assert (Hm : forall method,
             method Demo.judge = Demo.reply ->
             Spec.answers_mismatch Demo.X method
               (Demo.summarizer (Some ["a"; "b"; "c"]%string) false false)
               "in4" "out4").
  { intros method Hr.
    exists (Some (JArr [JStr "a"; JStr "b"; JStr "c"]%string)),
      (JArr [JStr "yes"; JStr "yes"; JStr "no"]%string),
      (JArr [JStr "yes"; JStr "no"]%string), 3, 2.
    unfold Spec.questions_in_force, Spec.answer_list, Spec.decoded.
    cbn [Demo.summarizer Summarization.__init__ base ext model new_base
         Summarization.assessment_questions].
    rewrite Hr. vm_compute. repeat split; try reflexivity. discriminate. }
  destruct (@coverage_length_mismatch Demo.X (Demo.test_case "in4" "out4")
              (Demo.summarizer (Some ["a"; "b"; "c"]%string) false false)
              "in4" "out4" eq_refl eq_refl) as [Hsync _].
  destruct (Hsync (Hm generate eq_refl)) as [Hstage Hrun].
  split.
  - apply Hstage. unfold Spec.funded. vm_compute. discriminate.
  - exact (Hrun eq_refl).
Defined.

(* ================================================================== *)
(** * The orchestrator and the cache                                  *)
(* ================================================================== *)

(** ** One metric among the others *)

Section Positions.

Context {A : Type}.

Lemma update_nth_length (i : nat) (f : A -> A) xs :
  length (Indicator.update_nth i f xs) = length xs.
Proof.
  revert i. induction xs as [|x xs IH]; intros [|i]; simpl; auto.
Qed.

Lemma nth_error_update_nth_eq (i : nat) (f : A -> A) xs x :
  nth_error xs i = Some x ->
  nth_error (Indicator.update_nth i f xs) i = Some (f x).
Proof.
  revert i. induction xs as [|y xs IH]; intros [|i]; simpl; try discriminate.
  - now intros [= ->].
  - apply IH.
Qed.

Lemma nth_error_update_nth_ne (i j : nat) (f : A -> A) xs :
  i <> j ->
  nth_error (Indicator.update_nth j f xs) i = nth_error xs i.
Proof.
  revert i j. induction xs as [|y xs IH]; intros [|i] [|j] H; simpl; auto;
    try congruence.
Qed.

End Positions.

Lemma restore_ctx_with_base f m :
  Indicator.restore_ctx m (Indicator.with_base f m) = Indicator.with_base f m.
Proof. now destruct m. Qed.

Lemma restore_ctx_same m : Indicator.restore_ctx m m = m.
Proof. now destruct m as [[]|[]|[]]. Qed.

Lemma with_base_with_base f g m :
  Indicator.with_base f (Indicator.with_base g m)
  = Indicator.with_base (fun b => f (g b)) m.
Proof. now destruct m. Qed.

Lemma base_of_with_base f m :
  Indicator.base_of (Indicator.with_base f m) = f (Indicator.base_of m).
Proof. now destruct m. Qed.

Lemma nth_error_restore_ctxs before after i a :
  nth_error after i = Some a ->
  nth_error (Indicator.restore_ctxs before after) i
  = Some (match nth_error before i with
          | Some b => Indicator.restore_ctx b a
          | None => a
          end).
Proof.
  revert after i.
  induction before as [|b before IH]; intros [|a' after] [|i]; simpl;
    try discriminate; auto.
  now intros [= ->].
Qed.

Lemma nth_error_restore_ctxs_same before after i :
  nth_error after i = nth_error before i ->
  nth_error (Indicator.restore_ctxs before after) i = nth_error before i.
Proof.
  revert after i.
  induction before as [|b before IH]; intros [|a' after] [|i]; simpl;
    try discriminate; auto.
  intros [= ->]. now rewrite restore_ctx_same.
Qed.


Lemma apart_refl i w : apart i w w.
Proof. now split. Qed.

Lemma apart_trans i w1 w2 w3 : apart i w1 w2 -> apart i w2 w3 -> apart i w1 w3.
Proof. unfold apart. intros [] []. split; congruence. Qed.

Section Bystanders.

Variable X : Externals.
Variable CachedTestCase : Type.
Variable get_metric_data :
  Indicator.AnyMetric -> CachedTestCase -> option Indicator.CachedMetricData.
Variable i : nat.

Lemma spares_bind {A B : Type} (c : M Indicator.World A)
    (k : A -> M Indicator.World B) :
  keeps (apart i) c -> (forall a, keeps (apart i) (k a)) ->
  keeps (apart i) (bind c k).
Proof.
  intros Hc Hk.
  apply keeps_bind; try assumption. apply apart_trans.
Qed.

Lemma spares_the_metric k : keeps (apart i) (Indicator.the_metric k).
Proof.
  intros w. unfold Indicator.the_metric.
  destruct (nth_error (Indicator.metrics w) k); apply apart_refl.
Qed.

Lemma spares_cached_metadata k c :
  keeps (apart i) (Indicator.cached_metadata get_metric_data k c).
Proof.
  unfold Indicator.cached_metadata. destruct c as [c|].
  - apply spares_bind; [apply spares_the_metric|].
    intros m. destruct (get_metric_data m c); intros w; apply apart_refl.
  - intros w. apply apart_refl.
Qed.

Lemma spares_assign k f : k <> i -> keeps (apart i) (Indicator.assign k f).
Proof.
  intros H w. split; simpl; [|reflexivity].
  apply nth_error_update_nth_ne. congruence.
Qed.

Lemma spares_a_measure_of k tc :
  k <> i -> keeps (apart i) (Indicator.a_measure_of X k tc).
Proof.
  intros H w. unfold Indicator.a_measure_of.
  destruct (nth_error (Indicator.metrics w) k) as [m|]; [|apply apart_refl].
  destruct (Indicator.a_measure X tc m) as [r m']. split; simpl; [|reflexivity].
  apply nth_error_update_nth_ne. congruence.
Qed.

Lemma spares_update k n : k <> i -> keeps (apart i) (Indicator.update k n).
Proof.
  intros H w. unfold Indicator.update.
  destruct (nth_error (Indicator.progress w) k); [|apply apart_refl].
  split; simpl; [reflexivity|]. apply nth_error_update_nth_ne. congruence.
Qed.

Lemma spares_try_TypeError {A : Type} (c h : M Indicator.World A) :
  keeps (apart i) c -> keeps (apart i) h ->
  keeps (apart i) (try_except_TypeError c h).
Proof.
  intros Hc Hh w. unfold try_except_TypeError. specialize (Hc w).
  destruct (c w) as [[e|a] w1]; simpl in *; [|assumption].
  destruct (is_TypeError e); simpl; [|assumption].
  eapply apart_trans; [exact Hc|apply Hh].
Qed.

Lemma spares_measure_metric_task k tc c :
  k <> i ->
  keeps (apart i) (Indicator.measure_metric_task X get_metric_data k k tc c).
Proof.
  intros H. unfold Indicator.measure_metric_task.
  apply spares_bind; [intros w; apply apart_refl|]. intros tasks.
  destruct (Indicator.finished tasks); [intros w; apply apart_refl|].
  apply spares_bind; [apply spares_cached_metadata|]. intros md.
  apply spares_bind; [|intros _; now apply spares_update].
  destruct md as [md|].
  - repeat (apply spares_bind; [now apply spares_assign|intros _]).
    now apply spares_assign.
  - apply spares_try_TypeError; now apply spares_a_measure_of.
Qed.

Lemma spares_as_task {A : Type} (c : M Indicator.World A) :
  keeps (apart i) c -> keeps (apart i) (Indicator.as_task c).
Proof.
  intros Hc w. unfold Indicator.as_task. specialize (Hc w).
  destruct (c w) as [r w']. destruct Hc as [Hm Hp]. simpl in *.
  split; simpl; [|assumption]. now apply nth_error_restore_ctxs_same.
Qed.

Lemma spares_gather tasks :
  Forall (fun task => keeps (apart i) task) tasks ->
  forall failure, keeps (apart i) (Indicator.gather tasks failure).
Proof.
  induction 1 as [|task tasks Ht _ IH]; intros failure w; simpl.
  - destruct failure; apply apart_refl.
  - pose proof (spares_as_task Ht w) as H1.
    destruct (Indicator.as_task task w) as [r w1]. simpl in H1.
    eapply apart_trans; [exact H1|apply IH].
Qed.

End Bystanders.

(** ** A metric the cache knows *)

Lemma update_nth_update_nth {A : Type} (i : nat) (f g : A -> A) xs :
  Indicator.update_nth i f (Indicator.update_nth i g xs)
  = Indicator.update_nth i (fun x => f (g x)) xs.
Proof.
  revert i. induction xs as [|x xs IH]; intros [|i]; simpl; auto.
  now rewrite IH.
Qed.

Lemma update_nth_ext {A : Type} (i : nat) (f g : A -> A) xs :
  (forall x, f x = g x) ->
  Indicator.update_nth i f xs = Indicator.update_nth i g xs.
Proof.
  intros H. revert i. induction xs as [|x xs IH]; intros [|i]; simpl; auto.
  - now rewrite H.
  - now rewrite IH.
Qed.

Lemma finished_false tasks k t :
  nth_error tasks k = Some t -> Indicator.task_finished t = false ->
  Indicator.finished tasks = false.
Proof.
  intros Hk Ht. destruct tasks as [|t0 tasks]; [now destruct k|].
  unfold Indicator.finished.
  destruct (forallb Indicator.task_finished (t0 :: tasks)) eqn:E; auto.
  rewrite forallb_forall in E. apply nth_error_In in Hk. apply E in Hk.
  congruence.
Qed.

Section CacheHit.

Variable X : Externals.
Variable CachedTestCase : Type.
Variable get_metric_data :
  Indicator.AnyMetric -> CachedTestCase -> option Indicator.CachedMetricData.
Variable tc : LLMTestCase.
Variable c : CachedTestCase.

(** The coroutine the first loop makes for the metric at position [k]. *)
Let task (k : nat) : M Indicator.World unit :=
  Indicator.measure_metric_task X get_metric_data k k tc (Some c).

Lemma with_indicator_run n :
  forall a acc w,
    length (Indicator.progress w) = a ->
    Indicator.with_indicator X get_metric_data (seq a n) tc (Some c) acc w
    = (inr (acc ++ map task (seq a n)),
       Indicator.mkWorld (Indicator.metrics w)
         (Indicator.progress w
          ++ repeat (Indicator.mkProgressTask 0 100) n)).
Proof.
  induction n as [|n IH]; intros a acc [ms ps] Ha; simpl in *.
  - unfold ret. now rewrite !app_nil_r.
  - unfold bind, Indicator.add_task. simpl. rewrite Ha.
    rewrite IH by (simpl; rewrite length_app; simpl; lia).
    simpl. now rewrite <- !app_assoc.
Qed.

(** On the path without the progress bar the metric at position [k] is
    looked up in the loop itself. *)
Lemma without_indicator_cons k rest acc w mk :
  nth_error (Indicator.metrics w) k = Some mk ->
  Indicator.without_indicator X get_metric_data (k :: rest) tc (Some c) acc w
  = match get_metric_data mk c with
    | Some (Indicator.mkCachedMetricData (Some found)) =>
        Indicator.without_indicator X get_metric_data rest tc (Some c) acc
          (Indicator.mkWorld
             (Indicator.update_nth k (Indicator.with_base (Hit.adopt_all found))
                (Indicator.metrics w))
             (Indicator.progress w))
    | _ =>
        Indicator.without_indicator X get_metric_data rest tc (Some c)
          (acc ++ [Indicator.a_measure_of X k tc]) w
    end.
Proof.
  intros Hk. simpl.
  unfold bind at 1. unfold Indicator.cached_metadata, Indicator.the_metric.
  unfold bind at 1. rewrite Hk.
  destruct (get_metric_data mk c) as [[[found|]]|]; try reflexivity.
  cbv beta iota delta [ret bind Indicator.assign modify]. simpl.
  rewrite !update_nth_update_nth.
  f_equal. f_equal. apply update_nth_ext. now intros [].
Qed.

Variable i : nat.
Variable m : Indicator.AnyMetric.
Variable md : Indicator.MetricMetadata.t.
Hypothesis Hhit :
  get_metric_data m c = Some (Indicator.mkCachedMetricData (Some md)).

Lemma measure_metric_task_hit w :
  nth_error (Indicator.metrics w) i = Some m ->
  nth_error (Indicator.progress w) i = Some (Indicator.mkProgressTask 0 100) ->
  nth_error (Indicator.metrics (snd (Indicator.as_task (task i) w))) i
  = Some (Indicator.with_base (Hit.adopt_state md) m).
Proof.
  intros Hm Hp. unfold Indicator.as_task, task, Indicator.measure_metric_task.
  unfold bind at 1, gets at 1.
  rewrite (@finished_false _ _ _ Hp eq_refl).
  unfold bind at 1, Indicator.cached_metadata, Indicator.the_metric.
  unfold bind at 1. rewrite Hm, Hhit.
  cbv beta iota delta [ret bind Indicator.assign modify Indicator.update].
  simpl. rewrite Hp. simpl.
  rewrite !update_nth_update_nth.
  erewrite nth_error_restore_ctxs
    by (apply nth_error_update_nth_eq; exact Hm).
  rewrite Hm. now destruct m.
Qed.

Lemma tasks_run idxs :
  NoDup idxs ->
  forall failure w,
    (~ In i idxs ->
     apart i w (snd (Indicator.gather (map task idxs) failure w)))
    /\ (In i idxs ->
        nth_error (Indicator.metrics w) i = Some m ->
        nth_error (Indicator.progress w) i
        = Some (Indicator.mkProgressTask 0 100) ->
        nth_error
          (Indicator.metrics
             (snd (Indicator.gather (map task idxs) failure w))) i
        = Some (Indicator.with_base (Hit.adopt_state md) m)).
Proof.
  induction 1 as [|k rest Hk Hnd IH]; intros failure w.
  - split; [intros _|intros []]. simpl. destruct failure; apply apart_refl.
  - simpl.
    destruct (Nat.eq_dec k i) as [->|Hne].
    + split; [intros H; exfalso; apply H; now left|]. intros _ Hm Hp.
      pose proof (measure_metric_task_hit w Hm Hp) as Hi.
      destruct (Indicator.as_task (task i) w) as [r w1]. simpl in Hi.
      edestruct IH as [Ha _]. destruct (Ha Hk) as [Ha' _].
      rewrite Ha'. exact Hi.
    + pose proof (spares_as_task
                    (spares_measure_metric_task X get_metric_data tc
                       (Some c) Hne) w) as H1.
      fold (task k) in H1.
      destruct (Indicator.as_task (task k) w) as [r w1]. simpl in H1.
      edestruct IH as [Ha Hb]. split.
      * intros Hn. eapply apart_trans; [exact H1|]. apply Ha. tauto.
      * intros [?|Hin] Hm Hp; [contradiction|]. destruct H1 as [H1m H1p].
        apply Hb; [assumption|congruence|congruence].
Qed.

Lemma without_indicator_run idxs :
  NoDup idxs ->
  forall acc w,
    (forall k, In k idxs -> k < length (Indicator.metrics w)) ->
    (In i idxs -> nth_error (Indicator.metrics w) i = Some m) ->
    Forall (fun t => keeps (apart i) t) acc ->
    exists tasks w',
      Indicator.without_indicator X get_metric_data idxs tc (Some c) acc w
      = (inr tasks, w')
      /\ Forall (fun t => keeps (apart i) t) tasks
      /\ (~ In i idxs ->
          nth_error (Indicator.metrics w') i
          = nth_error (Indicator.metrics w) i)
      /\ (In i idxs ->
          nth_error (Indicator.metrics w') i
          = Some (Indicator.with_base (Hit.adopt_all md) m)).
Proof.
  induction 1 as [|k rest Hk Hnd IH]; intros acc w Hlt Hm Hacc.
  - exists acc, w. repeat split; auto. intros [].
  - destruct (nth_error (Indicator.metrics w) k) as [mk|] eqn:Ek;
      [|apply nth_error_None in Ek; specialize (Hlt k (or_introl eq_refl));
        lia].
    erewrite without_indicator_cons by exact Ek.
    assert (Hrest : forall k', In k' rest ->
                               k' < length (Indicator.metrics w))
      by (intros; apply Hlt; now right).
    destruct (Nat.eq_dec k i) as [->|Hne].
    + assert (mk = m) by (specialize (Hm (or_introl eq_refl)); congruence).
      subst mk. rewrite Hhit.
      destruct (IH acc
                  (Indicator.mkWorld
                     (Indicator.update_nth i
                        (Indicator.with_base (Hit.adopt_all md))
                        (Indicator.metrics w))
                     (Indicator.progress w)))
        as (tasks & w' & E & Ft & Ha & _).
      { simpl. intros. rewrite update_nth_length. auto. }
      { intros Hin. contradiction. }
      { exact Hacc. }
      exists tasks, w'. split; [exact E|]. split; [exact Ft|].
      split; [intros Hn; exfalso; apply Hn; now left|].
      intros _. rewrite (Ha Hk). simpl. now apply nth_error_update_nth_eq.
    + assert (Hm' : In i rest -> nth_error (Indicator.metrics w) i = Some m)
        by (intros; apply Hm; now right).
      assert (Hin : In i (k :: rest) -> In i rest)
        by (intros [?|?]; [contradiction|assumption]).
      assert (Hmiss :
                exists tasks w',
                  Indicator.without_indicator X get_metric_data rest tc
                    (Some c) (acc ++ [Indicator.a_measure_of X k tc]) w
                  = (inr tasks, w')
                  /\ Forall (fun t => keeps (apart i) t) tasks
                  /\ (~ In i (k :: rest) ->
                      nth_error (Indicator.metrics w') i
                      = nth_error (Indicator.metrics w) i)
                  /\ (In i (k :: rest) ->
                      nth_error (Indicator.metrics w') i
                      = Some (Indicator.with_base (Hit.adopt_all md) m))).
      { destruct (IH (acc ++ [Indicator.a_measure_of X k tc]) w Hrest Hm')
          as (tasks & w' & E & Ft & Ha & Hb).
        { apply Forall_app. split; [exact Hacc|].
          constructor; [|constructor]. now apply spares_a_measure_of. }
        exists tasks, w'. split; [exact E|]. split; [exact Ft|].
        split; [|now auto]. intros Hn. apply Ha. intros ?. apply Hn.
        now right. }
      destruct (get_metric_data mk c) as [[[found|]]|]; try exact Hmiss.
      destruct (IH acc
                  (Indicator.mkWorld
                     (Indicator.update_nth k
                        (Indicator.with_base (Hit.adopt_all found))
                        (Indicator.metrics w))
                     (Indicator.progress w)))
        as (tasks & w' & E & Ft & Ha & Hb).
      { simpl. intros. rewrite update_nth_length. auto. }
      { intros Hi. simpl. rewrite nth_error_update_nth_ne by congruence.
        auto. }
      { exact Hacc. }
      exists tasks, w'. split; [exact E|]. split; [exact Ft|].
      simpl in Ha. split; [|now auto].
      intros Hn. rewrite Ha by (intros ?; apply Hn; now right).
      apply nth_error_update_nth_ne. congruence.
Qed.

End CacheHit.

(** ** What a cache hit leaves on the metric *)

(** C3, as the claim states it, fails: with the progress bar shown, a
    metric the cache knows takes the cached score, and keeps its own
    threshold and evaluation model, which differ from the cached ones. *)
Lemma hit_keeps_threshold_and_model :
  map (fun m => (score (Indicator.base_of m),
                 threshold (Indicator.base_of m),
                 evaluation_model (Indicator.base_of m)))
    (Indicator.metrics
       (final (Indicator.measure_metrics_with_indicator Demo.X Demo.cache
                 true (Demo.test_case "q" "a") (Some tt) Sample.one_bias_metric)))
  = [(Some (1 # 4)%Q, (1 # 2)%Q, "demo"%string)]
  /\ (Indicator.MetricMetadata.score Demo.entry,
      Indicator.MetricMetadata.threshold Demo.entry,
      Indicator.MetricMetadata.evaluation_model Demo.entry)
     = (Some (1 # 4)%Q, (3 # 10)%Q, "older-model"%string).
Proof. split; vm_compute; reflexivity. Qed.

(** C3, amended.  For a metric of the call that the cache knows (the
    lookup for it returns data with metadata), the orchestrator assigns
    score, success and reason from the cached entry; with the progress bar
    shown it assigns nothing else, so threshold, strict mode and evaluation
    model stay the metric's own, and without the progress bar it also
    assigns threshold, strict mode and evaluation model from the entry.
    On both paths the metric's log of judge calls is as before: no judge
    call is made for it. *)
Theorem cache_hit_adopts (X : Externals) (CachedTestCase : Type)
    (get_metric_data :
       Indicator.AnyMetric -> CachedTestCase
       -> option Indicator.CachedMetricData)
    (show_indicator : bool) (tc : LLMTestCase) (c : CachedTestCase)
    (w : Indicator.World) (i : nat) (m : Indicator.AnyMetric)
    (md : Indicator.MetricMetadata.t) :
  nth_error (Indicator.metrics w) i = Some m ->
  get_metric_data m c = Some (Indicator.mkCachedMetricData (Some md)) ->
  exists m',
    nth_error
      (Indicator.metrics
         (final (Indicator.measure_metrics_with_indicator X get_metric_data
                   show_indicator tc (Some c) w))) i
    = Some m'
    /\ m' = Indicator.with_base
              (if show_indicator then Hit.adopt_state md
               else Hit.adopt_all md) m
    /\ score (Indicator.base_of m') = Indicator.MetricMetadata.score md
    /\ success (Indicator.base_of m')
       = Some (Indicator.MetricMetadata.success md)
    /\ reason (Indicator.base_of m')
       = option_map JStr (Indicator.MetricMetadata.reason md)
    /\ judge_calls (Indicator.base_of m') = judge_calls (Indicator.base_of m)
    /\ (threshold (Indicator.base_of m'),
        strict_mode (Indicator.base_of m'),
        evaluation_model (Indicator.base_of m'))
       = (if show_indicator
          then (threshold (Indicator.base_of m),
                strict_mode (Indicator.base_of m),
                evaluation_model (Indicator.base_of m))
          else (Indicator.MetricMetadata.threshold md,
                Indicator.MetricMetadata.strict_mode md,
                Indicator.MetricMetadata.evaluation_model md)).
Proof.
  intros Hm Hhit.
  assert (Hi : i < length (Indicator.metrics w))
    by (apply nth_error_Some; congruence).
  eexists. split; [|split; [reflexivity|]].
  - unfold final, Indicator.measure_metrics_with_indicator.
    unfold bind at 1, gets at 1. destruct show_indicator.
    + unfold bind at 1, modify at 1.
      unfold bind at 1. rewrite with_indicator_run by reflexivity.
      simpl app.
      edestruct (@tasks_run X CachedTestCase get_metric_data tc c i m md Hhit
                   (seq 0 (length (Indicator.metrics w))))
        as [_ Hb]; [apply seq_NoDup|].
      apply Hb.
      * apply in_seq. lia.
      * exact Hm.
      * simpl. now apply nth_error_repeat.
    + edestruct (@without_indicator_run X CachedTestCase get_metric_data tc c
                   i m md Hhit (seq 0 (length (Indicator.metrics w)))
                   (seq_NoDup _ _) [] w)
        as (tasks & w' & E & Ft & _ & Hb).
      { intros k Hk. apply in_seq in Hk. lia. }
      { intros _. exact Hm. }
      { constructor. }
      unfold bind at 1. rewrite E.
      destruct (spares_gather Ft None w') as [Hg _].
      rewrite Hg. apply Hb. apply in_seq. lia.
  - rewrite !base_of_with_base. destruct show_indicator; repeat split.
Qed.

(** One bias metric, the progress bar shown, and a cache with an entry. *)
Lemma cache_hit_adopts_witness :
  exists m',
    nth_error
      (Indicator.metrics
         (final (Indicator.measure_metrics_with_indicator Demo.X Demo.cache
                   true (Demo.test_case "q" "a") (Some tt) Sample.one_bias_metric)))
      0
    = Some m'
    /\ score (Indicator.base_of m') = Some (1 # 4)%Q
    /\ success (Indicator.base_of m') = Some true
    /\ reason (Indicator.base_of m') = Some (JStr "cached")
    /\ judge_calls (Indicator.base_of m') = []
    /\ threshold (Indicator.base_of m') = (1 # 2)%Q.
Proof.
  destruct (@cache_hit_adopts Demo.X unit Demo.cache true
              (Demo.test_case "q" "a") tt Sample.one_bias_metric 0
              (Indicator.OfBias Sample.bias_metric)
              Demo.entry eq_refl eq_refl)
    as (m' & E & _ & Hs & Hok & Hr & Hj & Hc).
  exists m'. split; [exact E|]. split; [exact Hs|]. split; [exact Hok|].
  split; [exact Hr|]. split; [exact Hj|]. now injection Hc.
Defined.

(* ================================================================== *)
(** * The value returned and the state shared                         *)
(* ================================================================== *)

(** ** What [measure] hands back *)

(** C1.  [measure] on a metric in async mode (the default) runs the
    evaluation and assigns the score, and returns [None]: its
    [return self.score] belongs to the synchronous branch.  The same metric
    evaluated by [a_measure], or by [measure] with [async_mode=False],
    returns the score.  Evaluated here for the three metrics, on test cases
    that carry the required parameters. *)
Theorem measure_in_async_mode_returns_none :
  (returned (Bias.measure Demo.X (Demo.test_case "q" "a") Sample.bias_metric)
   = Some None
   /\ score (base (final (Bias.measure Demo.X (Demo.test_case "q" "a")
                            Sample.bias_metric)))
      = Some (1 # 4)%Q
   /\ returned (Bias.a_measure Demo.X (Demo.test_case "q" "a")
                  Sample.bias_metric)
      = Some (Some (1 # 4)%Q)
   /\ returned (Bias.measure Demo.X (Demo.test_case "q" "a")
                  (Bias.__init__ (1 # 2)%Q Demo.judge true false false false))
      = Some (Some (1 # 4)%Q))
  /\ (returned (Faithfulness.measure Demo.X
                  (Demo.with_context (Demo.test_case "q" "a") ["ctx"%string])
                  (Faithfulness.__init__ (1 # 2)%Q Demo.judge
                     true true false false))
      = Some None
      /\ returned (Faithfulness.a_measure Demo.X
                     (Demo.with_context (Demo.test_case "q" "a")
                        ["ctx"%string])
                     (Faithfulness.__init__ (1 # 2)%Q Demo.judge
                        true true false false))
         = Some (Some 1%Q))
  /\ (returned (Summarization.measure Demo.X (Demo.test_case "in1" "out1")
                  (Demo.summarizer None true false))
      = Some None
      /\ returned (Summarization.a_measure Demo.X
                     (Demo.test_case "in1" "out1")
                     (Demo.summarizer None true false))
         = Some (Some 1%Q)).
Proof. repeat split; vm_compute; reflexivity. Qed.

(** ** One metric, two evaluations *)

(** C2.  One summarization metric, given no assessment questions, shared
    by the evaluations of two test cases that run as two tasks.  The
    questions generated for the first test case stay on the metric, a plain
    attribute where every other stage output is a context variable, and the
    evaluation of the second test case answers them: it scores 0, where the
    same test case evaluated by the metric on its own scores 1, whichever
    of the two tasks comes first. *)
Theorem generated_questions_are_shared :
  returned (gather2
              (Summarization.a_measure Demo.X (Demo.test_case "in1" "out1"))
              (Summarization.a_measure Demo.X (Demo.test_case "in2" "out2"))
              (Demo.summarizer None true false))
  = Some (Some 1%Q, Some 0%Q)
  /\ returned (gather2
                 (Summarization.a_measure Demo.X
                    (Demo.test_case "in2" "out2"))
                 (Summarization.a_measure Demo.X
                    (Demo.test_case "in1" "out1"))
                 (Demo.summarizer None true false))
     = Some (Some 1%Q, Some 0%Q)
  /\ returned (Summarization.a_measure Demo.X (Demo.test_case "in1" "out1")
                 (Demo.summarizer None true false))
     = Some (Some 1%Q)
  /\ returned (Summarization.a_measure Demo.X (Demo.test_case "in2" "out2")
                 (Demo.summarizer None true false))
     = Some (Some 1%Q)
  /\ Summarization.assessment_questions
       (ext (final (as_task
                      (Summarization.a_measure Demo.X
                         (Demo.test_case "in1" "out1"))
                      (Demo.summarizer None true false))))
     = Some (JArr [JStr "q1"])
  /\ ctx (final (as_task
                   (Summarization.a_measure Demo.X
                      (Demo.test_case "in1" "out1"))
                   (Demo.summarizer None true false)))
     = ctx (Demo.summarizer None true false).
Proof. repeat split; vm_compute; reflexivity. Qed.
